(** * Collaborative worldbuilding: content integrity and relationship graph

    A shallow embedding of the model layer of the worldbuilding API
    ([collab/models.py]) together with the timeline view
    ([collab/views/world_views.py]) and the per-entity collaboration
    reports ([collab/serializers.py], [collab/views/content_views.py]).

    Database tables are lists of rows in the order the database returns
    them; every model method is a computation in a state-and-exception
    monad over the store, in which a raised exception leaves the writes
    made so far in place (the model methods open no transaction).
    Text is modelled over 8-bit characters with Python's notion of
    whitespace and of lower-casing on the ASCII range. *)

From Stdlib Require Import ZArith List String Ascii Bool Lia Arith.
From Stdlib Require Import Permutation Sorted.
Import ListNotations.
Open Scope string_scope.
Open Scope list_scope.
Open Scope nat_scope.

Set Implicit Arguments.

(** ** Python text primitives *)

Module PyStr.

Definition isspace (c : ascii) : bool :=
  let n := nat_of_ascii c in
  ((9 <=? n) && (n <=? 13)) || ((28 <=? n) && (n <=? 32)).

Definition lower_char (c : ascii) : ascii :=
  let n := nat_of_ascii c in
  if (65 <=? n) && (n <=? 90) then ascii_of_nat (n + 32) else c.

Fixpoint lower (s : string) : string :=
  match s with
  | EmptyString => EmptyString
  | String c r => String (lower_char c) (lower r)
  end.

Fixpoint lstrip (s : string) : string :=
  match s with
  | EmptyString => EmptyString
  | String c r => if isspace c then lstrip r else s
  end.

Fixpoint rstrip (s : string) : string :=
  match s with
  | EmptyString => EmptyString
  | String c r =>
      match rstrip r with
      | EmptyString => if isspace c then EmptyString else String c EmptyString
      | r' => String c r'
      end
  end.

(** [s.strip()] *)
Definition strip (s : string) : string := lstrip (rstrip s).

(** Truth value of a string: non-empty. *)
Definition truthy (s : string) : bool :=
  match s with EmptyString => false | _ => true end.

(** [len(s.split())]: the number of maximal runs of non-whitespace. *)
Fixpoint count_words_from (in_word : bool) (s : string) : nat :=
  match s with
  | EmptyString => 0
  | String c r =>
      if isspace c then count_words_from false r
      else if in_word then count_words_from true r
           else S (count_words_from true r)
  end.

Definition count_words (s : string) : nat := count_words_from false s.

(** [s.split(sep)] for a one-character separator. *)
Fixpoint split_on (sep : ascii) (s : string) : list string :=
  match s with
  | EmptyString => [EmptyString]
  | String c r =>
      if Ascii.eqb c sep then EmptyString :: split_on sep r
      else match split_on sep r with
           | [] => [String c EmptyString]
           | w :: ws => String c w :: ws
           end
  end.

Fixpoint startswith (p s : string) : bool :=
  match p, s with
  | EmptyString, _ => true
  | String a p', String b s' => Ascii.eqb a b && startswith p' s'
  | String _ _, EmptyString => false
  end.

(** [sub in s] *)
Fixpoint contains (sub s : string) : bool :=
  startswith sub s ||
  match s with
  | EmptyString => false
  | String _ r => contains sub r
  end.

(** The [iexact] and [icontains] field lookups. *)
Definition iexact (stored value : string) : bool :=
  String.eqb (lower stored) (lower value).

Definition icontains (stored value : string) : bool :=
  contains (lower value) (lower stored).

End PyStr.

(** [l[start:stop]] with Python's treatment of negative and out-of-range
    bounds. *)
Definition py_slice {A : Type} (l : list A) (start stop : Z) : list A :=
  let len := Z.of_nat (List.length l) in
  let clamp i := if (i <? 0)%Z then Z.max (i + len) 0 else Z.min i len in
  let lo := clamp start in
  let hi := clamp stop in
  firstn (Z.to_nat (hi - lo)) (skipn (Z.to_nat lo) l).

(** ** Data model *)

Inductive Kind : Type := Page | Essay | Character | Story | Image.

Definition Kind_eqb (a b : Kind) : bool :=
  match a, b with
  | Page, Page | Essay, Essay | Character, Character
  | Story, Story | Image, Image => true
  | _, _ => false
  end.

(** [self.__class__.__name__] and its lower-cased form. *)
Definition class_name (k : Kind) : string :=
  match k with
  | Page => "Page" | Essay => "Essay" | Character => "Character"
  | Story => "Story" | Image => "Image"
  end.

Definition class_name_lower (k : Kind) : string := PyStr.lower (class_name k).

(** The uploaded file behind [Image.image_file].  The verdict of
    [validate_file_upload] and of the dimension checks, and the
    dimensions string computed from the decoded picture, are produced by
    the upload and imaging libraries and are carried with the file. *)
Record ImageFile : Type := {
  file_name : string;
  file_size : nat;
  file_dimensions : string;
  file_rejection : option string
}.

(** The value of a [JSONField]; numbers are integers. *)
Unset Elimination Schemes.
Inductive Json : Type :=
| JNull
| JBool (b : bool)
| JNumber (n : Z)
| JString (s : string)
| JArray (items : list Json)
| JObject (members : list (string * Json)).
Set Elimination Schemes.

(** [value in field.empty_values]: [None], [''], [[]] and [{}]. *)
Definition json_empty (v : Json) : bool :=
  match v with
  | JNull => true
  | JString EmptyString => true
  | JArray [] => true
  | JObject [] => true
  | _ => false
  end.

(** The columns of [Character] besides [full_name]. *)
Record CharacterColumns : Type := {
  age : string;
  species : string;
  occupation : string;
  location : string;
  personality_traits : Json;
  physical_description : string;
  background : string;
  relationships : Json
}.

(** The columns of [Story] besides [genre] and [word_count]. *)
Record StoryColumns : Type := {
  story_type : string;
  timeline_period : string;
  setting_location : string;
  main_characters : Json;
  is_canonical : bool
}.


Definition story_defaults : StoryColumns :=
  {| story_type := "short_story"; timeline_period := "";
     setting_location := ""; main_characters := JArray [];
     is_canonical := true |}.

Definition story_types : list string :=
  ["short_story"; "novella"; "chapter"; "vignette"; "legend"; "myth";
   "historical_account"].

Definition image_types : list string :=
  ["concept_art"; "map"; "character_portrait"; "location_photo";
   "item_illustration"; "scene_illustration"; "diagram"; "other"].

(** The columns that each content model adds to [ContentBase]. *)
Inductive Extra : Type :=
| PageX (summary : string)
| EssayX (abstract : string) (word_count : nat)
| CharacterX (full_name : string) (profile : CharacterColumns)
| StoryX (genre : string) (word_count : nat) (details : StoryColumns)
| ImageX (alt_text caption dimensions : string) (size : nat)
         (image_file : option ImageFile) (image_type : string).

Definition kind_of_extra (x : Extra) : Kind :=
  match x with
  | PageX _ => Page
  | EssayX _ _ => Essay
  | CharacterX _ _ => Character
  | StoryX _ _ _ => Story
  | ImageX _ _ _ _ _ _ => Image
  end.

(** An instance of one of the five content models.  [pk = None] is an
    instance that has not been saved.  [other_columns] stands for
    whatever a row carries besides the fields the models declare; no
    model code reads, validates or changes it. *)
Record Content : Type := {
  pk : option Z;
  title : string;
  content : string;
  author : option Z;
  world : option Z;
  created_at : Z;
  is_deleted : bool;
  deleted_at : option Z;
  deleted_by : option Z;
  extra : Extra;
  other_columns : list (string * string)
}.

Definition kind (e : Content) : Kind := kind_of_extra (extra e).

Record User : Type := { user_id : Z; username : string }.

Record UserProfile : Type := { profile_user : Z; contribution_count : nat }.

Record Tag : Type := {
  tag_id : Z;
  tag_name : string;
  tag_world : Z;
  tag_created_at : Z
}.

Record ContentTag : Type := {
  ct_id : Z;
  ct_content_type : Kind;
  ct_object_id : Z;
  ct_tag : Z;
  ct_created_at : Z
}.

Record ContentLink : Type := {
  link_id : Z;
  from_content_type : Kind;
  from_object_id : Z;
  to_content_type : Kind;
  to_object_id : Z;
  link_created_at : Z
}.

Record Store : Type := {
  users : list User;
  profiles : list UserProfile;
  contents : list Content;
  tags : list Tag;
  content_tags : list ContentTag;
  content_links : list ContentLink
}.

Definition empty_store : Store :=
  {| users := []; profiles := []; contents := []; tags := [];
     content_tags := []; content_links := [] |}.

(** ** Exceptions and the monad of model methods *)

Inductive Error : Type :=
| ImmutabilityViolationError (message content_type : string)
                             (content_id : option Z)
| ContentValidationError (message field code : string)
| FileUploadError (message : string)
| ValidationError (messages : list string)
| MultipleObjectsReturned
| IntegrityError
| DatabaseError
| ValueError.

Inductive Result (A : Type) : Type :=
| Returned (a : A)
| Raised (err : Error).

Arguments Returned {A} a.
Arguments Raised {A} err.

Definition M (A : Type) : Type := Store -> Result A * Store.

Definition ret {A : Type} (a : A) : M A := fun s => (Returned a, s).

Definition raise {A : Type} (err : Error) : M A := fun s => (Raised err, s).

Definition bind {A B : Type} (m : M A) (f : A -> M B) : M B :=
  fun s =>
    match m s with
    | (Returned a, s') => f a s'
    | (Raised err, s') => (Raised err, s')
    end.

Declare Scope model_scope.
Delimit Scope model_scope with model.
Notation "x <- m ;; k" := (bind m (fun x => k))
  (at level 61, m at next level, right associativity) : model_scope.
Notation "m ;;; k" := (bind m (fun _ => k))
  (at level 61, right associativity) : model_scope.
Open Scope model_scope.

(** ** Query primitives *)

Definition opt_Z_eqb (a b : option Z) : bool :=
  match a, b with
  | Some x, Some y => Z.eqb x y
  | None, None => true
  | _, _ => false
  end.

(** Outcome of [QuerySet.get]. *)
Inductive GetResult (A : Type) : Type :=
| Found (a : A)
| DoesNotExist
| Multiple.

Arguments Found {A} a.
Arguments DoesNotExist {A}.
Arguments Multiple {A}.

Definition qs_get {A : Type} (matching : list A) : GetResult A :=
  match matching with
  | [] => DoesNotExist
  | [a] => Found a
  | _ => Multiple
  end.

(** The value of the next auto-increment key of a table. *)
Definition next_id (ids : list Z) : Z := (1 + fold_right Z.max 0 ids)%Z.

Definition pks (rows : list Content) : list Z :=
  flat_map (fun r => match pk r with Some i => [i] | None => [] end) rows.

(** ** Record updates *)

Definition set_contents (rows : list Content) (s : Store) : Store :=
  {| users := users s; profiles := profiles s; contents := rows;
     tags := tags s; content_tags := content_tags s;
     content_links := content_links s |}.

Definition set_profiles (rows : list UserProfile) (s : Store) : Store :=
  {| users := users s; profiles := rows; contents := contents s;
     tags := tags s; content_tags := content_tags s;
     content_links := content_links s |}.

Definition set_tags (rows : list Tag) (s : Store) : Store :=
  {| users := users s; profiles := profiles s; contents := contents s;
     tags := rows; content_tags := content_tags s;
     content_links := content_links s |}.

Definition set_content_tags (rows : list ContentTag) (s : Store) : Store :=
  {| users := users s; profiles := profiles s; contents := contents s;
     tags := tags s; content_tags := rows;
     content_links := content_links s |}.

Definition set_content_links (rows : list ContentLink) (s : Store) : Store :=
  {| users := users s; profiles := profiles s; contents := contents s;
     tags := tags s; content_tags := content_tags s;
     content_links := rows |}.

(** Assignment to the soft-delete triad of an instance. *)
Definition set_triad (d : bool) (at_ : option Z) (by_ : option Z)
  (e : Content) : Content :=
  {| pk := pk e; title := title e; content := content e;
     author := author e; world := world e; created_at := created_at e;
     is_deleted := d; deleted_at := at_; deleted_by := by_;
     extra := extra e; other_columns := other_columns e |}.

Definition set_extra (x : Extra) (e : Content) : Content :=
  {| pk := pk e; title := title e; content := content e;
     author := author e; world := world e; created_at := created_at e;
     is_deleted := is_deleted e; deleted_at := deleted_at e;
     deleted_by := deleted_by e;
     extra := x; other_columns := other_columns e |}.

(** What an INSERT does to the instance: the key is filled in and
    [created_at] ([auto_now_add]) is stamped. *)
Definition set_inserted (i : option Z) (now : Z) (e : Content) : Content :=
  {| pk := i; title := title e; content := content e;
     author := author e; world := world e; created_at := now;
     is_deleted := is_deleted e; deleted_at := deleted_at e;
     deleted_by := deleted_by e;
     extra := extra e; other_columns := other_columns e |}.

(** ** Managers of the content models *)

(** [cls.all_objects]: every row of the table of kind [k]. *)
Definition all_objects (k : Kind) (s : Store) : list Content :=
  filter (fun r => Kind_eqb (kind r) k) (contents s).

(** [cls.objects] ([SoftDeleteManager]): rows with [is_deleted=False]. *)
Definition objects (k : Kind) (s : Store) : list Content :=
  filter (fun r => negb (is_deleted r)) (all_objects k s).

(** Row of the table of [e]'s model with [e]'s primary key. *)
Definition same_row (e r : Content) : bool :=
  Kind_eqb (kind r) (kind e) && opt_Z_eqb (pk r) (pk e).

(** ** [models.Model.save] on a content table *)

Definition Model_save (now : Z) (force_update : bool) (e : Content)
  : M Content :=
  fun s =>
    match pk e with
    | Some _ =>
        if existsb (same_row e) (contents s) then
          (Returned e,
           set_contents
             (map (fun r => if same_row e r then e else r) (contents s)) s)
        else if force_update then (Raised DatabaseError, s)
        else
          let e' := set_inserted (pk e) now e in
          (Returned e', set_contents (contents s ++ [e']) s)
    | None =>
        if force_update then (Raised ValueError, s)
        else
          let i := next_id (pks (all_objects (kind e) s)) in
          let e' := set_inserted (Some i) now e in
          (Returned e', set_contents (contents s ++ [e']) s)
    end.

(** ** [ImmutableModelMixin] *)

(** Truth value of [self.pk]. *)
Definition pk_truthy (e : Content) : bool :=
  match pk e with
  | Some i => negb (Z.eqb i 0)
  | None => false
  end.

Definition immutability_modified (e : Content) : Error :=
  ImmutabilityViolationError
    (String.append (class_name (kind e))
       " content cannot be modified after creation")
    (class_name_lower (kind e)) (pk e).

Definition ImmutableModelMixin_save (now : Z) (force_update : bool)
  (e : Content) : M Content :=
  if pk_truthy e && negb force_update then
    fun s =>
      match qs_get (filter (same_row e) (contents s)) with
      | Found current =>
          if negb (Bool.eqb (is_deleted e) (is_deleted current))
             || negb (opt_Z_eqb (deleted_at e) (deleted_at current))
             || negb (opt_Z_eqb (deleted_by e) (deleted_by current))
          then Model_save now force_update e s
          else (Raised (immutability_modified e), s)
      | DoesNotExist => (Raised (immutability_modified e), s)
      | Multiple => (Raised MultipleObjectsReturned, s)
      end
  else Model_save now force_update e.

(** ** [SoftDeleteMixin] *)

Definition soft_delete (now : Z) (user : option Z) (e : Content)
  : M Content :=
  ImmutableModelMixin_save now true (set_triad true (Some now) user e).

Definition restore (now : Z) (e : Content) : M Content :=
  ImmutableModelMixin_save now true (set_triad false None None e).

(** [ImmutableModelMixin.delete]: every content model has [soft_delete],
    so the first branch is the one taken. *)
Definition delete (now : Z) (user : option Z) (e : Content) : M unit :=
  soft_delete now user e ;;; ret tt.

(** ** Validation of content ([ContentBase.clean] and overrides) *)

Definition is_none {A : Type} (o : option A) : bool :=
  match o with None => true | Some _ => false end.

(** The duplicate-title query:
    [objects.filter(world=.., title__iexact=title.strip()).exclude(pk=..)]. *)
Definition title_conflicts (e : Content) (s : Store) : list Content :=
  filter
    (fun r =>
       opt_Z_eqb (world r) (world e)
       && PyStr.iexact (title r) (PyStr.strip (title e))
       && negb (match pk e with
                | Some _ => opt_Z_eqb (pk r) (pk e)
                | None => false
                end))
    (objects (kind e) s).

Definition ContentBase_clean (e : Content) (s : Store) : option Error :=
  if negb (PyStr.truthy (title e))
     || negb (PyStr.truthy (PyStr.strip (title e))) then
    Some (ContentValidationError "Content title cannot be empty"
            "title" "required")
  else if String.length (PyStr.strip (title e)) <? 3 then
    Some (ContentValidationError
            "Content title must be at least 3 characters long"
            "title" "min_length")
  else if 300 <? String.length (PyStr.strip (title e)) then
    Some (ContentValidationError
            "Content title cannot exceed 300 characters"
            "title" "max_length")
  else if negb (PyStr.truthy (content e))
          || negb (PyStr.truthy (PyStr.strip (content e))) then
    Some (ContentValidationError "Content body cannot be empty"
            "content" "required")
  else if String.length (PyStr.strip (content e)) <? 10 then
    Some (ContentValidationError
            "Content body must be at least 10 characters long"
            "content" "min_length")
  else if is_none (world e) then
    Some (ContentValidationError
            "Content must be associated with a world" "world" "required")
  else if is_none (author e) then
    Some (ContentValidationError "Content must have an author"
            "author" "required")
  else
    match title_conflicts e s with
    | [] => None
    | _ :: _ =>
        Some (ContentValidationError
                (String.append "A "
                   (String.append (class_name_lower (kind e))
                      " with this title already exists in this world"))
                "title" "unique_within_world")
    end.

(** [self.clean()] with the overrides of [Character] and [Image]. *)
Definition clean (e : Content) (s : Store) : option Error :=
  match ContentBase_clean e s with
  | Some err => Some err
  | None =>
      match extra e with
      | CharacterX full_name _ =>
          if negb (PyStr.truthy (PyStr.strip full_name)) then
            Some (ValidationError ["Character must have a full name"])
          else None
      | ImageX alt_text caption _ _ image_file _ =>
          if negb (PyStr.truthy alt_text)
             || negb (PyStr.truthy (PyStr.strip alt_text)) then
            Some (ContentValidationError
                    "Images must have alt text for accessibility"
                    "alt_text" "required")
          else if 200 <? String.length (PyStr.strip alt_text) then
            Some (ContentValidationError
                    "Alt text cannot exceed 200 characters"
                    "alt_text" "max_length")
          else if PyStr.truthy caption
                  && (500 <? String.length (PyStr.strip caption)) then
            Some (ContentValidationError
                    "Caption cannot exceed 500 characters"
                    "caption" "max_length")
          else
            match image_file with
            | Some f =>
                match file_rejection f with
                | Some msg => Some (FileUploadError msg)
                | None => None
                end
            | None => None
            end
      | _ => None
      end
  end.

(** Field validators declared on the columns, as [Model.clean_fields]
    runs them ([Field.validate], then the field's validators unless the
    value is empty); each violation is reported as ["field: code"]. *)
Definition check_blank (field value : string) : list string :=
  if PyStr.truthy value then [] else [String.append field ": blank"].

Definition check_max_length (field : string) (n : nat) (value : string)
  : list string :=
  if n <? String.length value then [String.append field ": max_length"] else [].

Definition check_null {A : Type} (field : string) (value : option A)
  : list string :=
  if is_none value then [String.append field ": null"] else [].

(** A [JSONField] declared without [null=True] and [blank=True]. *)
Definition check_json (field : string) (value : Json) : list string :=
  match value with
  | JNull => [String.append field ": null"]
  | _ => if json_empty value then [String.append field ": blank"] else []
  end.

(** A [CharField] with [choices] and without [blank=True]: the choice is
    checked first, the length validator runs on a valid choice. *)
Definition check_choice (field : string) (choices : list string) (n : nat)
  (value : string) : list string :=
  if PyStr.truthy value then
    if existsb (String.eqb value) choices
    then check_max_length field n value
    else [String.append field ": invalid_choice"]
  else [String.append field ": blank"].

(** A [PositiveIntegerField]: the range validators of the database
    backend, here the 32-bit column of the PostgreSQL backend of
    [settings/production.py]. *)
Definition check_positive_integer (field : string) (value : nat)
  : list string :=
  if (2147483647 <? Z.of_nat value)%Z
  then [String.append field ": max_value"] else [].

(** An [ImageField] without [blank=True]. *)
Definition check_file (field : string) (value : option ImageFile)
  : list string :=
  match value with
  | Some _ => []
  | None => [String.append field ": blank"]
  end.

Definition clean_fields (e : Content) : list string :=
  check_blank "title" (title e) ++ check_max_length "title" 300 (title e)
  ++ check_blank "content" (content e)
  ++ check_null "author" (author e)
  ++ check_null "world" (world e)
  ++ match extra e with
     | PageX summary => check_max_length "summary" 500 summary
     | EssayX _ word_count => check_positive_integer "word_count" word_count
     | CharacterX full_name c =>
         check_blank "full_name" full_name
         ++ check_max_length "full_name" 200 full_name
         ++ check_max_length "age" 50 (age c)
         ++ check_max_length "species" 100 (species c)
         ++ check_max_length "occupation" 200 (occupation c)
         ++ check_max_length "location" 200 (location c)
         ++ check_json "personality_traits" (personality_traits c)
         ++ check_json "relationships" (relationships c)
     | StoryX genre word_count d =>
         check_max_length "genre" 100 genre
         ++ check_choice "story_type" story_types 50 (story_type d)
         ++ check_max_length "timeline_period" 200 (timeline_period d)
         ++ check_max_length "setting_location" 200 (setting_location d)
         ++ check_json "main_characters" (main_characters d)
         ++ check_positive_integer "word_count" word_count
     | ImageX alt_text caption dimensions size image_file image_type =>
         check_file "image_file" image_file
         ++ check_max_length "caption" 500 caption
         ++ check_blank "alt_text" alt_text
         ++ check_max_length "alt_text" 200 alt_text
         ++ check_choice "image_type" image_types 50 image_type
         ++ check_max_length "dimensions" 50 dimensions
         ++ check_positive_integer "file_size" size
     end.

(** [Model.full_clean]: field errors are collected, then [clean] runs; a
    Django [ValidationError] from [clean] is merged with the field errors,
    any other exception propagates as it is. *)
Definition full_clean (e : Content) : M unit :=
  fun s =>
    match clean e s with
    | Some (ValidationError msgs) =>
        (Raised (ValidationError (clean_fields e ++ msgs)), s)
    | Some err => (Raised err, s)
    | None =>
        match clean_fields e with
        | [] => (Returned tt, s)
        | errs => (Raised (ValidationError errs), s)
        end
    end.

(** ** Saving content *)

(** [UserProfile.objects.get_or_create(user=author)], then
    [contribution_count += 1] and [profile.save()]. *)
Definition bump_contribution (u : Z) : M unit :=
  fun s =>
    match qs_get (filter (fun p => Z.eqb (profile_user p) u) (profiles s)) with
    | Found p =>
        (Returned tt,
         set_profiles
           (map (fun q =>
                   if Z.eqb (profile_user q) u
                   then {| profile_user := u;
                           contribution_count := S (contribution_count p) |}
                   else q)
              (profiles s)) s)
    | DoesNotExist =>
        (Returned tt,
         set_profiles
           (profiles s ++ [{| profile_user := u; contribution_count := 1 |}])
           s)
    | Multiple => (Raised MultipleObjectsReturned, s)
    end.

Definition ContentBase_save (now : Z) (force_update : bool) (e : Content)
  : M Content :=
  full_clean e ;;;
  e' <- ImmutableModelMixin_save now force_update e ;;
  if is_none (pk e) then
    match author e with
    | Some u => bump_contribution u ;;; ret e'
    | None => ret e'
    end
  else ret e'.

(** The field updates that the [save] overrides make before handing over
    to [ContentBase.save]: [Essay] and [Story] recompute [word_count]
    when the body is non-empty, [Image] refreshes its file metadata when
    a file is attached. *)
Definition pre_save (e : Content) : Content :=
  match extra e with
  | EssayX abstract _ =>
      if PyStr.truthy (content e)
      then set_extra (EssayX abstract (PyStr.count_words (content e))) e
      else e
  | StoryX genre _ details =>
      if PyStr.truthy (content e)
      then set_extra (StoryX genre (PyStr.count_words (content e)) details) e
      else e
  | ImageX alt_text caption _ _ (Some f) image_type =>
      set_extra
        (ImageX alt_text caption (file_dimensions f) (file_size f) (Some f)
           image_type) e
  | _ => e
  end.

(** [save()] as dispatched on the model class. *)
Definition save (now : Z) (force_update : bool) (e : Content) : M Content :=
  ContentBase_save now force_update (pre_save e).

(** [cls.objects.create] with the given field values: a fresh instance is saved. *)
Definition create (now : Z) (e : Content) : M Content :=
  save now false (set_inserted None (created_at e) e).

(** ** Ordered query sets *)

(** Stable insertion sort: [x], which precedes every element of [l] in
    the input, is moved behind exactly the elements it must follow. *)
Fixpoint insert_after {A : Type} (goes_after : A -> A -> bool) (x : A)
  (l : list A) : list A :=
  match l with
  | [] => [x]
  | y :: r =>
      if goes_after x y then y :: insert_after goes_after x r else x :: l
  end.

Definition stable_sort {A : Type} (goes_after : A -> A -> bool)
  (l : list A) : list A :=
  fold_right (insert_after goes_after) [] l.

(** [sort(key=lambda x: x.created_at, reverse=True)], also the
    [ordering = ['-created_at']] of the content models. *)
Definition newest_first (l : list Content) : list Content :=
  stable_sort (fun x y => (created_at x <? created_at y)%Z) l.

(** [ordering = ['name']] of [Tag]. *)
Definition by_name (l : list Tag) : list Tag :=
  stable_sort (fun x y => String.ltb (tag_name y) (tag_name x)) l.

(** ** Linking subsystem *)

Definition WorldMismatch : Error :=
  ValidationError ["Cannot link content from different worlds"].

Definition SelfLink : Error :=
  ValidationError ["Content cannot link to itself"].

(** Rows selected by the four-column lookup of [link_to] and
    [unlink_from]; a lookup with a [None] key selects nothing. *)
Definition link_lookup (fk : Kind) (fid : option Z) (tk : Kind)
  (tid : option Z) (l : ContentLink) : bool :=
  Kind_eqb (from_content_type l) fk
  && opt_Z_eqb (Some (from_object_id l)) fid
  && Kind_eqb (to_content_type l) tk
  && opt_Z_eqb (Some (to_object_id l)) tid.

(** [ContentLink.clean] *)
Definition ContentLink_clean (fk : Kind) (fid : option Z) (tk : Kind)
  (tid : option Z) : list string :=
  if Kind_eqb fk tk && opt_Z_eqb fid tid
  then ["Content cannot link to itself"] else [].

(** [ContentLink.objects.create]: [save] runs [full_clean] (null checks,
    [clean], then the [unique_together] check) before the INSERT. *)
Definition ContentLink_create (now : Z) (fk : Kind) (fid : option Z)
  (tk : Kind) (tid : option Z) : M ContentLink :=
  fun s =>
    match fid, tid with
    | Some i, Some j =>
        match
          ContentLink_clean fk fid tk tid
          ++ (if existsb (link_lookup fk fid tk tid) (content_links s)
              then ["unique_together"] else [])
        with
        | [] =>
            let l := {| link_id := next_id (map link_id (content_links s));
                        from_content_type := fk; from_object_id := i;
                        to_content_type := tk; to_object_id := j;
                        link_created_at := now |} in
            (Returned l, set_content_links (content_links s ++ [l]) s)
        | errs => (Raised (ValidationError errs), s)
        end
    | _, _ =>
        (Raised (ValidationError
                   (check_null "from_object_id" fid
                    ++ check_null "to_object_id" tid
                    ++ ContentLink_clean fk fid tk tid)), s)
    end.

Definition ContentLink_get_or_create (now : Z) (fk : Kind) (fid : option Z)
  (tk : Kind) (tid : option Z) : M ContentLink :=
  fun s =>
    match qs_get (filter (link_lookup fk fid tk tid) (content_links s)) with
    | Found l => (Returned l, s)
    | DoesNotExist => ContentLink_create now fk fid tk tid s
    | Multiple => (Raised MultipleObjectsReturned, s)
    end.

Definition link_to (now : Z) (self target : Content) : M ContentLink :=
  if negb (opt_Z_eqb (world target) (world self)) then raise WorldMismatch
  else
    forward_link <-
      ContentLink_get_or_create now (kind self) (pk self)
        (kind target) (pk target) ;;
    ContentLink_get_or_create now (kind target) (pk target)
      (kind self) (pk self) ;;;
    ret forward_link.

(** [link.delete()]: DELETE by primary key. *)
Definition ContentLink_delete (l : ContentLink) : M unit :=
  fun s =>
    (Returned tt,
     set_content_links
       (filter (fun r => negb (Z.eqb (link_id r) (link_id l)))
          (content_links s)) s).

(** [ContentLink.objects.get] inside the [try] of [unlink_from]:
    [DoesNotExist] is the exception the [except] clause handles. *)
Definition ContentLink_get (fk : Kind) (fid : option Z) (tk : Kind)
  (tid : option Z) : M (option ContentLink) :=
  fun s =>
    match qs_get (filter (link_lookup fk fid tk tid) (content_links s)) with
    | Found l => (Returned (Some l), s)
    | DoesNotExist => (Returned None, s)
    | Multiple => (Raised MultipleObjectsReturned, s)
    end.

Definition unlink_from (self target : Content) : M bool :=
  forward_link <-
    ContentLink_get (kind self) (pk self) (kind target) (pk target) ;;
  match forward_link with
  | None => ret false
  | Some fl =>
      ContentLink_delete fl ;;;
      reverse_link <-
        ContentLink_get (kind target) (pk target) (kind self) (pk self) ;;
      match reverse_link with
      | None => ret false
      | Some rl => ContentLink_delete rl ;;; ret true
      end
  end.

(** Dereferencing a generic foreign key: the row of the given table with
    the given key, whether soft-deleted or not; [None] when it does not
    resolve. *)
Definition resolve (k : Kind) (i : Z) (s : Store) : option Content :=
  match
    qs_get (filter (fun r => opt_Z_eqb (pk r) (Some i)) (all_objects k s))
  with
  | Found r => Some r
  | _ => None
  end.

Definition outgoing_links (self : Content) (s : Store) : list ContentLink :=
  filter
    (fun l => Kind_eqb (from_content_type l) (kind self)
              && opt_Z_eqb (Some (from_object_id l)) (pk self))
    (content_links s).

Definition incoming_links (self : Content) (s : Store) : list ContentLink :=
  filter
    (fun l => Kind_eqb (to_content_type l) (kind self)
              && opt_Z_eqb (Some (to_object_id l)) (pk self))
    (content_links s).

Definition get_linked_content (self : Content) (s : Store) : list Content :=
  flat_map
    (fun l =>
       match resolve (to_content_type l) (to_object_id l) s with
       | Some c => [c]
       | None => []
       end)
    (outgoing_links self s).

Definition get_content_linking_to_this (self : Content) (s : Store)
  : list Content :=
  flat_map
    (fun l =>
       match resolve (from_content_type l) (from_object_id l) s with
       | Some c => [c]
       | None => []
       end)
    (incoming_links self s).

(** ** Tagging subsystem *)

(** [name.strip().lower()] *)
Definition normalize (name : string) : string :=
  PyStr.lower (PyStr.strip name).

(** Rows selected by [Tag.objects.get(name=.., world=..)]. *)
Definition tag_lookup (name : string) (w : option Z) (t : Tag) : bool :=
  String.eqb (tag_name t) name && opt_Z_eqb (Some (tag_world t)) w.

(** [Tag.objects.create]: [Tag.save] runs [full_clean] -- the column
    validators on the name as given, [Tag.clean], which rejects a blank
    name and otherwise normalizes it, and the [unique_together] check on
    the normalized name -- before the INSERT. *)
Definition Tag_create (now : Z) (name : string) (w : option Z) : M Tag :=
  fun s =>
    let field_errors :=
      check_blank "name" name ++ check_max_length "name" 100 name
      ++ check_null "world" w in
    let blank := negb (PyStr.truthy (PyStr.strip name)) in
    let name' := if blank then name else normalize name in
    let clean_errors := if blank then ["Tag name cannot be empty"] else [] in
    let unique_errors :=
      match field_errors with
      | [] => if existsb (tag_lookup name' w) (tags s)
              then ["unique_together"] else []
      | _ => []
      end in
    match field_errors ++ clean_errors ++ unique_errors, w with
    | [], Some wid =>
        let t := {| tag_id := next_id (map tag_id (tags s));
                    tag_name := name'; tag_world := wid;
                    tag_created_at := now |} in
        (Returned t, set_tags (tags s ++ [t]) s)
    | errs, _ => (Raised (ValidationError errs), s)
    end.

Definition Tag_get_or_create (now : Z) (name : string) (w : option Z)
  : M Tag :=
  fun s =>
    match qs_get (filter (tag_lookup name w) (tags s)) with
    | Found t => (Returned t, s)
    | DoesNotExist => Tag_create now name w s
    | Multiple => (Raised MultipleObjectsReturned, s)
    end.

(** Rows selected by
    [ContentTag.objects.get(content_type=.., object_id=.., tag=..)]. *)
Definition content_tag_lookup (k : Kind) (oid : option Z) (tag : Z)
  (c : ContentTag) : bool :=
  Kind_eqb (ct_content_type c) k
  && opt_Z_eqb (Some (ct_object_id c)) oid
  && Z.eqb (ct_tag c) tag.

(** [ContentTag] has no [save] override: the INSERT is checked by the
    database only (NOT NULL on [object_id]). *)
Definition ContentTag_get_or_create (now : Z) (k : Kind) (oid : option Z)
  (tag : Z) : M ContentTag :=
  fun s =>
    match qs_get (filter (content_tag_lookup k oid tag) (content_tags s)) with
    | Found c => (Returned c, s)
    | DoesNotExist =>
        match oid with
        | Some i =>
            let c := {| ct_id := next_id (map ct_id (content_tags s));
                        ct_content_type := k; ct_object_id := i;
                        ct_tag := tag; ct_created_at := now |} in
            (Returned c, set_content_tags (content_tags s ++ [c]) s)
        | None => (Raised IntegrityError, s)
        end
    | Multiple => (Raised MultipleObjectsReturned, s)
    end.

Definition add_tag (now : Z) (self : Content) (tag_name : string)
  : M ContentTag :=
  let tag_name := normalize tag_name in
  if negb (PyStr.truthy tag_name) then
    raise (ValidationError ["Tag name cannot be empty"])
  else
    tag <- Tag_get_or_create now tag_name (world self) ;;
    ContentTag_get_or_create now (kind self) (pk self) (tag_id tag).

Definition remove_tag (self : Content) (tag_name : string) : M bool :=
  fun s =>
    match qs_get (filter (tag_lookup (normalize tag_name) (world self))
                    (tags s)) with
    | Found tag =>
        match qs_get (filter (content_tag_lookup (kind self) (pk self)
                                (tag_id tag)) (content_tags s)) with
        | Found c =>
            (Returned true,
             set_content_tags
               (filter (fun r => negb (Z.eqb (ct_id r) (ct_id c)))
                  (content_tags s)) s)
        | DoesNotExist => (Returned false, s)
        | Multiple => (Raised MultipleObjectsReturned, s)
        end
    | DoesNotExist => (Returned false, s)
    | Multiple => (Raised MultipleObjectsReturned, s)
    end.

Definition mem_Z (i : Z) (l : list Z) : bool := existsb (Z.eqb i) l.

Definition get_tags (self : Content) (s : Store) : list Tag :=
  let tag_ids :=
    map ct_tag
      (filter
         (fun c => Kind_eqb (ct_content_type c) (kind self)
                   && opt_Z_eqb (Some (ct_object_id c)) (pk self))
         (content_tags s)) in
  by_name (filter (fun t => mem_Z (tag_id t) tag_ids) (tags s)).

(** [ContentTag.objects.filter(tag=tag, content_type=ct)
       .values_list('object_id', flat=True)] *)
Definition tag_content_ids (k : Kind) (tag : Tag) (s : Store) : list Z :=
  map ct_object_id
    (filter
       (fun c => Z.eqb (ct_tag c) (tag_id tag)
                 && Kind_eqb (ct_content_type c) k)
       (content_tags s)).

(** [cls.objects.filter(id__in=content_ids, world=world)] *)
Definition content_with_ids (k : Kind) (w : Z) (content_ids : list Z)
  (s : Store) : list Content :=
  newest_first
    (filter
       (fun r =>
          match pk r with
          | Some i => mem_Z i content_ids
          | None => false
          end
          && opt_Z_eqb (world r) (Some w))
       (objects k s)).

Definition get_content_by_tag (k : Kind) (w : Z) (tag_name : string)
  (s : Store) : list Content :=
  match qs_get (filter (tag_lookup (normalize tag_name) (Some w)) (tags s)) with
  | Found tag => content_with_ids k w (tag_content_ids k tag s) s
  | _ => []
  end.

(** The [tag_names] argument: a list of names or one comma-separated
    string. *)
Inductive TagNames : Type :=
| NameList (names : list string)
| CommaSeparated (names : string).

Definition intersection (a b : list Z) : list Z :=
  filter (fun i => mem_Z i b) a.

Definition get_content_by_tags (k : Kind) (w : Z) (tag_names : TagNames)
  (match_all : bool) (s : Store) : list Content :=
  let tag_names :=
    match tag_names with
    | CommaSeparated str => map normalize (PyStr.split_on "," str)
    | NameList names => map normalize names
    end in
  let tag_names := filter PyStr.truthy tag_names in
  match tag_names with
  | [] => []
  | _ :: _ =>
      let tags :=
        by_name
          (filter
             (fun t => existsb (String.eqb (tag_name t)) tag_names
                       && Z.eqb (tag_world t) w)
             (tags s)) in
      if match_all then
        let content_ids :=
          fold_left
            (fun acc tag =>
               match acc with
               | None => Some (tag_content_ids k tag s)
               | Some ids => Some (intersection ids (tag_content_ids k tag s))
               end)
            tags None in
        match content_ids with
        | Some (i :: ids) => content_with_ids k w (i :: ids) s
        | _ => []
        end
      else
        content_with_ids k w
          (flat_map (fun tag => tag_content_ids k tag s) tags) s
  end.

(** ** Timeline ([WorldViewSet.timeline]) *)

(** The query parameters after parsing: [limit] and [offset] as
    integers, the date bounds as instants. *)
Record TimelineQuery : Type := {
  q_limit : Z;
  q_offset : Z;
  q_content_types : string;
  q_author : string;
  q_tags : string;
  q_start_date : option Z;
  q_end_date : option Z;
  q_search : string
}.

Definition default_query : TimelineQuery :=
  {| q_limit := 50; q_offset := 0; q_content_types := ""; q_author := "";
     q_tags := ""; q_start_date := None; q_end_date := None;
     q_search := "" |}.

Definition type_mapping (t : string) : string :=
  if String.eqb t "page" then "pages"
  else if String.eqb t "essay" then "essays"
  else if String.eqb t "character" then "characters"
  else if String.eqb t "story" then "stories"
  else if String.eqb t "image" then "images"
  else t.

Definition requested_types (q : TimelineQuery) : list string :=
  if PyStr.truthy (q_content_types q) then
    map (fun t => type_mapping (normalize t))
      (PyStr.split_on "," (q_content_types q))
  else [].

(** The [content_models] dictionary, in its iteration order. *)
Definition content_models : list (string * Kind) :=
  [("pages", Page); ("essays", Essay); ("characters", Character);
   ("stories", Story); ("images", Image)].

Definition username_of (u : option Z) (s : Store) : string :=
  match u with
  | Some i =>
      match find (fun r => Z.eqb (user_id r) i) (users s) with
      | Some r => username r
      | None => ""
      end
  | None => ""
  end.

(** The filtered query set of one model in the timeline loop. *)
Definition timeline_queryset (w : Z) (q : TimelineQuery) (k : Kind)
  (s : Store) : list Content :=
  let qs := filter (fun r => opt_Z_eqb (world r) (Some w)) (objects k s) in
  let qs :=
    if PyStr.truthy (q_author q) then
      filter
        (fun r =>
           existsb
             (fun u => opt_Z_eqb (Some (user_id u)) (author r)
                       && PyStr.icontains (username u) (q_author q))
             (users s))
        qs
    else qs in
  let qs :=
    match q_start_date q with
    | Some d => filter (fun r => (d <=? created_at r)%Z) qs
    | None => qs
    end in
  let qs :=
    match q_end_date q with
    | Some d => filter (fun r => (created_at r <=? d)%Z) qs
    | None => qs
    end in
  let qs :=
    if PyStr.truthy (q_search q) then
      filter
        (fun r => PyStr.icontains (title r) (q_search q)
                  || PyStr.icontains (content r) (q_search q))
        qs
    else qs in
  let qs :=
    if PyStr.truthy (q_tags q) then
      let tag_names :=
        map normalize
          (filter (fun n => PyStr.truthy (PyStr.strip n))
             (PyStr.split_on "," (q_tags q))) in
      match tag_names with
      | [] => qs
      | _ :: _ =>
          let tagged_ids :=
            pks (get_content_by_tags k w (NameList tag_names) false s) in
          filter
            (fun r => match pk r with
                      | Some i => mem_Z i tagged_ids
                      | None => false
                      end)
            qs
      end
    else qs in
  newest_first qs.

(** [all_content] before the final sort: the query sets of the requested
    models one after the other. *)
Definition timeline_gather (w : Z) (q : TimelineQuery) (s : Store)
  : list Content :=
  flat_map
    (fun m =>
       let '(type_name, k) := m in
       match requested_types q with
       | [] => timeline_queryset w q k s
       | req =>
           if existsb (String.eqb type_name) req
           then timeline_queryset w q k s else []
       end)
    content_models.

Definition timeline_sorted (w : Z) (q : TimelineQuery) (s : Store)
  : list Content :=
  newest_first (timeline_gather w q s).

(** The page of the timeline that the response serializes, item by item
    and in this order. *)
Definition timeline (w : Z) (q : TimelineQuery) (s : Store) : list Content :=
  let limit := Z.min (q_limit q) 200 in
  let offset := q_offset q in
  py_slice (timeline_sorted w q s) offset (offset + limit)%Z.

(** [World.get_content_timeline]: all content of the world, newest
    first. *)
Definition get_content_timeline (w : Z) (s : Store) : list Content :=
  newest_first
    (flat_map
       (fun k =>
          newest_first
            (filter (fun r => opt_Z_eqb (world r) (Some w)) (objects k s)))
       [Page; Essay; Character; Story; Image]).

(** ** Attribution and collaboration reports *)

Definition string_set (l : list string) : list string :=
  nodup string_dec l.

Definition other_authored (obj c : Content) : bool :=
  negb (opt_Z_eqb (author c) (author obj)).

Record CollaborationInfo : Type := {
  links_to_count : nat;
  linked_from_count : nat;
  tags_count : nat;
  references_other_authors : list string;
  referenced_by_authors : list string;
  info_is_collaborative : bool;
  info_collaboration_score : nat
}.

(** [ContentBaseSerializer.get_collaboration_info] *)
Definition get_collaboration_info (obj : Content) (s : Store)
  : CollaborationInfo :=
  let linked_count := List.length (get_linked_content obj s) in
  let linking_count := List.length (get_content_linking_to_this obj s) in
  let tags_count := List.length (get_tags obj s) in
  let referenced_authors :=
    string_set
      (map (fun c => username_of (author c) s)
         (filter (other_authored obj) (get_linked_content obj s))) in
  let referencing_authors :=
    string_set
      (map (fun c => username_of (author c) s)
         (filter (other_authored obj) (get_content_linking_to_this obj s))) in
  {| links_to_count := linked_count;
     linked_from_count := linking_count;
     tags_count := tags_count;
     references_other_authors := referenced_authors;
     referenced_by_authors := referencing_authors;
     info_is_collaborative :=
       (0 <? List.length referenced_authors)
       || (0 <? List.length referencing_authors);
     info_collaboration_score := linked_count + linking_count + tags_count |}.

Inductive CollaborationType : Type :=
| bidirectional | outgoing | incoming | standalone.

Record CollaborationMetrics : Type := {
  total_references_made : nat;
  total_references_received : nat;
  cross_author_references_made : nat;
  cross_author_references_received : nat;
  collaboration_score : nat;
  is_collaborative : bool;
  collaboration_type : CollaborationType
}.

(** The [collaboration_metrics] of
    [ContentViewSetMixin.attribution_details]. *)
Definition attribution_details (obj : Content) (s : Store)
  : CollaborationMetrics :=
  let references_made := get_linked_content obj s in
  let references_received := get_content_linking_to_this obj s in
  let cross_made :=
    List.length (filter (other_authored obj) references_made) in
  let cross_received :=
    List.length (filter (other_authored obj) references_received) in
  {| total_references_made := List.length references_made;
     total_references_received := List.length references_received;
     cross_author_references_made := cross_made;
     cross_author_references_received := cross_received;
     collaboration_score := cross_made + cross_received;
     is_collaborative := (0 <? cross_made) || (0 <? cross_received);
     collaboration_type :=
       if (0 <? cross_made) && (0 <? cross_received) then bidirectional
       else if 0 <? cross_made then outgoing
       else if 0 <? cross_received then incoming
       else standalone |}.

(** The per-entity score in the wording of the specification: distinct
    other-authored link targets, plus distinct other-authored link
    sources, plus the number of tags. *)
Definition same_entity (a b : Content) : bool :=
  Kind_eqb (kind a) (kind b) && opt_Z_eqb (pk a) (pk b).

Fixpoint distinct_entities (l : list Content) : list Content :=
  match l with
  | [] => []
  | c :: r =>
      if existsb (same_entity c) r then distinct_entities r
      else c :: distinct_entities r
  end.

Definition spec_collaboration_score (obj : Content) (s : Store) : nat :=
  List.length
    (distinct_entities
       (filter (other_authored obj) (get_linked_content obj s)))
  + List.length
      (distinct_entities
         (filter (other_authored obj) (get_content_linking_to_this obj s)))
  + List.length (get_tags obj s).

(** ** Further model methods *)

(** [SoftDeleteManager.with_deleted] and [SoftDeleteManager.deleted_only]. *)
Definition with_deleted (k : Kind) (s : Store) : list Content :=
  all_objects k s.

Definition deleted_only (k : Kind) (s : Store) : list Content :=
  filter is_deleted (all_objects k s).

(** The loop of [ContentBase.add_tags]: blank names are skipped, every
    other name goes through [add_tag]; an exception stops the loop and
    keeps the tags added so far. *)
Fixpoint add_tag_each (now : Z) (self : Content) (names : list string)
  : M (list ContentTag) :=
  match names with
  | [] => ret []
  | tag_name :: rest =>
      if PyStr.truthy (PyStr.strip tag_name) then
        content_tag <- add_tag now self tag_name ;;
        content_tags <- add_tag_each now self rest ;;
        ret (content_tag :: content_tags)
      else add_tag_each now self rest
  end.

(** [ContentBase.add_tags]: a comma-separated string is split and its
    parts are stripped first. *)
Definition add_tags (now : Z) (self : Content) (tag_names : TagNames)
  : M (list ContentTag) :=
  add_tag_each now self
    match tag_names with
    | CommaSeparated str => map PyStr.strip (PyStr.split_on "," str)
    | NameList names => names
    end.

(** [Tag.get_usage_count] *)
Definition get_usage_count (t : Tag) (s : Store) : nat :=
  List.length (filter (fun c => Z.eqb (ct_tag c) (tag_id t)) (content_tags s)).

(** [Tag.get_tagged_content]: associations whose content object does not
    resolve are skipped. *)
Definition get_tagged_content (t : Tag) (s : Store) : list Content :=
  flat_map
    (fun c =>
       match resolve (ct_content_type c) (ct_object_id c) s with
       | Some x => [x]
       | None => []
       end)
    (filter (fun c => Z.eqb (ct_tag c) (tag_id t)) (content_tags s)).

(** [World.get_popular_tags]: the tags of the world annotated with their
    number of associations, most used first, cut at [limit]. *)
Definition get_popular_tags (w : Z) (limit : nat) (s : Store)
  : list (Tag * nat) :=
  map (fun t => (t, get_usage_count t s))
    (firstn limit
       (stable_sort
          (fun x y => get_usage_count x s <? get_usage_count y s)
          (filter (fun t => Z.eqb (tag_world t) w) (tags s)))).

(** [World.get_all_content_by_tag]: one query set per content model, in
    the order of the dictionary. *)
Definition get_all_content_by_tag (w : Z) (tag_name : string) (s : Store)
  : list (string * list Content) :=
  map (fun m => (fst m, get_content_by_tag (snd m) w tag_name s))
    content_models.

(** ** Serializer field validation ([ContentBaseSerializer]) *)

(** Outcome of a [validate_<field>] method: the value to store, or the
    code of the [serializers.ValidationError] raised. *)
Inductive Validated : Type :=
| Accepted (value : string)
| Rejected (code : string).

(** [ContentBaseSerializer.validate_title] *)
Definition validate_title (value : string) : Validated :=
  if negb (PyStr.truthy value) || negb (PyStr.truthy (PyStr.strip value))
  then Rejected "required"
  else if String.length (PyStr.strip value) <? 3 then Rejected "min_length"
  else if 300 <? String.length (PyStr.strip value) then Rejected "max_length"
  else Accepted (PyStr.strip value).

(** [ContentBaseSerializer.validate_content] *)
Definition validate_content (value : string) : Validated :=
  if negb (PyStr.truthy value) || negb (PyStr.truthy (PyStr.strip value))
  then Rejected "required"
  else if String.length (PyStr.strip value) <? 10 then Rejected "min_length"
  else Accepted (PyStr.strip value).

(** ** Upload validation ([exceptions.validate_file_upload]) *)

Record UploadedFile : Type := {
  upload_name : string;
  upload_size : Z;
  upload_content_type : option string
}.

(** The check that rejected the file; the wording of the messages is not
    modelled. *)
Inductive UploadRejection : Type :=
| TooLarge | TypeNotAllowed | EmptyFile | InvalidName | DangerousExtension.

Definition dangerous_extensions : list string :=
  ["exe"; "bat"; "cmd"; "scr"; "pif"; "com"; "vbs"; "js"; "jar"].

(** [name.lower().split('.')[-1] if '.' in name else ''] *)
Definition file_extension (name : string) : string :=
  if PyStr.contains "." name
  then last (PyStr.split_on "." (PyStr.lower name)) EmptyString
  else EmptyString.

(** [validate_file_upload(uploaded_file, max_size_mb, allowed_types)];
    [None] stands for the normal return. *)
Definition validate_file_upload (f : UploadedFile) (max_size_mb : Z)
  (allowed_types : list string) : option UploadRejection :=
  if (max_size_mb * 1024 * 1024 <? upload_size f)%Z then Some TooLarge
  else if
    match allowed_types, upload_content_type f with
    | _ :: _, Some ct => negb (existsb (String.eqb ct) allowed_types)
    | _, _ => false
    end
  then Some TypeNotAllowed
  else if (upload_size f =? 0)%Z then Some EmptyFile
  else if negb (PyStr.truthy (upload_name f))
          || (String.length (PyStr.strip (upload_name f)) =? 0)
  then Some InvalidName
  else if existsb (String.eqb (file_extension (upload_name f)))
            dangerous_extensions
  then Some DangerousExtension
  else None.

(** ** Auxiliary notions for the further properties *)

(** The contribution counter of a user, 0 when there is no profile. *)
Definition contribution_of (u : Z) (s : Store) : nat :=
  match find (fun p => Z.eqb (profile_user p) u) (profiles s) with
  | Some p => contribution_count p
  | None => 0
  end.

(** Two rows that may not carry the same title: visible, of one kind and
    of one world. *)
Definition title_rivals (a b : Content) : Prop :=
  is_deleted a = false /\ is_deleted b = false
  /\ kind a = kind b /\ world a = world b.

(** No two visible rows of one kind and world share a title up to case. *)
Definition titles_distinct (rows : list Content) : Prop :=
  ForallOrdPairs
    (fun a b => title_rivals a b -> PyStr.iexact (title a) (title b) = false)
    rows.

(** Every stored title is free of surrounding whitespace. *)
Definition titles_trimmed (rows : list Content) : Prop :=
  Forall (fun r => PyStr.strip (title r) = title r) rows.

(** [a] may precede [b] in a most-used-first listing. *)
Definition usage_non_increasing (a b : Tag * nat) : Prop :=
  snd b <= snd a.

(** ** Store constraints *)

(** The columns of the [unique_together] constraints. *)
Definition link_key (l : ContentLink) : Kind * Z * Kind * Z :=
  (from_content_type l, from_object_id l, to_content_type l, to_object_id l).

Definition tag_key (t : Tag) : string * Z := (tag_name t, tag_world t).

Definition content_tag_key (c : ContentTag) : Kind * Z * Z :=
  (ct_content_type c, ct_object_id c, ct_tag c).

Definition has_link (fk : Kind) (fid : Z) (tk : Kind) (tid : Z) (s : Store)
  : bool :=
  existsb (link_lookup fk (Some fid) tk (Some tid)) (content_links s).

(** A forward edge is stored exactly when its backward edge is. *)
Definition symmetric (s : Store) : Prop :=
  forall fk fid tk tid,
    has_link fk fid tk tid s = true <-> has_link tk tid fk fid s = true.

(** The constraints the database keeps on the link table (primary key,
    [unique_together]) together with the pairing of the two directions. *)
Record linking_invariant (s : Store) : Prop := {
  link_ids_unique : NoDup (map link_id (content_links s));
  link_keys_unique : NoDup (map link_key (content_links s));
  links_paired : symmetric s
}.

Definition no_self_link (s : Store) : Prop :=
  forall k i, has_link k i k i s = false.

(** The constraints the database keeps on the tag tables. *)
Record tagging_invariant (s : Store) : Prop := {
  tag_keys_unique : NoDup (map tag_key (tags s));
  content_tag_keys_unique : NoDup (map content_tag_key (content_tags s))
}.

(** ** Auxiliary notions for the link table *)

(** The opposite direction of an edge. *)
Definition swap_edge (k : Kind * Z * Kind * Z) : Kind * Z * Kind * Z :=
  let '(fk, i, tk, j) := k in (tk, j, fk, i).

(** The row inserted by [ContentLink.objects.create]. *)
Definition new_link (now : Z) (fk : Kind) (i : Z) (tk : Kind) (j : Z)
  (s : Store) : ContentLink :=
  {| link_id := next_id (map link_id (content_links s));
     from_content_type := fk; from_object_id := i;
     to_content_type := tk; to_object_id := j;
     link_created_at := now |}.

(** ** Sample data *)

Module Sample.

(** An unsaved instance with the given title, payload, author and
    world. *)
Definition draft (t : string) (x : Extra) (a w : Z) : Content :=
  {| pk := None; title := t; content := "Some long enough body";
     author := Some a; world := Some w; created_at := 0%Z;
     is_deleted := false; deleted_at := None; deleted_by := None;
     extra := x; other_columns := [] |}.

(** A stored row. *)
Definition row (i : Z) (t : string) (x : Extra) (a w at_ : Z) : Content :=
  {| pk := Some i; title := t; content := "Some long enough body";
     author := Some a; world := Some w; created_at := at_;
     is_deleted := false; deleted_at := None; deleted_by := None;
     extra := x; other_columns := [] |}.

Definition with_contents (rows : list Content) : Store :=
  set_contents rows empty_store.

(** Column values that pass the field validators: a character with one
    trait and one relationship, a story with one main character. *)
Definition brave_profile : CharacterColumns :=
  {| age := ""; species := ""; occupation := ""; location := "";
     personality_traits := JArray [JString "brave"];
     physical_description := ""; background := "";
     relationships := JObject [("friend", JString "Alice")] |}.

Definition hero_details : StoryColumns :=
  {| story_type := "short_story"; timeline_period := "";
     setting_location := ""; main_characters := JArray [JString "Hero"];
     is_canonical := true |}.

Definition edge (i : Z) (fk : Kind) (fid : Z) (tk : Kind) (tid : Z)
  : ContentLink :=
  {| link_id := i; from_content_type := fk; from_object_id := fid;
     to_content_type := tk; to_object_id := tid; link_created_at := 0%Z |}.

(** One page of author 1 in world 1, as stored by [create]. *)
Definition page1 : Content := row 1 "Test Page" (PageX "") 1 1 100.
Definition store1 : Store := with_contents [page1].

(** The same instance after assigning a new title and flipping
    [is_deleted] in memory. *)
Definition page1_retitled : Content :=
  {| pk := Some 1%Z; title := "Modified Title";
     content := "Some long enough body";
     author := Some 1%Z; world := Some 1%Z; created_at := 100%Z;
     is_deleted := true; deleted_at := None; deleted_by := None;
     extra := PageX ""; other_columns := [] |}.

End Sample.

Module SampleTitles.

(** Two drafts with the same title carrying a leading blank, and the
    two [create] calls in a row. *)
Definition padded : Content :=
  Sample.draft " Foundation" (PageX "") 1 1.

Definition first_create : Result Content * Store :=
  create 10 padded empty_store.

Definition second_create : Result Content * Store :=
  create 20 padded (snd first_create).

(** A page titled "Foundation" that was soft-deleted, and the draft of
    a page titled "foundation" in the same world. *)
Definition deleted_page : Content :=
  set_triad true (Some 15%Z) (Some 1%Z)
    (Sample.row 1 "Foundation" (PageX "") 1 1 10).

Definition store_with_deleted : Store :=
  Sample.with_contents [deleted_page].

Definition lowercase_draft : Content :=
  Sample.draft "foundation" (PageX "") 2 1.

(** The draft of a page titled "Foundation", and that page as stored by
    [create] at instant 10. *)
Definition capital_draft : Content :=
  Sample.draft "Foundation" (PageX "") 1 1.

Definition capital_page : Content :=
  Sample.row 1 "Foundation" (PageX "") 1 1 10.

End SampleTitles.

Module SampleLinks.

(** Two pages of world 1, stored, and not linked. *)
Definition page1 : Content := Sample.page1.
Definition page2 : Content := Sample.row 2 "Other Page" (PageX "") 1 1 110.
Definition unlinked : Store := Sample.with_contents [page1; page2].

(** The same two pages with the single directed row page1 -> page2, as
    [ContentLink.objects.create] leaves it. *)
Definition forward_only : Store :=
  set_content_links [Sample.edge 1 Page 1 Page 2] unlinked.

(** The same two pages with the single directed row page2 -> page1. *)
Definition backward_only : Store :=
  set_content_links [Sample.edge 1 Page 2 Page 1] unlinked.

(** A page of another world. *)
Definition foreign_page : Content :=
  Sample.row 3 "Foreign Page" (PageX "") 1 2 120.

End SampleLinks.

Module SampleTags.

(** A tag name of 101 characters. *)
Fixpoint letters (n : nat) : string :=
  match n with
  | O => EmptyString
  | S n' => String "a"%char (letters n')
  end.

Definition long_name : string := letters 101.

(** Page 1 of world 1 carries the tag "a" (tag 1); no tag "zzz"
    exists in the world. *)
Definition tag_a : Tag :=
  {| tag_id := 1; tag_name := "a"; tag_world := 1; tag_created_at := 0 |}.

Definition association : ContentTag :=
  {| ct_id := 1; ct_content_type := Page; ct_object_id := 1;
     ct_tag := 1; ct_created_at := 0 |}.

Definition tagged : Store :=
  set_content_tags [association] (set_tags [tag_a] Sample.store1).

End SampleTags.

(** ** Auxiliary notions for the timeline *)

(** [x] may precede [y] in a newest-first listing. *)
Definition not_older (x y : Content) : Prop :=
  (created_at y <= created_at x)%Z.

Module SampleTimeline.

(** Two pages of world 1 created at the same instant, stored in either
    physical order. *)
Definition first_page : Content :=
  Sample.row 1 "First Page" (PageX "") 1 1 100.
Definition second_page : Content :=
  Sample.row 2 "Second Page" (PageX "") 1 1 100.

Definition stored_in_key_order : Store :=
  Sample.with_contents [first_page; second_page].
Definition stored_in_reverse_order : Store :=
  Sample.with_contents [second_page; first_page].

(** An essay with key 1 and a page with key 2, created at the same
    instant. *)
Definition tied_essay : Content :=
  Sample.row 1 "Tied Essay" (EssayX "" 4) 1 1 100.

Definition essay_then_page : Store :=
  Sample.with_contents [tied_essay; second_page].

(** The drafts of the ordering scenario. *)
Definition page_draft : Content := Sample.draft "Page P1" (PageX "") 1 1.
Definition character_draft : Content :=
  Sample.draft "Character C1" (CharacterX "Full Name" Sample.brave_profile)
    1 1.
Definition story_draft : Content :=
  Sample.draft "Story S1" (StoryX "" 0 Sample.hero_details) 1 1.

End SampleTimeline.

Module SampleAttribution.

(** Authors A (user 1) and B (user 2) in an otherwise empty store. *)
Definition two_authors : Store :=
  {| users := [{| user_id := 1; username := "alice" |};
               {| user_id := 2; username := "bob" |}];
     profiles := []; contents := []; tags := []; content_tags := [];
     content_links := [] |}.

Definition page_by_a : Content := Sample.draft "Page P" (PageX "") 1 1.
Definition character_by_b : Content :=
  Sample.draft "Character C" (CharacterX "Full Name" Sample.brave_profile)
    2 1.

(** Author A alone: page 1 carries one tag and is linked (both
    directions, as [link_to] stores them) with page 2, also by A. *)
Definition own_page : Content := Sample.row 1 "Own Page" (PageX "") 1 1 100.
Definition own_other : Content :=
  Sample.row 2 "Own Other" (PageX "") 1 1 110.

Definition single_author : Store :=
  {| users := [{| user_id := 1; username := "alice" |}];
     profiles := [];
     contents := [own_page; own_other];
     tags := [SampleTags.tag_a];
     content_tags := [SampleTags.association];
     content_links := [Sample.edge 1 Page 1 Page 2;
                       Sample.edge 2 Page 2 Page 1] |}.

(** Author B's character 1 linked with author A's page 1. *)
Definition page_of_a : Content := Sample.row 1 "Page P" (PageX "") 1 1 10.
Definition character_of_b : Content :=
  Sample.row 1 "Character C" (CharacterX "Full Name" Sample.brave_profile)
    2 1 20.

Definition cross_linked : Store :=
  {| users := users two_authors;
     profiles := [];
     contents := [page_of_a; character_of_b];
     tags := []; content_tags := [];
     content_links := [Sample.edge 1 Character 1 Page 1;
                       Sample.edge 2 Page 1 Character 1] |}.

End SampleAttribution.

(** The query [q] asked for another window of the listing. *)
Definition with_window (q : TimelineQuery) (offset limit : Z)
  : TimelineQuery :=
  {| q_limit := limit; q_offset := offset;
     q_content_types := q_content_types q; q_author := q_author q;
     q_tags := q_tags q; q_start_date := q_start_date q;
     q_end_date := q_end_date q; q_search := q_search q |}.


(** * Properties *)

Unset Implicit Arguments.

(** ** Text *)

Lemma isspace_lower_char c : PyStr.isspace (PyStr.lower_char c) = PyStr.isspace c.
Proof. destruct c as [[] [] [] [] [] [] [] []]; reflexivity. Qed.

Lemma lower_char_idem c :
  PyStr.lower_char (PyStr.lower_char c) = PyStr.lower_char c.
Proof. destruct c as [[] [] [] [] [] [] [] []]; reflexivity. Qed.

Lemma lower_idem s : PyStr.lower (PyStr.lower s) = PyStr.lower s.
Proof.
  induction s as [|c r IH]; simpl; [reflexivity|].
  now rewrite lower_char_idem, IH.
Qed.

Lemma lstrip_lower s : PyStr.lstrip (PyStr.lower s) = PyStr.lower (PyStr.lstrip s).
Proof.
  induction s as [|c r IH]; simpl; [reflexivity|].
  rewrite isspace_lower_char. destruct (PyStr.isspace c); [exact IH|reflexivity].
Qed.

Lemma rstrip_lower s : PyStr.rstrip (PyStr.lower s) = PyStr.lower (PyStr.rstrip s).
Proof.
  induction s as [|c r IH]; simpl; [reflexivity|].
  rewrite IH, isspace_lower_char.
  destruct (PyStr.rstrip r) as [|c' r']; simpl.
  - now destruct (PyStr.isspace c).
  - reflexivity.
Qed.

Lemma strip_lower s : PyStr.strip (PyStr.lower s) = PyStr.lower (PyStr.strip s).
Proof. unfold PyStr.strip. now rewrite rstrip_lower, lstrip_lower. Qed.

Lemma rstrip_idem s : PyStr.rstrip (PyStr.rstrip s) = PyStr.rstrip s.
Proof.
  induction s as [|c r IH]; simpl; [reflexivity|].
  destruct (PyStr.rstrip r) as [|c' r'] eqn:E.
  - destruct (PyStr.isspace c) eqn:Ec; simpl; [reflexivity|now rewrite Ec].
  - change (PyStr.rstrip (String c (String c' r')))
      with (match PyStr.rstrip (String c' r') with
            | EmptyString =>
                if PyStr.isspace c then EmptyString else String c EmptyString
            | r0 => String c r0
            end).
    now rewrite IH.
Qed.

Lemma lstrip_idem s : PyStr.lstrip (PyStr.lstrip s) = PyStr.lstrip s.
Proof.
  induction s as [|c r IH]; simpl; [reflexivity|].
  destruct (PyStr.isspace c) eqn:Ec; [exact IH|]. simpl. now rewrite Ec.
Qed.

Lemma rstrip_lstrip_fixed t :
  PyStr.rstrip t = t -> PyStr.rstrip (PyStr.lstrip t) = PyStr.lstrip t.
Proof.
  induction t as [|c r IH]; intros H; [reflexivity|].
  simpl. destruct (PyStr.isspace c) eqn:Ec; [|exact H].
  apply IH. simpl in H. rewrite Ec in H.
  destruct (PyStr.rstrip r); [discriminate|]. now inversion H.
Qed.

Lemma strip_idem s : PyStr.strip (PyStr.strip s) = PyStr.strip s.
Proof.
  unfold PyStr.strip.
  rewrite (rstrip_lstrip_fixed _ (rstrip_idem s)).
  apply lstrip_idem.
Qed.

Lemma normalize_idem name : normalize (normalize name) = normalize name.
Proof.
  unfold normalize. now rewrite strip_lower, strip_idem, lower_idem.
Qed.

(** ** Boolean equalities *)

Lemma Kind_eqb_eq a b : Kind_eqb a b = true <-> a = b.
Proof. destruct a, b; simpl; split; intros H; congruence. Qed.

Lemma Kind_eqb_refl a : Kind_eqb a a = true.
Proof. now destruct a. Qed.

Lemma opt_Z_eqb_eq a b : opt_Z_eqb a b = true <-> a = b.
Proof.
  destruct a as [x|], b as [y|]; simpl; split; intros H;
    try congruence; try discriminate.
  - apply Z.eqb_eq in H. now subst.
  - inversion H. apply Z.eqb_refl.
Qed.

Lemma opt_Z_eqb_refl a : opt_Z_eqb a a = true.
Proof. now apply opt_Z_eqb_eq. Qed.

Lemma same_row_refl e : same_row e e = true.
Proof. unfold same_row. now rewrite Kind_eqb_refl, opt_Z_eqb_refl. Qed.

Lemma same_row_key e r :
  same_row e r = true -> kind r = kind e /\ pk r = pk e.
Proof.
  unfold same_row. intros H. apply andb_true_iff in H as [Hk Hp].
  split; [now apply Kind_eqb_eq | now apply opt_Z_eqb_eq].
Qed.

(** ** Immutability guard *)

(** A write that leaves the soft-delete triad as stored is refused with
    the immutability error naming the model and the key, and nothing is
    written. *)
Lemma guard_rejects_unchanged_triad now e current s :
  pk_truthy e = true ->
  qs_get (filter (same_row e) (contents s)) = Found current ->
  is_deleted e = is_deleted current ->
  deleted_at e = deleted_at current ->
  deleted_by e = deleted_by current ->
  ImmutableModelMixin_save now false e s
  = (Raised (ImmutabilityViolationError
               (String.append (class_name (kind e))
                  " content cannot be modified after creation")
               (class_name_lower (kind e)) (pk e)), s).
Proof.
  intros Hpk Hget Hd Hat Hby. unfold ImmutableModelMixin_save.
  rewrite Hpk. simpl. rewrite Hget, Hd, Hat, Hby.
  now rewrite eqb_reflx, !opt_Z_eqb_refl.
Qed.

(** Row replacement keeps the keys of a table. *)
Lemma replace_row_keys e l :
  map (fun r => (kind r, pk r)) (map (fun r => if same_row e r then e else r) l)
  = map (fun r => (kind r, pk r)) l.
Proof.
  rewrite map_map. apply map_ext_in. intros r _.
  destruct (same_row e r) eqn:E; [|reflexivity].
  apply same_row_key in E as [-> ->]. reflexivity.
Qed.

(** [delete] never removes a row: the keys stored in the content tables
    are the same before and after, whatever the outcome. *)
Lemma delete_keeps_rows now user e s :
  map (fun r => (kind r, pk r)) (contents (snd (delete now user e s)))
  = map (fun r => (kind r, pk r)) (contents s).
Proof.
  unfold delete, bind, soft_delete, ImmutableModelMixin_save.
  rewrite andb_false_r. unfold Model_save. simpl.
  destruct (pk e) as [i|]; simpl; [|reflexivity].
  match goal with |- context [existsb ?f ?l] => destruct (existsb f l) end;
    simpl; [|reflexivity].
  apply (replace_row_keys (set_triad true (Some now) user e)).
Qed.

(** C1 (failing case): page 1 is stored with title "Test Page" and not
    deleted; the instance is given a new title and, in the same write,
    [is_deleted] is flipped.  [save] accepts the write and the stored
    title becomes "Modified Title": the guard only looks for a
    difference in the soft-delete triad and never compares the other
    fields. *)
Theorem guard_lets_retitle_through_with_triad_change :
  save 200 false Sample.page1_retitled Sample.store1
  = (Returned Sample.page1_retitled,
     Sample.with_contents [Sample.page1_retitled])
  /\ title Sample.page1_retitled <> title Sample.page1.
Proof. split; [reflexivity | discriminate]. Qed.

(** ** Soft delete and restore *)

Lemma existsb_same_row e l :
  In e l -> existsb (same_row e) l = true.
Proof.
  intros H. apply existsb_exists. exists e. split; [exact H|apply same_row_refl].
Qed.

(** C7: soft-deleting a stored entity and restoring it yields the entity
    with every field outside the triad as before and the triad clear;
    each transition rewrites only the triad of the stored row. *)
Theorem soft_delete_restore_round_trip :
  forall (now now' : Z) (actor : option Z) (e : Content) (s : Store),
    In e (contents s) ->
    pk e <> None ->
    let deleted := set_triad true (Some now) actor e in
    let restored := set_triad false None None e in
    let s1 :=
      set_contents
        (map (fun r => if same_row e r then deleted else r) (contents s)) s in
    let s2 :=
      set_contents
        (map (fun r => if same_row e r then restored else r) (contents s)) s in
    soft_delete now actor e s = (Returned deleted, s1)
    /\ restore now' deleted s1 = (Returned restored, s2)
    /\ (pk restored = pk e /\ title restored = title e
        /\ content restored = content e /\ author restored = author e
        /\ world restored = world e /\ created_at restored = created_at e
        /\ extra restored = extra e
        /\ other_columns restored = other_columns e)
    /\ (is_deleted restored = false /\ deleted_at restored = None
        /\ deleted_by restored = None)
    /\ (is_deleted e = false -> deleted_at e = None -> deleted_by e = None ->
        restored = e).
Proof.
  intros now now' actor e s Hin Hpk deleted restored s1 s2.
  assert (Hsd : soft_delete now actor e s = (Returned deleted, s1)).
  { unfold soft_delete, ImmutableModelMixin_save.
    rewrite andb_false_r. unfold Model_save.
    change (pk (set_triad true (Some now) actor e)) with (pk e).
    destruct (pk e) as [i|] eqn:Ep; [|congruence].
    change (same_row (set_triad true (Some now) actor e)) with (same_row e).
    now rewrite (existsb_same_row e (contents s) Hin). }
  split; [exact Hsd|]. split.
  - unfold restore, ImmutableModelMixin_save.
    rewrite andb_false_r. unfold Model_save.
    change (pk (set_triad false None None deleted)) with (pk e).
    destruct (pk e) as [i|] eqn:Ep; [|congruence].
    change (same_row (set_triad false None None deleted)) with (same_row e).
    assert (Hin1 : existsb (same_row e) (contents s1) = true).
    { apply existsb_exists. exists deleted. split.
      - unfold s1. simpl. apply in_map_iff. exists e.
        now rewrite same_row_refl.
      - exact (same_row_refl e). }
    rewrite Hin1. f_equal. unfold s1, s2, set_contents. simpl. f_equal.
    rewrite map_map. apply map_ext. intros r.
    destruct (same_row e r) eqn:E; [|now rewrite E].
    change (same_row e deleted) with (same_row e e).
    now rewrite same_row_refl.
  - split; [now repeat split|]. split; [now repeat split|].
    intros Hd Hat Hby. unfold restored, set_triad.
    destruct e; simpl in *. now subst.
Qed.

Lemma soft_delete_restore_round_trip_witness :
  let deleted := set_triad true (Some 300%Z) (Some 7%Z) Sample.page1 in
  soft_delete 300 (Some 7%Z) Sample.page1 Sample.store1
  = (Returned deleted, Sample.with_contents [deleted])
  /\ restore 400 deleted (Sample.with_contents [deleted])
     = (Returned Sample.page1, Sample.store1).
Proof.
  destruct (@soft_delete_restore_round_trip 300 400 (Some 7%Z)
              Sample.page1 Sample.store1)
    as (H1 & H2 & _).
  - simpl. left. reflexivity.
  - discriminate.
  - split; [exact H1 | exact H2].
Defined.

(** ** Title uniqueness at creation *)

(** The duplicate-title query never sees a soft-deleted row. *)
Lemma title_conflicts_are_live e s r :
  In r (title_conflicts e s) ->
  is_deleted r = false /\ kind r = kind e /\ In r (contents s)
  /\ world r = world e
  /\ PyStr.iexact (title r) (PyStr.strip (title e)) = true.
Proof.
  unfold title_conflicts, objects, all_objects. intros H.
  apply filter_In in H as [H Hq]. apply filter_In in H as [H Hd].
  apply filter_In in H as [H Hk].
  apply andb_true_iff in Hq as [Hq _]. apply andb_true_iff in Hq as [Hw Ht].
  repeat split; auto.
  - now apply negb_true_iff.
  - now apply Kind_eqb_eq.
  - now apply opt_Z_eqb_eq.
Qed.

Lemma title_conflicts_none_when_all_deleted e s :
  (forall r, In r (contents s) -> kind r = kind e -> world r = world e ->
             PyStr.iexact (title r) (PyStr.strip (title e)) = true ->
             is_deleted r = true) ->
  title_conflicts e s = [].
Proof.
  intros H. destruct (title_conflicts e s) as [|r l] eqn:E; [reflexivity|].
  assert (Hin : In r (title_conflicts e s)) by (rewrite E; now left).
  apply title_conflicts_are_live in Hin as (Hd & Hk & Hin & Hw & Ht).
  rewrite (H r Hin Hk Hw Ht) in Hd. discriminate.
Qed.

(** Creating "foundation" succeeds when the only page titled
    "Foundation" in the world is soft-deleted. *)
Example create_over_soft_deleted_title :
  exists e s',
    create 20 SampleTitles.lowercase_draft SampleTitles.store_with_deleted
    = (Returned e, s')
    /\ title e = "foundation" /\ pk e = Some 2%Z.
Proof. eexists. eexists. split; [reflexivity|]. split; reflexivity. Qed.

(** Titles are stored as given while the check trims the new title: a
    page titled " Foundation" is created twice in the same world, both
    calls succeed, and two visible pages with the same title are
    stored. *)
Theorem padded_title_is_accepted_twice :
  (exists e1, fst SampleTitles.first_create = Returned e1
              /\ title e1 = " Foundation")
  /\ (exists e2, fst SampleTitles.second_create = Returned e2
                 /\ title e2 = " Foundation")
  /\ map (fun r => (title r, world r, is_deleted r))
       (objects Page (snd SampleTitles.second_create))
     = [(" Foundation", Some 1%Z, false); (" Foundation", Some 1%Z, false)].
Proof.
  split; [eexists; split; reflexivity|].
  split; [eexists; split; reflexivity|]. reflexivity.
Qed.

(** ** Lookups under uniqueness constraints *)

Lemma max_id_bound ids x : In x ids -> (x <= fold_right Z.max 0 ids)%Z.
Proof.
  induction ids as [|y l IH]; cbn [fold_right In]; [tauto|].
  intros [->|H]; [apply Z.le_max_l|].
  specialize (IH H). etransitivity; [exact IH|apply Z.le_max_r].
Qed.

Lemma next_id_bound ids x : In x ids -> (x < next_id ids)%Z.
Proof. intros H. apply max_id_bound in H. unfold next_id. lia. Qed.

Lemma next_id_fresh ids : ~ In (next_id ids) ids.
Proof. intros H. apply next_id_bound in H. lia. Qed.

(** With distinct keys, at most one row has a given key. *)
Lemma filter_by_unique_key {A K : Type} (key : A -> K) (p : A -> bool)
  (k : K) (l : list A) :
  NoDup (map key l) ->
  (forall x, In x l -> p x = true -> key x = k) ->
  filter p l = [] \/ exists x, filter p l = [x].
Proof.
  induction l as [|a l IH]; intros Hnd Hk; [now left|].
  simpl in Hnd. apply NoDup_cons_iff in Hnd as [Hna Hnd]. simpl.
  destruct (p a) eqn:Ea.
  - right. exists a. f_equal.
    destruct (filter p l) as [|b r] eqn:Ef; [reflexivity|exfalso].
    assert (Hb : In b (filter p l)) by (rewrite Ef; now left).
    apply filter_In in Hb as [Hb Hpb].
    apply Hna. rewrite (Hk a (or_introl eq_refl) Ea).
    rewrite <- (Hk b (or_intror Hb) Hpb). now apply in_map.
  - apply IH; [exact Hnd|]. intros x Hx. apply Hk. now right.
Qed.

Lemma NoDup_map_filter {A K : Type} (key : A -> K) (p : A -> bool)
  (l : list A) :
  NoDup (map key l) -> NoDup (map key (filter p l)).
Proof.
  induction l as [|a l IH]; intros H; [constructor|].
  simpl in H. apply NoDup_cons_iff in H as [Hna Hnd]. simpl.
  destruct (p a); [|now apply IH]. simpl. constructor; [|now apply IH].
  intros Hin. apply Hna. apply in_map_iff in Hin as (x & Hx & Hin).
  apply filter_In in Hin as [Hin _]. apply in_map_iff. now exists x.
Qed.

Lemma NoDup_map_snoc {A K : Type} (key : A -> K) (l : list A) (a : A) :
  NoDup (map key l) -> ~ In (key a) (map key l) ->
  NoDup (map key (l ++ [a])).
Proof.
  intros Hnd Hna. rewrite map_app. simpl.
  apply Permutation_NoDup with (l := key a :: map key l).
  - apply Permutation_cons_append.
  - now constructor.
Qed.

(** ** Edges of the link table *)

Lemma link_lookup_key fk fid tk tid l :
  link_lookup fk fid tk tid l = true <->
  fid = Some (from_object_id l) /\ tid = Some (to_object_id l)
  /\ from_content_type l = fk /\ to_content_type l = tk.
Proof.
  unfold link_lookup. rewrite !andb_true_iff, !Kind_eqb_eq, !opt_Z_eqb_eq.
  intuition congruence.
Qed.

Lemma link_lookup_some fk i tk j l :
  link_lookup fk (Some i) tk (Some j) l = true <-> link_key l = (fk, i, tk, j).
Proof.
  rewrite link_lookup_key. unfold link_key. split.
  - intros (H1 & H2 & H3 & H4). congruence.
  - intros H. inversion H. auto.
Qed.

Lemma has_link_edges fk i tk j s :
  has_link fk i tk j s = true <->
  In (fk, i, tk, j) (map link_key (content_links s)).
Proof.
  unfold has_link. rewrite existsb_exists, in_map_iff.
  split; intros (l & H1 & H2).
  - exists l. split; [now apply link_lookup_some|exact H1].
  - exists l. split; [exact H2|now apply link_lookup_some].
Qed.

Lemma symmetric_edges s :
  symmetric s <->
  forall k, In k (map link_key (content_links s))
            <-> In (swap_edge k) (map link_key (content_links s)).
Proof.
  unfold symmetric. split.
  - intros H [[[fk i] tk] j]. simpl. rewrite <- !has_link_edges. apply H.
  - intros H fk i tk j. rewrite !has_link_edges. apply (H (fk, i, tk, j)).
Qed.

Lemma swap_edge_involutive k : swap_edge (swap_edge k) = k.
Proof. now destruct k as [[[fk i] tk] j]. Qed.

(** The possible outcomes of the keyed lookup when keys are distinct. *)
Lemma link_lookup_outcome fk fid tk tid s :
  NoDup (map link_key (content_links s)) ->
  (filter (link_lookup fk fid tk tid) (content_links s) = []
   /\ forall l, In l (content_links s) -> link_lookup fk fid tk tid l = false)
  \/ exists l,
       filter (link_lookup fk fid tk tid) (content_links s) = [l]
       /\ In l (content_links s)
       /\ link_lookup fk fid tk tid l = true.
Proof.
  intros Hnd.
  destruct (filter (link_lookup fk fid tk tid) (content_links s))
    as [|l r] eqn:Ef.
  - left. split; [reflexivity|]. intros l Hl.
    destruct (link_lookup fk fid tk tid l) eqn:E; [|reflexivity].
    assert (Hin : In l []) by (rewrite <- Ef; now apply filter_In). destruct Hin.
  - right. exists l.
    assert (Hl : In l (filter (link_lookup fk fid tk tid) (content_links s)))
      by (rewrite Ef; now left).
    apply filter_In in Hl as [Hl Hp]. split; [|now split].
    apply link_lookup_key in Hp as (Hf & Ht & Hfk & Htk).
    destruct (@filter_by_unique_key _ _ link_key (link_lookup fk fid tk tid)
                (link_key l) (content_links s) Hnd) as [H|[x H]].
    + intros x _ Hx. apply link_lookup_key in Hx as (Hf' & Ht' & Hfk' & Htk').
      unfold link_key. congruence.
    + rewrite H in Ef. discriminate.
    + rewrite H in Ef. inversion Ef. now subst.
Qed.

Lemma existsb_filter_nil {A : Type} (p : A -> bool) (l : list A) :
  filter p l = [] -> existsb p l = false.
Proof.
  induction l as [|a l IH]; simpl; [reflexivity|].
  destruct (p a); [discriminate|exact IH].
Qed.

Lemma lookup_unique_row fk i tk j l s :
  NoDup (map link_key (content_links s)) ->
  In l (content_links s) ->
  link_key l = (fk, i, tk, j) ->
  filter (link_lookup fk (Some i) tk (Some j)) (content_links s) = [l].
Proof.
  intros Hnd Hin Hk. apply link_lookup_some in Hk.
  destruct (link_lookup_outcome fk (Some i) tk (Some j) s Hnd)
    as [[_ H]|(x & Hf & _ & _)].
  - rewrite (H l Hin) in Hk. discriminate.
  - assert (Hl : In l (filter (link_lookup fk (Some i) tk (Some j))
                         (content_links s))) by now apply filter_In.
    rewrite Hf in Hl. destruct Hl as [->|[]]. exact Hf.
Qed.

(** The three outcomes of [get_or_create] on a link table with distinct
    keys: the stored row, a refusal that writes nothing, or a fresh row
    appended. *)
Lemma link_get_or_create_cases now fk fid tk tid s :
  NoDup (map link_key (content_links s)) ->
  (exists l,
      ContentLink_get_or_create now fk fid tk tid s = (Returned l, s)
      /\ In l (content_links s)
      /\ link_lookup fk fid tk tid l = true)
  \/ (exists err,
         ContentLink_get_or_create now fk fid tk tid s = (Raised err, s)
         /\ (fid = None \/ tid = None \/ (fk = tk /\ fid = tid))
         /\ (fk = tk -> fid = tid -> fid <> None -> err = SelfLink))
  \/ (exists i j,
         fid = Some i /\ tid = Some j /\ (fk, i) <> (tk, j)
         /\ ~ In (fk, i, tk, j) (map link_key (content_links s))
         /\ ContentLink_get_or_create now fk fid tk tid s
            = (Returned (new_link now fk i tk j s),
               set_content_links
                 (content_links s ++ [new_link now fk i tk j s]) s)).
Proof.
  intros Hnd. unfold ContentLink_get_or_create.
  destruct (link_lookup_outcome fk fid tk tid s Hnd)
    as [[Hf Hnone]|(l & Hf & Hin & Hl)]; rewrite Hf; simpl.
  2:{ left. now exists l. }
  right. unfold ContentLink_create.
  destruct fid as [i|], tid as [j|].
  - rewrite (existsb_filter_nil _ _ Hf). unfold ContentLink_clean. simpl.
    destruct (Kind_eqb fk tk && (i =? j)%Z) eqn:E.
    + left. eexists. split; [reflexivity|].
      apply andb_true_iff in E as [Ek Ei].
      apply Kind_eqb_eq in Ek. apply Z.eqb_eq in Ei. subst.
      split; [right; right; now split|reflexivity].
    + right. exists i, j. repeat split.
      * intros H. inversion H. subst.
        now rewrite Kind_eqb_refl, Z.eqb_refl in E.
      * intros H. apply in_map_iff in H as (l & Hk & Hin).
        apply link_lookup_some in Hk. now rewrite (Hnone l Hin) in Hk.
  - left. eexists. split; [reflexivity|]. split; [now right; left|].
    intros _ H. discriminate.
  - left. eexists. split; [reflexivity|]. split; [now left|].
    intros _ _ H. congruence.
  - left. eexists. split; [reflexivity|]. split; [now left|].
    intros _ _ H. congruence.
Qed.

Lemma edges_snoc (rows : list ContentLink) l k :
  In k (map link_key (rows ++ [l]))
  <-> In k (map link_key rows) \/ k = link_key l.
Proof.
  rewrite map_app, in_app_iff. simpl. intuition congruence.
Qed.

Lemma new_link_keeps_ids_unique now fk i tk j s :
  NoDup (map link_id (content_links s)) ->
  NoDup (map link_id (content_links s ++ [new_link now fk i tk j s])).
Proof.
  intros H. apply NoDup_map_snoc; [exact H|]. apply next_id_fresh.
Qed.

(** ** [link_to] *)

Lemma link_get_or_create_success now fk i tk j s :
  NoDup (map link_key (content_links s)) ->
  (fk, i) <> (tk, j) ->
  exists l s',
    ContentLink_get_or_create now fk (Some i) tk (Some j) s = (Returned l, s')
    /\ In l (content_links s')
    /\ link_key l = (fk, i, tk, j)
    /\ NoDup (map link_key (content_links s'))
    /\ contents s' = contents s
    /\ (forall x, In x (content_links s) -> In x (content_links s')).
Proof.
  intros Hnd Hne.
  destruct (link_get_or_create_cases now fk (Some i) tk (Some j) s Hnd)
    as [(l & H & Hin & Hl)|[(err & H & Hc & _)|(i' & j' & Hi & Hj & _ & Hni & H)]].
  - exists l, s. repeat split; auto. now apply link_lookup_some.
  - exfalso. destruct Hc as [Hc|[Hc|[Hk Hc]]]; try discriminate.
    inversion Hc. subst. now apply Hne.
  - inversion Hi. inversion Hj. subst i' j'.
    eexists. eexists. split; [exact H|]. simpl. repeat split.
    + apply in_or_app. right. now left.
    + apply NoDup_map_snoc; [exact Hnd|exact Hni].
    + intros x Hx. apply in_or_app. now left.
Qed.

(** Linking two distinct stored entities of one world succeeds and
    leaves both directed rows in the table. *)
Lemma link_to_success now self target i j s :
  NoDup (map link_key (content_links s)) ->
  pk self = Some i -> pk target = Some j ->
  world self = world target ->
  (kind self, i) <> (kind target, j) ->
  exists f r s',
    link_to now self target s = (Returned f, s')
    /\ In f (content_links s')
    /\ link_key f = (kind self, i, kind target, j)
    /\ In r (content_links s')
    /\ link_key r = (kind target, j, kind self, i)
    /\ NoDup (map link_key (content_links s'))
    /\ contents s' = contents s.
Proof.
  intros Hnd Hi Hj Hw Hne. unfold link_to.
  rewrite Hw, opt_Z_eqb_refl, Hi, Hj. simpl. unfold bind.
  destruct (link_get_or_create_success now (kind self) i (kind target) j s
              Hnd Hne)
    as (f & s1 & H1 & Hf & Hkf & Hnd1 & Hc1 & _).
  rewrite H1.
  assert (Hne' : (kind target, j) <> (kind self, i)) by congruence.
  destruct (link_get_or_create_success now (kind target) j (kind self) i s1
              Hnd1 Hne')
    as (r & s2 & H2 & Hr & Hkr & Hnd2 & Hc2 & Hmono).
  rewrite H2. exists f, r, s2. unfold ret. repeat split; auto. congruence.
Qed.

(** Linking an already linked pair returns the stored forward row and
    writes nothing. *)
Lemma link_to_again now self target i j f r s :
  NoDup (map link_key (content_links s)) ->
  pk self = Some i -> pk target = Some j ->
  world self = world target ->
  In f (content_links s) -> link_key f = (kind self, i, kind target, j) ->
  In r (content_links s) -> link_key r = (kind target, j, kind self, i) ->
  link_to now self target s = (Returned f, s).
Proof.
  intros Hnd Hi Hj Hw Hf Hkf Hr Hkr. unfold link_to.
  rewrite Hw, opt_Z_eqb_refl, Hi, Hj. simpl.
  unfold bind, ContentLink_get_or_create.
  rewrite (lookup_unique_row _ _ _ _ _ _ Hnd Hf Hkf). simpl.
  rewrite (lookup_unique_row _ _ _ _ _ _ Hnd Hr Hkr). reflexivity.
Qed.

Lemma resolve_contents k i s s' :
  contents s' = contents s -> resolve k i s' = resolve k i s.
Proof. intros H. unfold resolve, all_objects. now rewrite H. Qed.

Lemma linked_content_of_edge self target i j f s :
  pk self = Some i ->
  In f (content_links s) ->
  link_key f = (kind self, i, kind target, j) ->
  resolve (kind target) j s = Some target ->
  In target (get_linked_content self s).
Proof.
  intros Hi Hf Hk Hres. unfold get_linked_content, outgoing_links.
  apply in_flat_map. exists f. inversion Hk as [[H1 H2 H3 H4]]. split.
  - apply filter_In. split; [exact Hf|].
    now rewrite Hi, !H1, !H2, Kind_eqb_refl, opt_Z_eqb_refl.
  - rewrite H3, H4, Hres. now left.
Qed.

Lemma new_link_key now fk i tk j s :
  link_key (new_link now fk i tk j s) = (fk, i, tk, j).
Proof. reflexivity. Qed.

Lemma swap_edge_eq k k' : swap_edge k = k' <-> k = swap_edge k'.
Proof.
  split; intros H.
  - rewrite <- H. now rewrite swap_edge_involutive.
  - rewrite H. apply swap_edge_involutive.
Qed.

Lemma edge_eq_dec (k k' : Kind * Z * Kind * Z) : {k = k'} + {k <> k'}.
Proof. repeat decide equality. Defined.

(** [link_to] keeps the link table well-formed and paired, whatever its
    arguments and outcome. *)
Lemma link_to_preserves_invariant now self target s :
  linking_invariant s -> linking_invariant (snd (link_to now self target s)).
Proof.
  intros [Hids Hkeys Hsym]. unfold link_to.
  destruct (negb (opt_Z_eqb (world target) (world self)));
    [now constructor|].
  unfold bind.
  destruct (link_get_or_create_cases now (kind self) (pk self)
              (kind target) (pk target) s Hkeys)
    as [(f & H1 & Hf & Hlf)|[(err & H1 & _)|(i & j & Hi & Hj & Hne & Hni & H1)]];
    rewrite H1; [| now constructor |].
  - (* the forward row is stored: so is the backward row *)
    destruct (link_get_or_create_cases now (kind target) (pk target)
                (kind self) (pk self) s Hkeys)
      as [(r & H2 & _)|[(err & H2 & _)|(j' & i' & Hj & Hi & _ & Hni & _)]];
      try (rewrite H2; now constructor).
    exfalso. apply Hni. rewrite Hi, Hj in Hlf.
    apply link_lookup_some in Hlf.
    apply (proj1 (symmetric_edges s) Hsym (kind self, i', kind target, j')).
    rewrite <- Hlf. now apply in_map.
  - (* the forward row is new *)
    set (f := new_link now (kind self) i (kind target) j s) in *.
    set (s1 := set_content_links (content_links s ++ [f]) s) in *.
    assert (Hkeys1 : NoDup (map link_key (content_links s1)))
      by (apply NoDup_map_snoc; assumption).
    destruct (link_get_or_create_cases now (kind target) (pk target)
                (kind self) (pk self) s1 Hkeys1)
      as [(r & H2 & Hr & Hlr)|[(err & H2 & Hc & _)
                               |(j' & i' & Hj' & Hi' & _ & Hni' & H2)]];
      rewrite H2.
    + exfalso. rewrite Hi, Hj in Hlr. apply link_lookup_some in Hlr.
      assert (Hin : In (kind target, j, kind self, i)
                      (map link_key (content_links s1)))
        by (rewrite <- Hlr; now apply in_map).
      unfold s1 in Hin. simpl in Hin.
      apply edges_snoc in Hin as [Hin|Heq].
      * apply Hni.
        now apply (proj1 (symmetric_edges s) Hsym
                     (kind target, j, kind self, i)).
      * inversion Heq. apply Hne. congruence.
    + exfalso. rewrite Hi, Hj in Hc.
      destruct Hc as [Hc|[Hc|[Hk Hc]]]; try discriminate.
      inversion Hc. apply Hne. congruence.
    + rewrite Hi in Hi'. rewrite Hj in Hj'. inversion Hi'. inversion Hj'.
      subst i' j'. simpl.
      set (r := new_link now (kind target) j (kind self) i s1) in *.
      constructor; simpl.
      * apply NoDup_map_snoc.
        -- now apply new_link_keeps_ids_unique.
        -- apply (next_id_fresh (map link_id (content_links s1))).
      * apply NoDup_map_snoc; assumption.
      * apply symmetric_edges. intros k. unfold s1. simpl.
        rewrite !edges_snoc.
        pose proof (proj1 (symmetric_edges s) Hsym k) as Hk.
        assert (H3 : swap_edge k = link_key f <-> k = link_key r)
          by apply swap_edge_eq.
        assert (H4 : swap_edge k = link_key r <-> k = link_key f)
          by apply swap_edge_eq.
        tauto.
Qed.

(** ** [unlink_from] *)

Lemma NoDup_map_injective {A K : Type} (f : A -> K) (l : list A) x y :
  NoDup (map f l) -> In x l -> In y l -> f x = f y -> x = y.
Proof.
  induction l as [|a l IH]; intros Hnd Hx Hy Hxy; [destruct Hx|].
  simpl in Hnd. apply NoDup_cons_iff in Hnd as [Hna Hnd].
  destruct Hx as [->|Hx], Hy as [->|Hy]; auto.
  - exfalso. apply Hna. rewrite Hxy. now apply in_map.
  - exfalso. apply Hna. rewrite <- Hxy. now apply in_map.
Qed.

Lemma link_get_cases fk fid tk tid s :
  NoDup (map link_key (content_links s)) ->
  (ContentLink_get fk fid tk tid s = (Returned None, s)
   /\ forall l, In l (content_links s) -> link_lookup fk fid tk tid l = false)
  \/ exists l,
       ContentLink_get fk fid tk tid s = (Returned (Some l), s)
       /\ In l (content_links s)
       /\ link_lookup fk fid tk tid l = true.
Proof.
  intros Hnd. unfold ContentLink_get.
  destruct (link_lookup_outcome fk fid tk tid s Hnd)
    as [[Hf Hnone]|(l & Hf & Hin & Hl)]; rewrite Hf; simpl.
  - now left.
  - right. now exists l.
Qed.

(** Deleting a stored row by its key removes exactly its edge. *)
Lemma delete_link_edges l s :
  NoDup (map link_id (content_links s)) ->
  NoDup (map link_key (content_links s)) ->
  In l (content_links s) ->
  forall k,
    In k (map link_key (content_links (snd (ContentLink_delete l s))))
    <-> In k (map link_key (content_links s)) /\ k <> link_key l.
Proof.
  intros Hids Hkeys Hl k. simpl. rewrite !in_map_iff. split.
  - intros (x & Hk & Hx). apply filter_In in Hx as [Hx Hid].
    split; [now exists x|]. intros Heq.
    assert (x = l)
      by (apply (NoDup_map_injective link_key (content_links s) x l
                   Hkeys Hx Hl); congruence).
    subst x. now rewrite Z.eqb_refl in Hid.
  - intros [(x & Hk & Hx) Hne]. exists x. split; [exact Hk|].
    apply filter_In. split; [exact Hx|].
    apply negb_true_iff. apply Z.eqb_neq. intros Hid.
    assert (x = l)
      by (apply (NoDup_map_injective link_id (content_links s) x l
                   Hids Hx Hl Hid)).
    subst x. now apply Hne.
Qed.

Lemma delete_link_wf l s :
  NoDup (map link_id (content_links s)) ->
  NoDup (map link_key (content_links s)) ->
  NoDup (map link_id (content_links (snd (ContentLink_delete l s))))
  /\ NoDup (map link_key (content_links (snd (ContentLink_delete l s)))).
Proof. intros H1 H2. simpl. split; now apply NoDup_map_filter. Qed.

(** [unlink_from] keeps a well-formed and paired link table well-formed
    and paired. *)
Lemma unlink_from_preserves_invariant self target s :
  linking_invariant s -> linking_invariant (snd (unlink_from self target s)).
Proof.
  intros [Hids Hkeys Hsym]. unfold unlink_from, bind.
  destruct (link_get_cases (kind self) (pk self) (kind target) (pk target)
              s Hkeys)
    as [[H1 _]|(fl & H1 & Hfl & Hlf)]; rewrite H1; [now constructor|].
  pose proof (delete_link_edges fl s Hids Hkeys Hfl) as He1.
  destruct (delete_link_wf fl s Hids Hkeys) as [Hids1 Hkeys1].
  destruct (ContentLink_delete fl s) as [u s1] eqn:Ed.
  assert (Hu : u = Returned tt) by (unfold ContentLink_delete in Ed; congruence).
  subst u. simpl in He1, Hids1, Hkeys1.
  apply link_lookup_key in Hlf as (Hi & Hj & Hfk & Htk).
  assert (Hkf : link_key fl
                = (kind self, from_object_id fl, kind target, to_object_id fl))
    by (unfold link_key; congruence).
  pose proof (proj1 (symmetric_edges s) Hsym) as Hs.
  destruct (link_get_cases (kind target) (pk target) (kind self) (pk self)
              s1 Hkeys1)
    as [[H2 Hnone]|(rl & H2 & Hrl & Hlr)]; rewrite H2.
  - (* no backward row is left: the forward row was a loop *)
    simpl. constructor; auto. apply symmetric_edges. intros k.
    assert (Hloop : swap_edge (link_key fl) = link_key fl).
    { destruct (edge_eq_dec (swap_edge (link_key fl)) (link_key fl))
        as [E|E]; [exact E|exfalso].
      assert (Hin : In (swap_edge (link_key fl))
                      (map link_key (content_links s1))).
      { apply He1. split; [|exact E].
        apply (proj1 (Hs (link_key fl))). now apply in_map. }
      apply in_map_iff in Hin as (x & Hk & Hx).
      specialize (Hnone x Hx). rewrite Hi, Hj in Hnone.
      rewrite Hkf in Hk. simpl in Hk.
      apply link_lookup_some in Hk. congruence. }
    rewrite !He1, (Hs k).
    assert (H3 : swap_edge k = link_key fl <-> k = link_key fl)
      by (rewrite swap_edge_eq, Hloop; tauto).
    tauto.
  - (* both rows are removed *)
    pose proof (delete_link_edges rl s1 Hids1 Hkeys1 Hrl) as He2.
    destruct (delete_link_wf rl s1 Hids1 Hkeys1) as [Hids2 Hkeys2].
    destruct (ContentLink_delete rl s1) as [u s2] eqn:Ed2.
    assert (Hu : u = Returned tt)
      by (unfold ContentLink_delete in Ed2; congruence).
    subst u. simpl in He2, Hids2, Hkeys2. simpl.
    constructor; auto. apply symmetric_edges. intros k.
    rewrite Hi, Hj in Hlr. apply link_lookup_some in Hlr.
    assert (Hkr : link_key rl = swap_edge (link_key fl))
      by (rewrite Hlr, Hkf; reflexivity).
    rewrite !He2, !He1, (Hs k), Hkr.
    assert (H3 : swap_edge k = link_key fl <-> k = swap_edge (link_key fl))
      by apply swap_edge_eq.
    assert (H4 : swap_edge k = swap_edge (link_key fl) <-> k = link_key fl)
      by (rewrite swap_edge_eq, swap_edge_involutive; tauto).
    tauto.
Qed.

(** ** Linking: the claims *)

Lemma has_link_of_row l fk i tk j s :
  In l (content_links s) -> link_key l = (fk, i, tk, j) ->
  has_link fk i tk j s = true.
Proof.
  intros Hin Hk. apply has_link_edges. rewrite <- Hk. now apply in_map.
Qed.

Lemma empty_link_table_invariant s :
  content_links s = [] -> linking_invariant s.
Proof.
  intros H. constructor; try (rewrite H; constructor).
  intros fk i tk j. unfold has_link. rewrite H. simpl. tauto.
Qed.

(** C2: on a link table that is well-formed and paired, [link_to] and
    [unlink_from] leave it well-formed and paired; linking two distinct
    stored entities of one world succeeds, stores both directed rows, so
    that each entity is among the linked content of the other; and
    linking the pair again returns the same forward row and writes
    nothing. *)
Theorem link_graph_stays_symmetric :
  forall s : Store,
    linking_invariant s ->
    (forall now self target,
        linking_invariant (snd (link_to now self target s)))
    /\ (forall self target,
           linking_invariant (snd (unlink_from self target s)))
    /\ (forall now self target i j,
           pk self = Some i -> pk target = Some j ->
           world self = world target ->
           (kind self, i) <> (kind target, j) ->
           exists f s',
             link_to now self target s = (Returned f, s')
             /\ link_key f = (kind self, i, kind target, j)
             /\ has_link (kind self) i (kind target) j s' = true
             /\ has_link (kind target) j (kind self) i s' = true
             /\ (resolve (kind self) i s = Some self ->
                 resolve (kind target) j s = Some target ->
                 In target (get_linked_content self s')
                 /\ In self (get_linked_content target s'))
             /\ (forall now',
                    link_to now' self target s' = (Returned f, s'))).
Proof.
  intros s Hinv. split; [|split].
  - intros. now apply link_to_preserves_invariant.
  - intros. now apply unlink_from_preserves_invariant.
  - intros now self target i j Hi Hj Hw Hne.
    destruct (link_to_success now self target i j s
                (link_keys_unique Hinv) Hi Hj Hw Hne)
      as (f & r & s' & H & Hf & Hkf & Hr & Hkr & Hnd & Hc).
    exists f, s'. split; [exact H|]. split; [exact Hkf|].
    split; [now apply (has_link_of_row f)|].
    split; [now apply (has_link_of_row r)|]. split.
    + intros Hrs Hrt. split.
      * apply (linked_content_of_edge self target i j f s' Hi Hf Hkf).
        now rewrite (resolve_contents _ _ s s' Hc).
      * apply (linked_content_of_edge target self j i r s' Hj Hr Hkr).
        now rewrite (resolve_contents _ _ s s' Hc).
    + intros now'.
      now apply (link_to_again now' self target i j f r s').
Qed.

Lemma link_graph_stays_symmetric_witness :
  linking_invariant SampleLinks.unlinked
  /\ exists f s',
       link_to 5 SampleLinks.page1 SampleLinks.page2 SampleLinks.unlinked
       = (Returned f, s')
       /\ In SampleLinks.page2 (get_linked_content SampleLinks.page1 s')
       /\ In SampleLinks.page1 (get_linked_content SampleLinks.page2 s').
Proof.
  assert (Hinv : linking_invariant SampleLinks.unlinked)
    by (apply empty_link_table_invariant; reflexivity).
  split; [exact Hinv|].
  destruct (link_graph_stays_symmetric SampleLinks.unlinked Hinv)
    as (_ & _ & H).
  destruct (H 5%Z SampleLinks.page1 SampleLinks.page2 1%Z 2%Z)
    as (f & s' & H1 & _ & _ & _ & H2 & _).
  - reflexivity.
  - reflexivity.
  - reflexivity.
  - intros E. inversion E.
  - exists f, s'. split; [exact H1|]. apply H2; reflexivity.
Defined.

(** C3 (failing cases): with only the row page1 -> page2 stored,
    [unlink_from] deletes it and then answers [False]; with only the row
    page2 -> page1 stored, it answers [False] and the row stays. *)
Theorem unlink_from_lone_edge :
  (has_link Page 1 Page 2 SampleLinks.forward_only = true
   /\ unlink_from SampleLinks.page1 SampleLinks.page2 SampleLinks.forward_only
      = (Returned false, SampleLinks.unlinked))
  /\ (has_link Page 2 Page 1 SampleLinks.backward_only = true
      /\ unlink_from SampleLinks.page1 SampleLinks.page2
           SampleLinks.backward_only
         = (Returned false, SampleLinks.backward_only)).
Proof. repeat split. Qed.

(** ** Link rejections *)

Lemma filter_nil_of_existsb {A : Type} (p : A -> bool) (l : list A) :
  existsb p l = false -> filter p l = [].
Proof.
  induction l as [|a l IH]; simpl; [reflexivity|].
  destruct (p a); simpl; [discriminate|exact IH].
Qed.

(** C4: linking across worlds fails with the world-mismatch error
    whichever entity is the receiver, linking an entity to itself fails
    with the self-link error, and in both cases the store is left as it
    was. *)
Theorem link_to_rejections :
  forall (now : Z) (a b : Content) (s : Store),
    (world a <> world b ->
     link_to now a b s = (Raised WorldMismatch, s)
     /\ link_to now b a s = (Raised WorldMismatch, s))
    /\ (forall i,
           no_self_link s ->
           kind a = kind b -> pk a = Some i -> pk b = Some i ->
           world a = world b ->
           link_to now a b s = (Raised SelfLink, s)).
Proof.
  intros now a b s. split.
  - intros Hw. unfold link_to.
    assert (E1 : opt_Z_eqb (world b) (world a) = false).
    { destruct (opt_Z_eqb (world b) (world a)) eqn:E; [|reflexivity].
      apply opt_Z_eqb_eq in E. congruence. }
    assert (E2 : opt_Z_eqb (world a) (world b) = false).
    { destruct (opt_Z_eqb (world a) (world b)) eqn:E; [|reflexivity].
      apply opt_Z_eqb_eq in E. congruence. }
    rewrite E1, E2. split; reflexivity.
  - intros i Hno Hk Hi Hj Hw. unfold link_to.
    rewrite Hw, opt_Z_eqb_refl, Hi, Hj, Hk. simpl.
    unfold bind, ContentLink_get_or_create.
    specialize (Hno (kind b) i). unfold has_link in Hno.
    rewrite (filter_nil_of_existsb _ _ Hno). simpl.
    unfold ContentLink_create, ContentLink_clean.
    rewrite Hno, Kind_eqb_refl, opt_Z_eqb_refl. reflexivity.
Qed.

Lemma link_to_rejections_witness :
  link_to 5 SampleLinks.page1 SampleLinks.foreign_page SampleLinks.unlinked
  = (Raised WorldMismatch, SampleLinks.unlinked)
  /\ link_to 5 SampleLinks.foreign_page SampleLinks.page1 SampleLinks.unlinked
     = (Raised WorldMismatch, SampleLinks.unlinked)
  /\ link_to 5 SampleLinks.page1 SampleLinks.page1 SampleLinks.unlinked
     = (Raised SelfLink, SampleLinks.unlinked).
Proof.
  destruct (link_to_rejections 5 SampleLinks.page1 SampleLinks.foreign_page
              SampleLinks.unlinked) as [H _].
  destruct H as [H1 H2]; [discriminate|].
  destruct (link_to_rejections 5 SampleLinks.page1 SampleLinks.page1
              SampleLinks.unlinked) as [_ H].
  split; [exact H1|]. split; [exact H2|].
  apply (H 1%Z).
  - intros k i. reflexivity.
  - reflexivity.
  - reflexivity.
  - reflexivity.
  - reflexivity.
Defined.

(** ** Tagging *)

Lemma truthy_iff s : PyStr.truthy s = true <-> s <> EmptyString.
Proof. destruct s; simpl; split; intros H; congruence. Qed.

Lemma strip_normalize name : PyStr.strip (normalize name) = normalize name.
Proof. unfold normalize. now rewrite strip_lower, strip_idem. Qed.

Lemma tag_lookup_key name w t :
  tag_lookup name (Some w) t = true <-> tag_key t = (name, w).
Proof.
  unfold tag_lookup, tag_key. simpl.
  rewrite andb_true_iff, String.eqb_eq, Z.eqb_eq.
  split; [intros [-> ->]; reflexivity | intros H; now inversion H].
Qed.

Lemma content_tag_lookup_key k i tag c :
  content_tag_lookup k (Some i) tag c = true <->
  content_tag_key c = (k, i, tag).
Proof.
  unfold content_tag_lookup, content_tag_key. simpl.
  rewrite !andb_true_iff, Kind_eqb_eq, !Z.eqb_eq.
  split; [intros [[-> ->] ->]; reflexivity | intros H; now inversion H].
Qed.

(** With distinct keys, the keyed lookup of a stored row selects that row
    alone. *)
Lemma filter_unique_row {A K : Type} (key : A -> K) (p : A -> bool) (k : K)
  (l : list A) (x : A) :
  NoDup (map key l) ->
  (forall y, p y = true <-> key y = k) ->
  In x l -> key x = k ->
  filter p l = [x].
Proof.
  intros Hnd Hp Hx Hk.
  assert (Hin : In x (filter p l)) by (apply filter_In; split; [|apply Hp]; auto).
  destruct (filter_by_unique_key key p k l Hnd) as [E|[y E]].
  - intros y _ Hy. now apply Hp.
  - rewrite E in Hin. destruct Hin.
  - rewrite E in Hin. destruct Hin as [->|[]]. exact E.
Qed.

Lemma filter_nil_or_row {A K : Type} (key : A -> K) (p : A -> bool) (k : K)
  (l : list A) :
  NoDup (map key l) ->
  (forall y, p y = true <-> key y = k) ->
  (filter p l = [] /\ ~ In k (map key l))
  \/ exists x, filter p l = [x] /\ In x l /\ key x = k.
Proof.
  intros Hnd Hp.
  destruct (filter_by_unique_key key p k l Hnd) as [E|[x E]].
  - intros y _ Hy. now apply Hp.
  - left. split; [exact E|]. intros Hin.
    apply in_map_iff in Hin as (y & Hk & Hy).
    assert (In y (filter p l)) by (apply filter_In; split; [|apply Hp]; auto).
    rewrite E in H. destruct H.
  - right. exists x. split; [exact E|].
    assert (Hx : In x (filter p l)) by (rewrite E; now left).
    apply filter_In in Hx as [Hx Hpx]. split; [exact Hx|now apply Hp].
Qed.

(** [get_or_create] of a tag whose name is already normalized, non-empty
    and within the column width. *)
Lemma tag_get_or_create_normalized now n w s :
  NoDup (map tag_key (tags s)) ->
  normalize n = n -> n <> EmptyString -> String.length n <= 100 ->
  exists t s',
    Tag_get_or_create now n (Some w) s = (Returned t, s')
    /\ In t (tags s') /\ tag_key t = (n, w)
    /\ NoDup (map tag_key (tags s'))
    /\ content_tags s' = content_tags s
    /\ contents s' = contents s.
Proof.
  intros Hnd Hn Hne Hlen. unfold Tag_get_or_create.
  destruct (filter_nil_or_row tag_key (tag_lookup n (Some w)) (n, w) (tags s)
              Hnd (tag_lookup_key n w))
    as [[E Hni]|(t & E & Ht & Hk)]; rewrite E; simpl.
  2:{ exists t, s. repeat split; auto. }
  unfold Tag_create.
  assert (Ht : PyStr.truthy n = true) by now apply truthy_iff.
  assert (Hs : PyStr.strip n = n) by (rewrite <- Hn; apply strip_normalize).
  unfold check_blank, check_max_length, check_null. simpl.
  rewrite Ht, Hs, Ht, Hn. simpl.
  replace (100 <? String.length n) with false
    by (symmetry; apply Nat.ltb_ge; exact Hlen).
  simpl. rewrite (existsb_filter_nil _ _ E). simpl.
  eexists. eexists. split; [reflexivity|]. simpl. repeat split.
  - apply in_or_app. right. now left.
  - apply NoDup_map_snoc; [exact Hnd|exact Hni].
Qed.

Lemma content_tag_get_or_create_spec now k i tag s :
  NoDup (map content_tag_key (content_tags s)) ->
  exists c s',
    ContentTag_get_or_create now k (Some i) tag s = (Returned c, s')
    /\ In c (content_tags s') /\ content_tag_key c = (k, i, tag)
    /\ NoDup (map content_tag_key (content_tags s'))
    /\ tags s' = tags s
    /\ contents s' = contents s.
Proof.
  intros Hnd. unfold ContentTag_get_or_create.
  destruct (filter_nil_or_row content_tag_key
              (content_tag_lookup k (Some i) tag) (k, i, tag) (content_tags s)
              Hnd (content_tag_lookup_key k i tag))
    as [[E Hni]|(c & E & Hc & Hk)]; rewrite E; simpl.
  - eexists. eexists. split; [reflexivity|]. simpl. repeat split.
    + apply in_or_app. right. now left.
    + apply NoDup_map_snoc; [exact Hnd|exact Hni].
  - exists c, s. repeat split; auto.
Qed.

(** C5 (amended): for a stored entity and a name whose normalized form is
    non-empty and at most 100 characters long, [add_tag] associates the
    entity with the tag of its world that carries the normalized name;
    calling it again with any name of the same normalized form returns
    the same association and leaves every table as it is. *)
Theorem add_tag_normalizing_idempotent :
  forall (now : Z) (e : Content) (name : string) (i w : Z) (s : Store),
    tagging_invariant s ->
    pk e = Some i -> world e = Some w ->
    normalize name <> EmptyString ->
    String.length (normalize name) <= 100 ->
    exists c t s',
      add_tag now e name s = (Returned c, s')
      /\ In t (tags s') /\ tag_name t = normalize name /\ tag_world t = w
      /\ In c (content_tags s')
      /\ ct_content_type c = kind e /\ ct_object_id c = i
      /\ ct_tag c = tag_id t
      /\ tagging_invariant s'
      /\ (forall now' name',
             normalize name' = normalize name ->
             add_tag now' e name' s' = (Returned c, s')).
Proof.
  intros now e name i w s [Htags Hcts] Hi Hw Hne Hlen.
  destruct (tag_get_or_create_normalized now (normalize name) w s Htags
              (normalize_idem name) Hne Hlen)
    as (t & s1 & H1 & Ht & Hkt & Htags1 & Hct1 & _).
  assert (Hcts1 : NoDup (map content_tag_key (content_tags s1)))
    by now rewrite Hct1.
  destruct (content_tag_get_or_create_spec now (kind e) i (tag_id t) s1 Hcts1)
    as (c & s2 & H2 & Hc & Hkc & Hcts2 & Ht2 & _).
  assert (Hrun : forall now0 name0 s0,
             normalize name0 = normalize name ->
             add_tag now0 e name0 s0
             = bind (Tag_get_or_create now0 (normalize name) (Some w))
                 (fun tag =>
                    ContentTag_get_or_create now0 (kind e) (Some i)
                      (tag_id tag)) s0).
  { intros now0 name0 s0 E. unfold add_tag. rewrite E, Hi, Hw.
    now rewrite (proj2 (truthy_iff (normalize name)) Hne). }
  assert (Hn : tag_name t = normalize name) by exact (f_equal fst Hkt).
  assert (Hwt : tag_world t = w) by exact (f_equal snd Hkt).
  assert (Hck : ct_content_type c = kind e)
    by exact (f_equal (fun k => fst (fst k)) Hkc).
  assert (Hco : ct_object_id c = i)
    by exact (f_equal (fun k => snd (fst k)) Hkc).
  assert (Hctag : ct_tag c = tag_id t) by exact (f_equal snd Hkc).
  exists c, t, s2. split.
  { rewrite (Hrun now name s eq_refl). unfold bind. now rewrite H1. }
  rewrite Ht2. repeat split; auto.
  - now rewrite Ht2.
  - intros now' name' E. rewrite (Hrun now' name' s2 E).
    unfold bind, Tag_get_or_create, ContentTag_get_or_create.
    rewrite Ht2.
    rewrite (filter_unique_row tag_key _ (normalize name, w) (tags s1) t
               Htags1 (tag_lookup_key (normalize name) w) Ht Hkt).
    simpl.
    rewrite (filter_unique_row content_tag_key _ (kind e, i, tag_id t)
               (content_tags s2) c Hcts2
               (content_tag_lookup_key (kind e) i (tag_id t)) Hc Hkc).
    reflexivity.
Qed.

Lemma add_tag_normalizing_idempotent_witness :
  exists c s',
    add_tag 5 Sample.page1 "  Fantasy " Sample.store1 = (Returned c, s')
    /\ add_tag 6 Sample.page1 "fantasy" s' = (Returned c, s')
    /\ map tag_name (tags s') = ["fantasy"].
Proof.
  destruct (add_tag_normalizing_idempotent 5 Sample.page1 "  Fantasy "
              1 1 Sample.store1)
    as (c & t & s' & H & _ & _ & _ & _ & _ & _ & _ & _ & Hagain).
  - constructor; constructor.
  - reflexivity.
  - reflexivity.
  - discriminate.
  - vm_compute. lia.
  - exists c, s'. split; [exact H|]. split; [now apply Hagain|].
    vm_compute in H. inversion H. reflexivity.
Defined.

(** C5 (as stated) fails: a name of 101 letters trims to a non-empty
    string, yet [add_tag] is refused by the width of the name column and
    no association is made. *)
Lemma add_tag_rejects_long_name :
  PyStr.strip SampleTags.long_name <> EmptyString
  /\ add_tag 5 Sample.page1 SampleTags.long_name Sample.store1
     = (Raised (ValidationError ["name: max_length"]), Sample.store1).
Proof. split; [discriminate|reflexivity]. Qed.

(** ** Stable sorting *)

Section StableSort.

Context {A : Type} (goes_after : A -> A -> bool).

Lemma insert_after_perm x l :
  Permutation (insert_after goes_after x l) (x :: l).
Proof.
  induction l as [|y r IH]; simpl; [reflexivity|].
  destruct (goes_after x y); [|reflexivity].
  rewrite IH. apply perm_swap.
Qed.

Lemma stable_sort_perm l : Permutation (stable_sort goes_after l) l.
Proof.
  induction l as [|x r IH]; simpl; [reflexivity|].
  unfold stable_sort in *. simpl.
  rewrite insert_after_perm. now apply perm_skip.
Qed.

Lemma stable_sort_In x l : In x (stable_sort goes_after l) <-> In x l.
Proof.
  split; apply Permutation_in;
    [|symmetry]; apply stable_sort_perm.
Qed.

(** Elements selected by [p] keep their relative order when no selected
    element ever has to go after another selected one. *)
Lemma insert_after_filter (p : A -> bool) x l :
  (forall a b, p a = true -> p b = true -> goes_after a b = false) ->
  filter p (insert_after goes_after x l) = filter p (x :: l).
Proof.
  intros Hp. induction l as [|y r IH]; [reflexivity|].
  simpl. destruct (goes_after x y) eqn:E; [|reflexivity].
  simpl. rewrite IH. simpl.
  destruct (p x) eqn:Ex, (p y) eqn:Ey; try reflexivity.
  rewrite (Hp x y Ex Ey) in E. discriminate.
Qed.

Lemma stable_sort_filter (p : A -> bool) l :
  (forall a b, p a = true -> p b = true -> goes_after a b = false) ->
  filter p (stable_sort goes_after l) = filter p l.
Proof.
  intros Hp. induction l as [|x r IH]; [reflexivity|].
  unfold stable_sort in *. simpl.
  rewrite (insert_after_filter p x _ Hp). simpl. now rewrite IH.
Qed.

End StableSort.

(** ** Ordering by creation time *)

Lemma insert_newest_first_sorted x l :
  StronglySorted not_older l ->
  StronglySorted not_older
    (insert_after (fun a b => (created_at a <? created_at b)%Z) x l).
Proof.
  induction 1 as [|y r Hs IH Hall]; simpl.
  - constructor; constructor.
  - destruct (created_at x <? created_at y)%Z eqn:E.
    + constructor; [exact IH|].
      apply Z.ltb_lt in E.
      apply (Permutation_Forall
               (Permutation_sym (insert_after_perm _ x r))).
      constructor; [unfold not_older; lia|exact Hall].
    + apply Z.ltb_ge in E. constructor.
      * now constructor.
      * constructor; [exact E|].
        eapply Forall_impl; [|exact Hall].
        intros a Ha. unfold not_older in *. lia.
Qed.

Lemma newest_first_sorted l : StronglySorted not_older (newest_first l).
Proof.
  unfold newest_first, stable_sort.
  induction l as [|x r IH]; simpl; [constructor|].
  now apply insert_newest_first_sorted.
Qed.

Lemma newest_first_perm l : Permutation (newest_first l) l.
Proof. apply stable_sort_perm. Qed.

(** Entities created at the same instant keep the order they had. *)
Lemma newest_first_stable t l :
  filter (fun x => (created_at x =? t)%Z) (newest_first l)
  = filter (fun x => (created_at x =? t)%Z) l.
Proof.
  apply stable_sort_filter. intros a b Ha Hb.
  apply Z.eqb_eq in Ha, Hb. apply Z.ltb_ge. lia.
Qed.

(** Slicing with non-negative bounds. *)
Lemma py_slice_nonneg {A : Type} (l : list A) (offset limit : Z) :
  (0 <= offset)%Z -> (0 <= limit)%Z ->
  py_slice l offset (offset + limit)
  = firstn (Z.to_nat limit) (skipn (Z.to_nat offset) l).
Proof.
  intros Ho Hl. unfold py_slice.
  replace (offset <? 0)%Z with false by (symmetry; apply Z.ltb_ge; lia).
  replace (offset + limit <? 0)%Z with false
    by (symmetry; apply Z.ltb_ge; lia).
  set (len := Z.of_nat (List.length l)).
  destruct (Z_le_gt_dec len offset) as [Hge|Hlt].
  - rewrite !Z.min_r by lia. rewrite Z.sub_diag. simpl.
    rewrite (skipn_all2 l) by (unfold len in Hge; lia).
    now rewrite firstn_nil.
  - rewrite (Z.min_l offset) by lia.
    destruct (Z_le_gt_dec (offset + limit) len) as [Hin|Hout].
    + rewrite Z.min_l by lia. f_equal. lia.
    + rewrite Z.min_r by lia.
      rewrite !firstn_all2; [reflexivity| |];
        rewrite length_skipn; unfold len in *; lia.
Qed.

(** ** Timeline *)

Lemma timeline_scenario t1 t2 t3 :
  (t1 < t2)%Z -> (t2 < t3)%Z ->
  exists p c st s1 s2 s3,
    create t1 SampleTimeline.page_draft empty_store = (Returned p, s1)
    /\ create t2 SampleTimeline.character_draft s1 = (Returned c, s2)
    /\ create t3 SampleTimeline.story_draft s2 = (Returned st, s3)
    /\ kind p = Page /\ kind c = Character /\ kind st = Story
    /\ timeline 1 default_query s3 = [st; c; p].
Proof.
  intros H12 H23.
  assert (E12 : (t1 <? t2)%Z = true) by (apply Z.ltb_lt; lia).
  assert (E23 : (t2 <? t3)%Z = true) by (apply Z.ltb_lt; lia).
  assert (E13 : (t1 <? t3)%Z = true) by (apply Z.ltb_lt; lia).
  eexists. eexists. eexists. eexists. eexists. eexists.
  split; [reflexivity|]. split; [reflexivity|]. split; [reflexivity|].
  split; [reflexivity|]. split; [reflexivity|]. split; [reflexivity|].
  unfold timeline, timeline_sorted.
  match goal with
  | |- context [timeline_gather ?w ?q ?s] =>
      let g := eval cbv in (timeline_gather w q s) in
      change (timeline_gather w q s) with g
  end.
  unfold newest_first, stable_sort. simpl fold_right.
  cbv -[Z.ltb py_slice]. rewrite E23.
  cbv -[Z.ltb py_slice]. rewrite E13.
  cbv -[Z.ltb py_slice]. rewrite E12.
  reflexivity.
Qed.

Lemma objects_In k s r :
  In r (objects k s) <->
  In r (contents s) /\ kind r = k /\ is_deleted r = false.
Proof.
  unfold objects, all_objects. rewrite !filter_In, Kind_eqb_eq, negb_true_iff.
  tauto.
Qed.

Lemma timeline_queryset_default w k s :
  timeline_queryset w default_query k s
  = newest_first
      (filter (fun r => opt_Z_eqb (world r) (Some w)) (objects k s)).
Proof. reflexivity. Qed.

(** Without filters every visible entity of the world is gathered, and
    nothing else. *)
Lemma timeline_gather_default w s e :
  In e (timeline_gather w default_query s) <->
  In e (contents s) /\ world e = Some w /\ is_deleted e = false.
Proof.
  unfold timeline_gather, content_models.
  change (requested_types default_query) with (@nil string).
  cbn [flat_map]. rewrite !timeline_queryset_default.
  rewrite !in_app_iff. unfold newest_first.
  rewrite !stable_sort_In, !filter_In, !objects_In, !opt_Z_eqb_eq.
  split.
  - intros H. decompose [and or] H; try contradiction; auto.
  - intros (H1 & H2 & H3). destruct (kind e) eqn:E; tauto.
Qed.

(** [World.get_content_timeline] is the unfiltered, unsliced timeline. *)
Lemma get_content_timeline_unfiltered w s :
  get_content_timeline w s = timeline_sorted w default_query s.
Proof. reflexivity. Qed.

(** Two filters in a row are one filter. *)
Lemma filter_filter {A : Type} (p q : A -> bool) (l : list A) :
  filter p (filter q l) = filter (fun x => q x && p x) l.
Proof.
  induction l as [|a r IH]; simpl; [reflexivity|].
  destruct (q a); simpl; [destruct (p a)|]; now rewrite IH.
Qed.

(** The gathering loop visits the models in the order pages, essays,
    characters, stories, images, skipping those not requested. *)
Lemma timeline_gather_by_kind w q s :
  timeline_gather w q s
  = flat_map
      (fun m : string * Kind =>
         if match requested_types q with
            | [] => true
            | req => existsb (String.eqb (fst m)) req
            end
         then timeline_queryset w q (snd m) s else [])
      [("pages", Page); ("essays", Essay); ("characters", Character);
       ("stories", Story); ("images", Image)].
Proof.
  unfold timeline_gather, content_models. apply flat_map_ext.
  intros [name k]. simpl. now destruct (requested_types q).
Qed.

(** In the unfiltered timeline the entities created at one instant
    come kind after kind, and within a kind in the order of the rows. *)
Lemma timeline_ties_by_kind w s t :
  filter (fun x => (created_at x =? t)%Z) (timeline_sorted w default_query s)
  = flat_map
      (fun k =>
         filter
           (fun r => Kind_eqb (kind r) k && negb (is_deleted r)
                     && opt_Z_eqb (world r) (Some w)
                     && (created_at r =? t)%Z)
           (contents s))
      [Page; Essay; Character; Story; Image].
Proof.
  unfold timeline_sorted. rewrite newest_first_stable.
  unfold timeline_gather, content_models.
  change (requested_types default_query) with (@nil string).
  cbn [flat_map]. rewrite !timeline_queryset_default, !filter_app.
  rewrite !newest_first_stable. unfold objects, all_objects.
  rewrite !filter_filter.
  simpl (filter _ []).
  repeat (f_equal; [apply filter_ext; intros r; now rewrite !andb_assoc|]).
  f_equal. apply filter_ext. intros r. now rewrite !andb_assoc.
Qed.

(** C8 (amended): the timeline is the gathered entities sorted by
    [created_at], newest first; entities created at the same instant
    stay in the order in which they were gathered, which is kind after
    kind (pages, essays, characters, stories, images) and within a kind
    the order in which the database returns the rows; the result is the
    slice of that sequence at [offset] of length at most
    [min(limit, 200)]; and a page, a character and a story created in
    this order at increasing instants are listed story, character,
    page. *)
Theorem timeline_newest_first :
  forall (w : Z) (q : TimelineQuery) (s : Store),
    Permutation (timeline_sorted w q s) (timeline_gather w q s)
    /\ StronglySorted not_older (timeline_sorted w q s)
    /\ (forall t,
           filter (fun x => (created_at x =? t)%Z) (timeline_sorted w q s)
           = filter (fun x => (created_at x =? t)%Z) (timeline_gather w q s))
    /\ timeline w q s
       = py_slice (timeline_sorted w q s) (q_offset q)
           (q_offset q + Z.min (q_limit q) 200)
    /\ ((0 <= q_offset q)%Z -> (0 <= q_limit q)%Z ->
        timeline w q s
        = firstn (Z.to_nat (Z.min (q_limit q) 200))
            (skipn (Z.to_nat (q_offset q)) (timeline_sorted w q s)))
    /\ (forall e,
           In e (timeline_gather w default_query s) <->
           In e (contents s) /\ world e = Some w /\ is_deleted e = false)
    /\ timeline_gather w q s
       = flat_map
           (fun m : string * Kind =>
              if match requested_types q with
                 | [] => true
                 | req => existsb (String.eqb (fst m)) req
                 end
              then timeline_queryset w q (snd m) s else [])
           [("pages", Page); ("essays", Essay); ("characters", Character);
            ("stories", Story); ("images", Image)]
    /\ (forall t,
           filter (fun x => (created_at x =? t)%Z)
             (timeline_sorted w default_query s)
           = flat_map
               (fun k =>
                  filter
                    (fun r => Kind_eqb (kind r) k && negb (is_deleted r)
                              && opt_Z_eqb (world r) (Some w)
                              && (created_at r =? t)%Z)
                    (contents s))
               [Page; Essay; Character; Story; Image])
    /\ (forall t1 t2 t3,
           (t1 < t2)%Z -> (t2 < t3)%Z ->
           exists p c st s1 s2 s3,
             create t1 SampleTimeline.page_draft empty_store
             = (Returned p, s1)
             /\ create t2 SampleTimeline.character_draft s1 = (Returned c, s2)
             /\ create t3 SampleTimeline.story_draft s2 = (Returned st, s3)
             /\ kind p = Page /\ kind c = Character /\ kind st = Story
             /\ timeline 1 default_query s3 = [st; c; p]).
Proof.
  intros w q s. split; [apply newest_first_perm|].
  split; [apply newest_first_sorted|].
  split; [intros t; apply newest_first_stable|].
  split; [reflexivity|]. split.
  - intros Ho Hl. unfold timeline. apply py_slice_nonneg; lia.
  - split; [intros e; apply timeline_gather_default|].
    split; [apply timeline_gather_by_kind|].
    split; [intros t; apply timeline_ties_by_kind|].
    apply timeline_scenario.
Qed.

Lemma timeline_newest_first_witness :
  timeline 1 default_query SampleTimeline.stored_in_key_order
  = firstn 50
      (skipn 0 (timeline_sorted 1 default_query
                  SampleTimeline.stored_in_key_order))
  /\ exists p c st s1 s2 s3,
       create 10 SampleTimeline.page_draft empty_store = (Returned p, s1)
       /\ create 20 SampleTimeline.character_draft s1 = (Returned c, s2)
       /\ create 30 SampleTimeline.story_draft s2 = (Returned st, s3)
       /\ kind p = Page /\ kind c = Character /\ kind st = Story
       /\ timeline 1 default_query s3 = [st; c; p].
Proof.
  destruct (timeline_newest_first 1 default_query
              SampleTimeline.stored_in_key_order)
    as (_ & _ & _ & _ & Hslice & _ & _ & _ & Hscenario).
  split.
  - apply Hslice; simpl; lia.
  - apply (Hscenario 10%Z 20%Z 30%Z); lia.
Defined.

(** C8 (as stated) fails: two pages created at the same instant are
    listed in the order in which the table holds them, so the same rows
    yield two different timelines and no key of the entities decides
    between them; and between kinds a tie is decided by the kind, a page
    with key 2 coming before an essay with key 1. *)
Lemma timeline_ties_follow_row_order :
  Permutation (contents SampleTimeline.stored_in_key_order)
    (contents SampleTimeline.stored_in_reverse_order)
  /\ created_at SampleTimeline.first_page
     = created_at SampleTimeline.second_page
  /\ timeline 1 default_query SampleTimeline.stored_in_key_order
     = [SampleTimeline.first_page; SampleTimeline.second_page]
  /\ timeline 1 default_query SampleTimeline.stored_in_reverse_order
     = [SampleTimeline.second_page; SampleTimeline.first_page]
  /\ created_at SampleTimeline.tied_essay
     = created_at SampleTimeline.second_page
  /\ timeline 1 default_query SampleTimeline.essay_then_page
     = [SampleTimeline.second_page; SampleTimeline.tied_essay].
Proof.
  split; [apply perm_swap|]. split; [reflexivity|].
  split; [reflexivity|]. split; [reflexivity|]. split; reflexivity.
Qed.

(** ** Content by tags *)

Lemma mem_Z_In i l : mem_Z i l = true <-> In i l.
Proof.
  unfold mem_Z. rewrite existsb_exists. split.
  - intros (x & Hx & E). apply Z.eqb_eq in E. now subst.
  - intros H. exists i. split; [exact H|apply Z.eqb_refl].
Qed.

Lemma content_with_ids_In k w ids s r :
  In r (content_with_ids k w ids s) <->
  In r (objects k s) /\ world r = Some w
  /\ exists i, pk r = Some i /\ In i ids.
Proof.
  unfold content_with_ids, newest_first.
  rewrite stable_sort_In, filter_In, andb_true_iff, opt_Z_eqb_eq.
  destruct (pk r) as [i|].
  - rewrite mem_Z_In. split.
    + intros (H1 & H2 & H3). repeat split; auto. now exists i.
    + intros (H1 & H2 & j & Hj & H3). inversion Hj. subst. auto.
  - split.
    + intros (_ & H & _). discriminate.
    + intros (_ & _ & j & Hj & _). discriminate.
Qed.

(** A list of names that are all blank selects nothing. *)
Lemma get_content_by_tags_blank k w names match_all s :
  (forall n, In n names -> PyStr.strip n = EmptyString) ->
  get_content_by_tags k w (NameList names) match_all s = [].
Proof.
  intros H. unfold get_content_by_tags.
  assert (E : filter PyStr.truthy (map normalize names) = []).
  { induction names as [|n r IH]; [reflexivity|]. simpl.
    unfold normalize at 1. rewrite (H n (or_introl eq_refl)). simpl.
    apply IH. intros m Hm. apply H. now right. }
  now rewrite E.
Qed.

(** With [match_all=False] the result is the union, over the requested
    names that have a tag in the world, of the visible entities of the
    kind and world associated with that tag. *)
Lemma get_content_by_tags_any k w names s r :
  In r (get_content_by_tags k w (NameList names) false s) <->
  In r (objects k s) /\ world r = Some w
  /\ exists n t i,
       In n names /\ normalize n <> EmptyString
       /\ In t (tags s) /\ tag_name t = normalize n /\ tag_world t = w
       /\ pk r = Some i /\ In i (tag_content_ids k t s).
Proof.
  unfold get_content_by_tags.
  assert (Hnames : forall x,
             In x (filter PyStr.truthy (map normalize names)) <->
             exists n, In n names /\ normalize n = x /\ x <> EmptyString).
  { intros x. rewrite filter_In, in_map_iff, truthy_iff. split.
    - intros [(n & E & Hn) Hx]. now exists n.
    - intros (n & Hn & E & Hx). split; [now exists n|exact Hx]. }
  destruct (filter PyStr.truthy (map normalize names)) as [|a l] eqn:E.
  - split; [intros []|]. intros (_ & _ & n & t & i & Hn & Hne & _).
    apply (proj2 (Hnames (normalize n))). now exists n.
  - rewrite content_with_ids_In. split.
    + intros (Ho & Hw & i & Hi & Hin). split; [exact Ho|]. split; [exact Hw|].
      apply in_flat_map in Hin as (t & Ht & Hit).
      apply stable_sort_In in Ht. apply filter_In in Ht as [Ht Hq].
      apply andb_true_iff in Hq as [Hq Hwt]. apply Z.eqb_eq in Hwt.
      apply existsb_exists in Hq as (x & Hx & Ex).
      apply String.eqb_eq in Ex. subst x.
      apply (proj1 (Hnames (tag_name t))) in Hx as (n & Hn & En & Hne).
      exists n, t, i. rewrite En. repeat split; auto.
    + intros (Ho & Hw & n & t & i & Hn & Hne & Ht & Etn & Etw & Hi & Hin).
      split; [exact Ho|]. split; [exact Hw|]. exists i. split; [exact Hi|].
      apply in_flat_map. exists t. split; [|exact Hin].
      apply stable_sort_In. apply filter_In. split; [exact Ht|].
      apply andb_true_iff. split; [|now apply Z.eqb_eq].
      apply existsb_exists. exists (normalize n). split.
      * apply (proj2 (Hnames (normalize n))). now exists n.
      * now apply String.eqb_eq.
Qed.

(** C6 (failing case): page 1 carries the tag "a" only and the world has
    no tag "zzz"; asking for the pages that carry all of "a" and "zzz"
    returns page 1, because the names without a tag are dropped before
    the intersection is taken. *)
Theorem match_all_ignores_missing_tag :
  filter (tag_lookup "zzz" (Some 1%Z)) (tags SampleTags.tagged) = []
  /\ get_content_by_tag Page 1 "zzz" SampleTags.tagged = []
  /\ get_content_by_tags Page 1 (NameList ["a"; "zzz"]) true SampleTags.tagged
     = [Sample.page1].
Proof. repeat split. Qed.

(** ** Attribution and collaboration *)

Lemma string_set_nonempty l :
  (0 <? List.length (string_set l)) = (0 <? List.length l).
Proof.
  destruct l as [|x r]; [reflexivity|]. simpl (0 <? List.length (x :: r)).
  apply Nat.ltb_lt.
  assert (H : In x (string_set (x :: r)))
    by (apply nodup_In; now left).
  destruct (string_set (x :: r)); [destruct H|simpl; lia].
Qed.

Lemma positive_sum a b : (0 <? a) || (0 <? b) = true <-> 0 < a + b.
Proof.
  rewrite orb_true_iff, !Nat.ltb_lt. lia.
Qed.

Lemma other_authored_iff obj c :
  other_authored obj c = true <-> author c <> author obj.
Proof.
  unfold other_authored. rewrite negb_true_iff.
  destruct (opt_Z_eqb (author c) (author obj)) eqn:E.
  - apply opt_Z_eqb_eq in E. split; [discriminate|congruence].
  - split; [|reflexivity]. intros _ H. apply opt_Z_eqb_eq in H. congruence.
Qed.

Lemma some_selected {A : Type} (p : A -> bool) (l : list A) :
  0 < List.length (filter p l) <-> exists x, In x l /\ p x = true.
Proof.
  split.
  - destruct (filter p l) as [|x r] eqn:E; simpl; [lia|]. intros _.
    exists x. apply filter_In. rewrite E. now left.
  - intros (x & Hx). apply filter_In in Hx.
    destruct (filter p l); [destruct Hx|simpl; lia].
Qed.

Lemma some_other_author obj targets sources :
  0 < List.length (filter (other_authored obj) targets)
      + List.length (filter (other_authored obj) sources)
  <-> exists c, (In c targets \/ In c sources) /\ author c <> author obj.
Proof.
  split.
  - intros H.
    assert (Hcase : 0 < List.length (filter (other_authored obj) targets)
                    \/ 0 < List.length (filter (other_authored obj) sources))
      by lia.
    destruct Hcase as [Hc|Hc]; apply some_selected in Hc as (c & Hin & Hp);
      exists c; (split; [auto|now apply other_authored_iff]).
  - intros (c & [Hin|Hin] & Hne); apply other_authored_iff in Hne.
    + assert (0 < List.length (filter (other_authored obj) targets))
        by (apply some_selected; now exists c).
      lia.
    + assert (0 < List.length (filter (other_authored obj) sources))
        by (apply some_selected; now exists c).
      lia.
Qed.

(** C9 (amended): the score of [collaboration_info] counts every link
    target and every link source, whoever the author, plus the tags; the
    score of [attribution_details] counts the other-authored targets and
    sources and no tags, an entity being other-authored when its author
    is not the author of the reported entity; in both reports
    [is_collaborative] holds exactly when some target or source has
    another author; and when author B's character is linked to author
    A's page, the page's report shows one reference received, one of
    them cross-author, and is collaborative. *)
Theorem collaboration_reports :
  forall (obj : Content) (s : Store),
    let targets := get_linked_content obj s in
    let sources := get_content_linking_to_this obj s in
    let cross_made := List.length (filter (other_authored obj) targets) in
    let cross_received :=
      List.length (filter (other_authored obj) sources) in
    info_collaboration_score (get_collaboration_info obj s)
    = List.length targets + List.length sources
      + List.length (get_tags obj s)
    /\ collaboration_score (attribution_details obj s)
       = cross_made + cross_received
    /\ cross_author_references_made (attribution_details obj s) = cross_made
    /\ cross_author_references_received (attribution_details obj s)
       = cross_received
    /\ total_references_received (attribution_details obj s)
       = List.length sources
    /\ (info_is_collaborative (get_collaboration_info obj s) = true
        <-> 0 < cross_made + cross_received)
    /\ (is_collaborative (attribution_details obj s) = true
        <-> 0 < cross_made + cross_received)
    /\ (forall c, other_authored obj c = true <-> author c <> author obj)
    /\ (info_is_collaborative (get_collaboration_info obj s) = true
        <-> exists c, (In c targets \/ In c sources)
                      /\ author c <> author obj)
    /\ (is_collaborative (attribution_details obj s) = true
        <-> exists c, (In c targets \/ In c sources)
                      /\ author c <> author obj)
    /\ exists p c l s1 s2 s3,
         create 10 SampleAttribution.page_by_a SampleAttribution.two_authors
         = (Returned p, s1)
         /\ create 20 SampleAttribution.character_by_b s1 = (Returned c, s2)
         /\ link_to 30 c p s2 = (Returned l, s3)
         /\ total_references_received (attribution_details p s3) = 1
         /\ cross_author_references_received (attribution_details p s3) = 1
         /\ is_collaborative (attribution_details p s3) = true
         /\ info_is_collaborative (get_collaboration_info p s3) = true.
Proof.
  intros obj s targets sources cross_made cross_received.
  split; [reflexivity|]. split; [reflexivity|]. split; [reflexivity|].
  split; [reflexivity|].
  assert (Hinfo : info_is_collaborative (get_collaboration_info obj s) = true
                  <-> 0 < cross_made + cross_received).
  { unfold get_collaboration_info. simpl.
    rewrite !string_set_nonempty, !length_map. apply positive_sum. }
  assert (Hdetails : is_collaborative (attribution_details obj s) = true
                     <-> 0 < cross_made + cross_received).
  { unfold attribution_details. simpl. apply positive_sum. }
  split; [reflexivity|]. split; [exact Hinfo|]. split; [exact Hdetails|].
  split; [intros c; apply other_authored_iff|].
  split; [rewrite Hinfo; apply some_other_author|].
  split; [rewrite Hdetails; apply some_other_author|].
  - do 6 eexists.
    split; [reflexivity|]. split; [reflexivity|]. split; [reflexivity|].
    repeat split.
Qed.

Lemma collaboration_reports_witness :
  info_is_collaborative
    (get_collaboration_info SampleAttribution.page_of_a
       SampleAttribution.cross_linked) = true
  /\ is_collaborative
       (attribution_details SampleAttribution.page_of_a
          SampleAttribution.cross_linked) = true.
Proof.
  destruct (collaboration_reports SampleAttribution.page_of_a
              SampleAttribution.cross_linked)
    as (_ & _ & _ & _ & _ & H1 & H2 & _).
  split; [apply H1 | apply H2]; vm_compute; lia.
Defined.

(** C9 (as stated) fails: author A's page 1 carries one tag and is
    linked with A's own page 2.  The wording of the claim gives the score
    0 + 0 + 1; [collaboration_info] reports 1 + 1 + 1 and
    [attribution_details] reports 0. *)
Lemma same_author_links_are_scored :
  spec_collaboration_score SampleAttribution.own_page
    SampleAttribution.single_author = 1
  /\ info_collaboration_score
       (get_collaboration_info SampleAttribution.own_page
          SampleAttribution.single_author) = 3
  /\ collaboration_score
       (attribution_details SampleAttribution.own_page
          SampleAttribution.single_author) = 0.
Proof. repeat split. Qed.

(** ** Creation and the duplicate-title check *)

Lemma pre_save_fields e :
  kind (pre_save e) = kind e /\ pk (pre_save e) = pk e
  /\ title (pre_save e) = title e /\ world (pre_save e) = world e.
Proof.
  unfold pre_save, kind.
  destruct (extra e) as [| | | |? ? ? ? [f|]] eqn:E;
    try destruct (PyStr.truthy (content e));
    simpl; rewrite ?E; auto.
Qed.

Lemma title_conflicts_pre_save e s :
  title_conflicts (pre_save e) s = title_conflicts e s.
Proof.
  unfold title_conflicts.
  destruct (pre_save_fields e) as (-> & -> & -> & ->). reflexivity.
Qed.

Lemma ContentBase_clean_none e s :
  ContentBase_clean e s = None -> title_conflicts e s = [].
Proof.
  unfold ContentBase_clean.
  repeat match goal with
         | |- context [if ?c then _ else _] => destruct c; [discriminate|]
         end.
  now destruct (title_conflicts e s).
Qed.

Lemma clean_none e s : clean e s = None -> title_conflicts e s = [].
Proof.
  unfold clean. intros H. apply ContentBase_clean_none.
  now destruct (ContentBase_clean e s).
Qed.

Lemma clean_without_conflicts e s :
  title_conflicts e s = [] -> clean e s = clean e empty_store.
Proof.
  intros H. unfold clean, ContentBase_clean. rewrite H. reflexivity.
Qed.

Lemma full_clean_raises_keeps_store e s err s' :
  full_clean e s = (Raised err, s') -> s' = s.
Proof.
  unfold full_clean.
  destruct (clean e s) as [[]|]; try (intros H; now inversion H).
  destruct (clean_fields e); intros H; now inversion H.
Qed.

Lemma full_clean_returns e s u s' :
  full_clean e s = (Returned u, s') ->
  clean e s = None /\ clean_fields e = [] /\ s' = s.
Proof.
  unfold full_clean.
  destruct (clean e s) as [[]|]; try discriminate.
  destruct (clean_fields e); [|discriminate].
  intros H. inversion H. auto.
Qed.

(** The instance that [create] validates and inserts. *)
Lemma create_unfold now e s :
  create now e s
  = ContentBase_save now false
      (pre_save (set_inserted None (created_at e) e)) s.
Proof. reflexivity. Qed.

Lemma created_instance_fields e :
  let e0 := pre_save (set_inserted None (created_at e) e) in
  kind e0 = kind e /\ pk e0 = None /\ title e0 = title e
  /\ world e0 = world e.
Proof.
  simpl.
  destruct (pre_save_fields (set_inserted None (created_at e) e))
    as (-> & -> & -> & ->).
  now repeat split.
Qed.

Lemma create_returns_validated now e s e' s' :
  create now e s = (Returned e', s') ->
  full_clean (pre_save (set_inserted None (created_at e) e)) s
  = (Returned tt, s).
Proof.
  rewrite create_unfold. unfold ContentBase_save, bind.
  destruct (full_clean _ s) as [[[]|err] s1] eqn:E; [|discriminate].
  intros _. now destruct (full_clean_returns _ _ _ _ E) as (_ & _ & ->).
Qed.

Lemma live_conflict_in_query e s r :
  pk e = None ->
  In r (contents s) -> kind r = kind e -> world r = world e ->
  is_deleted r = false ->
  PyStr.iexact (title r) (PyStr.strip (title e)) = true ->
  In r (title_conflicts e s).
Proof.
  intros Hpk Hin Hk Hw Hd Ht. unfold title_conflicts. rewrite Hpk.
  apply filter_In. split; [now apply objects_In|].
  now rewrite Hw, opt_Z_eqb_refl, Ht.
Qed.

Lemma bump_contribution_returns u s :
  NoDup (map profile_user (profiles s)) ->
  exists s', bump_contribution u s = (Returned tt, s')
             /\ contents s' = contents s.
Proof.
  intros Hnd. unfold bump_contribution.
  destruct (filter_by_unique_key profile_user
              (fun p => Z.eqb (profile_user p) u) u (profiles s) Hnd)
    as [E|[p E]].
  - intros x _ Hx. now apply Z.eqb_eq.
  - rewrite E. simpl. eexists. split; reflexivity.
  - rewrite E. simpl. eexists. split; reflexivity.
Qed.

(** C10 (amended): the duplicate-title check of a creation sees the
    visible rows only.  A creation that succeeds found no visible entity
    of the same kind and world whose stored title equals the trimmed new
    title up to case; a creation that meets such an entity is refused and
    writes nothing; and a creation that would pass in an empty store
    passes in every store whose only rows with a matching title are
    soft-deleted. *)
Theorem creation_checks_visible_titles_only :
  forall (now : Z) (e : Content) (s : Store),
    (forall e' s',
        create now e s = (Returned e', s') ->
        forall r,
          In r (contents s) -> kind r = kind e -> world r = world e ->
          is_deleted r = false ->
          PyStr.iexact (title r) (PyStr.strip (title e)) = false)
    /\ (forall r,
           In r (contents s) -> kind r = kind e -> world r = world e ->
           is_deleted r = false ->
           PyStr.iexact (title r) (PyStr.strip (title e)) = true ->
           exists err, create now e s = (Raised err, s))
    /\ ((exists e0 s0, create now e empty_store = (Returned e0, s0)) ->
        NoDup (map profile_user (profiles s)) ->
        (forall r,
            In r (contents s) -> kind r = kind e -> world r = world e ->
            PyStr.iexact (title r) (PyStr.strip (title e)) = true ->
            is_deleted r = true) ->
        exists e' s',
          create now e s = (Returned e', s')
          /\ title e' = title e
          /\ contents s' = contents s ++ [e']).
Proof.
  intros now e s.
  set (e0 := pre_save (set_inserted None (created_at e) e)).
  destruct (created_instance_fields e) as (Hk & Hpk & Ht & Hw).
  fold e0 in Hk, Hpk, Ht, Hw.
  assert (Hconflict : forall r,
             In r (contents s) -> kind r = kind e -> world r = world e ->
             is_deleted r = false ->
             PyStr.iexact (title r) (PyStr.strip (title e)) = true ->
             In r (title_conflicts e0 s)).
  { intros r Hin Hkr Hwr Hd Hi.
    apply live_conflict_in_query; congruence. }
  split; [|split].
  - intros e' s' Hc r Hin Hkr Hwr Hd.
    destruct (PyStr.iexact (title r) (PyStr.strip (title e))) eqn:Ei;
      [exfalso|reflexivity].
    apply create_returns_validated in Hc. fold e0 in Hc.
    apply full_clean_returns in Hc as (Hc & _).
    apply clean_none in Hc.
    specialize (Hconflict r Hin Hkr Hwr Hd Ei). now rewrite Hc in Hconflict.
  - intros r Hin Hkr Hwr Hd Hi.
    specialize (Hconflict r Hin Hkr Hwr Hd Hi).
    rewrite create_unfold. fold e0. unfold ContentBase_save, bind.
    destruct (full_clean e0 s) as [[[]|err] s1] eqn:E.
    + apply full_clean_returns in E as (E & _). apply clean_none in E.
      now rewrite E in Hconflict.
    + exists err. now rewrite (full_clean_raises_keeps_store _ _ _ _ E).
  - intros (x & y & Hempty) Hprof Hdel.
    apply create_returns_validated in Hempty. fold e0 in Hempty.
    apply full_clean_returns in Hempty as (Hclean & Hfields & _).
    assert (Hnone : title_conflicts e0 s = []).
    { destruct (title_conflicts e0 s) as [|r l] eqn:E; [reflexivity|].
      assert (Hr : In r (title_conflicts e0 s)) by (rewrite E; now left).
      apply title_conflicts_are_live in Hr as (Hd & Hkr & Hin & Hwr & Hi).
      rewrite Ht in Hi.
      rewrite (Hdel r Hin) in Hd; congruence. }
    rewrite create_unfold. fold e0.
    unfold ContentBase_save, bind, full_clean.
    rewrite (clean_without_conflicts e0 s Hnone), Hclean, Hfields.
    unfold ImmutableModelMixin_save, pk_truthy, Model_save.
    rewrite Hpk. simpl.
    set (e' := set_inserted
                 (Some (next_id (pks (all_objects (kind e0) s)))) now e0).
    set (s1 := set_contents (contents s ++ [e']) s).
    assert (He' : title e' = title e) by exact Ht.
    destruct (author e0) as [u|].
    + destruct (bump_contribution_returns u s1 Hprof) as (s2 & Hb & Hc2).
      rewrite Hb. exists e', s2. unfold ret. now repeat split.
    + exists e', s1. unfold ret. now repeat split.
Qed.

Lemma creation_checks_visible_titles_only_witness :
  exists e' s',
    create 20 SampleTitles.lowercase_draft SampleTitles.store_with_deleted
    = (Returned e', s')
    /\ title e' = "foundation"
    /\ contents s' = [SampleTitles.deleted_page; e'].
Proof.
  destruct (creation_checks_visible_titles_only 20
              SampleTitles.lowercase_draft SampleTitles.store_with_deleted)
    as (_ & _ & H).
  apply H.
  - eexists. eexists. reflexivity.
  - constructor.
  - intros r [<-|[]] _ _ _. reflexivity.
Defined.

(** C10 (as stated) fails: "Foundation" is created and soft-deleted,
    "foundation" is created in the same world, and the first page is
    restored; nothing checks titles at [restore], and two visible pages
    of the world carry the same title up to case. *)
Lemma restore_revives_duplicate_title :
  exists e2 s3 r s4,
    create 10 SampleTitles.capital_draft empty_store
    = (Returned SampleTitles.capital_page,
       set_profiles [{| profile_user := 1; contribution_count := 1 |}]
         (Sample.with_contents [SampleTitles.capital_page]))
    /\ soft_delete 15 (Some 1%Z) SampleTitles.capital_page
         (Sample.with_contents [SampleTitles.capital_page])
       = (Returned SampleTitles.deleted_page, SampleTitles.store_with_deleted)
    /\ create 20 SampleTitles.lowercase_draft SampleTitles.store_with_deleted
       = (Returned e2, s3)
    /\ restore 30 SampleTitles.deleted_page s3 = (Returned r, s4)
    /\ map (fun x => (title x, world x, is_deleted x)) (objects Page s4)
       = [("Foundation", Some 1%Z, false); ("foundation", Some 1%Z, false)]
    /\ PyStr.iexact "Foundation" "foundation" = true.
Proof.
  do 4 eexists.
  split; [reflexivity|]. split; [reflexivity|]. split; [reflexivity|].
  split; [reflexivity|]. split; reflexivity.
Qed.

(** ** The guard seen from [save] *)

Lemma pre_save_guard_fields e :
  same_row (pre_save e) = same_row e
  /\ pk_truthy (pre_save e) = pk_truthy e
  /\ is_deleted (pre_save e) = is_deleted e
  /\ deleted_at (pre_save e) = deleted_at e
  /\ deleted_by (pre_save e) = deleted_by e.
Proof.
  unfold same_row, pk_truthy.
  destruct (pre_save_fields e) as (-> & -> & _ & _).
  unfold pre_save.
  destruct (extra e) as [| | | |? ? ? ? [f|]];
    try destruct (PyStr.truthy (content e)); now repeat split.
Qed.

(** A [save] that leaves the triad as stored always fails and writes
    nothing; when the proposed state passes validation the failure is the
    immutability error naming the model and the key. *)
Lemma save_with_unchanged_triad_fails now e current s :
  pk_truthy e = true ->
  qs_get (filter (same_row e) (contents s)) = Found current ->
  is_deleted e = is_deleted current ->
  deleted_at e = deleted_at current ->
  deleted_by e = deleted_by current ->
  exists err,
    save now false e s = (Raised err, s)
    /\ (full_clean (pre_save e) s = (Returned tt, s) ->
        err = ImmutabilityViolationError
                (String.append (class_name (kind e))
                   " content cannot be modified after creation")
                (class_name_lower (kind e)) (pk e)).
Proof.
  intros Hpk Hget Hd Hat Hby.
  destruct (pre_save_guard_fields e) as (Hrow & Htruthy & Hd' & Hat' & Hby').
  destruct (pre_save_fields e) as (Hk & Hp & _ & _).
  unfold save, ContentBase_save, bind.
  destruct (full_clean (pre_save e) s) as [[[]|err] s1] eqn:E.
  - destruct (full_clean_returns _ _ _ _ E) as (_ & _ & ->).
    assert (Hguard := guard_rejects_unchanged_triad now (pre_save e)
                        current s).
    rewrite Hrow, Htruthy, Hd', Hat', Hby', Hk, Hp in Hguard.
    rewrite (Hguard Hpk Hget Hd Hat Hby).
    eexists. split; [reflexivity|]. intros _. reflexivity.
  - rewrite (full_clean_raises_keeps_store _ _ _ _ E) in *.
    exists err. split; [reflexivity|]. intros H. discriminate.
Qed.

(** ** [unlink_from] on a paired table *)

Lemma has_link_false_iff fk i tk j s :
  has_link fk i tk j s = false <->
  ~ In (fk, i, tk, j) (map link_key (content_links s)).
Proof.
  rewrite <- has_link_edges. destruct (has_link fk i tk j s); split;
    intros H; try reflexivity; try discriminate; auto.
  exfalso. now apply H.
Qed.

(** On a well-formed, paired table [unlink_from] of two distinct stored
    entities removes both directed rows and answers whether the pair was
    linked. *)
Lemma unlink_from_paired self target i j s :
  linking_invariant s ->
  pk self = Some i -> pk target = Some j ->
  (kind self, i) <> (kind target, j) ->
  exists s',
    unlink_from self target s
    = (Returned (has_link (kind self) i (kind target) j s), s')
    /\ has_link (kind self) i (kind target) j s' = false
    /\ has_link (kind target) j (kind self) i s' = false.
Proof.
  intros [Hids Hkeys Hsym] Hi Hj Hne.
  pose proof (proj1 (symmetric_edges s) Hsym) as Hs.
  unfold unlink_from, bind. rewrite Hi, Hj.
  destruct (link_get_cases (kind self) (Some i) (kind target) (Some j)
              s Hkeys)
    as [[H1 Hnone]|(fl & H1 & Hfl & Hlf)]; rewrite H1.
  - assert (Hf : has_link (kind self) i (kind target) j s = false).
    { apply has_link_false_iff. intros Hin.
      apply in_map_iff in Hin as (l & Hk & Hl).
      apply link_lookup_some in Hk. now rewrite (Hnone l Hl) in Hk. }
    rewrite Hf. exists s. split; [reflexivity|]. split; [exact Hf|].
    apply has_link_false_iff. intros Hin.
    apply (proj1 (has_link_false_iff _ _ _ _ s) Hf).
    now apply (Hs (kind target, j, kind self, i)).
  - apply link_lookup_some in Hlf.
    rewrite (has_link_of_row fl _ _ _ _ s Hfl Hlf).
    pose proof (delete_link_edges fl s Hids Hkeys Hfl) as He1.
    destruct (delete_link_wf fl s Hids Hkeys) as [Hids1 Hkeys1].
    destruct (ContentLink_delete fl s) as [u s1] eqn:Ed.
    assert (Hu : u = Returned tt)
      by (unfold ContentLink_delete in Ed; congruence).
    subst u. simpl in He1, Hids1, Hkeys1.
    destruct (link_get_cases (kind target) (Some j) (kind self) (Some i)
                s1 Hkeys1)
      as [[H2 Hnone]|(rl & H2 & Hrl & Hlr)]; rewrite H2.
    + exfalso.
      assert (Hin : In (kind target, j, kind self, i)
                      (map link_key (content_links s1))).
      { apply He1. split.
        - apply (Hs (kind self, i, kind target, j)).
          rewrite <- Hlf. now apply in_map.
        - rewrite Hlf. intros E. inversion E. apply Hne. congruence. }
      apply in_map_iff in Hin as (l & Hk & Hl).
      apply link_lookup_some in Hk. now rewrite (Hnone l Hl) in Hk.
    + apply link_lookup_some in Hlr.
      pose proof (delete_link_edges rl s1 Hids1 Hkeys1 Hrl) as He2.
      destruct (ContentLink_delete rl s1) as [u s2] eqn:Ed2.
      assert (Hu : u = Returned tt)
        by (unfold ContentLink_delete in Ed2; congruence).
      subst u. simpl in He2. exists s2. split; [reflexivity|].
      split; apply has_link_false_iff; intros Hin;
        apply He2 in Hin as [Hin Hnr]; apply He1 in Hin as [Hin Hnf];
        congruence.
Qed.

(** * Further properties *)

(** ** Forced writes *)

(** A forced write of an instance whose row is stored replaces that row
    by the instance, whatever the triad. *)
Lemma forced_write_replaces_row now e s :
  pk e <> None ->
  existsb (same_row e) (contents s) = true ->
  ImmutableModelMixin_save now true e s
  = (Returned e,
     set_contents (map (fun r => if same_row e r then e else r) (contents s))
       s).
Proof.
  intros Hpk Hex. unfold ImmutableModelMixin_save.
  rewrite andb_false_r. unfold Model_save.
  destruct (pk e) as [i|] eqn:E; [|congruence]. now rewrite Hex.
Qed.

(** [save(force_update=True)] bypasses the guard: when the proposed state
    passes validation, every field of the stored row is overwritten. *)
Theorem forced_save_overwrites_row :
  forall (now : Z) (e : Content) (s : Store),
    pk e <> None ->
    existsb (same_row e) (contents s) = true ->
    full_clean (pre_save e) s = (Returned tt, s) ->
    save now true e s
    = (Returned (pre_save e),
       set_contents
         (map (fun r => if same_row e r then pre_save e else r) (contents s))
         s).
Proof.
  intros now e s Hpk Hex Hclean.
  destruct (pre_save_guard_fields e) as (Hrow & _).
  destruct (pre_save_fields e) as (_ & Hp & _ & _).
  unfold save, ContentBase_save, bind. rewrite Hclean.
  rewrite (forced_write_replaces_row now (pre_save e) s);
    [| congruence | now rewrite Hrow].
  rewrite Hrow, Hp. destruct (pk e); [reflexivity|congruence].
Qed.

Lemma forced_save_overwrites_row_witness :
  save 200 true Sample.page1_retitled Sample.store1
  = (Returned Sample.page1_retitled,
     Sample.with_contents [Sample.page1_retitled]).
Proof.
  rewrite (forced_save_overwrites_row 200 Sample.page1_retitled Sample.store1).
  - reflexivity.
  - discriminate.
  - reflexivity.
  - reflexivity.
Defined.

(** ** Visibility under soft delete *)

Lemma objects_after_replace k e e' s :
  same_row e e' = true ->
  forall r,
    In r (filter (fun x => Kind_eqb (kind x) k)
            (map (fun x => if same_row e x then e' else x) (contents s)))
    <-> (same_row e r = false /\ In r (all_objects k s))
        \/ (r = e' /\ kind e' = k /\ existsb (same_row e) (contents s) = true).
Proof.
  intros He' r. rewrite filter_In, in_map_iff, Kind_eqb_eq.
  unfold all_objects. rewrite filter_In, Kind_eqb_eq. split.
  - intros [(x & Hx & Hin) Hk]. destruct (same_row e x) eqn:E.
    + right. subst r. repeat split; auto.
      apply existsb_exists. now exists x.
    + left. subst r. auto.
  - intros [(E & Hin & Hk)|(-> & Hk & Hex)].
    + split; [|exact Hk]. exists r. now rewrite E.
    + split; [|exact Hk]. apply existsb_exists in Hex as (x & Hin & Hx).
      exists x. now rewrite Hx.
Qed.

(** Soft-deleting a stored entity takes its row out of the default
    manager and puts it among the deleted rows, restoring it brings it
    back, and the visibility of every other row is untouched. *)
Theorem soft_delete_hides_restore_shows :
  forall (now now' : Z) (actor : option Z) (e : Content) (s : Store),
    In e (contents s) ->
    pk e <> None ->
    let deleted := set_triad true (Some now) actor e in
    let restored := set_triad false None None e in
    let s1 := snd (soft_delete now actor e s) in
    let s2 := snd (restore now' deleted s1) in
    (forall r, In r (objects (kind e) s1) -> same_row e r = false)
    /\ In deleted (deleted_only (kind e) s1)
    /\ (forall k r, same_row e r = false ->
                    (In r (objects k s1) <-> In r (objects k s)))
    /\ In restored (objects (kind e) s2)
    /\ (forall r, In r (deleted_only (kind e) s2) -> same_row e r = false)
    /\ (forall k r, same_row e r = false ->
                    (In r (objects k s2) <-> In r (objects k s))).
Proof.
  intros now now' actor e s Hin Hpk deleted restored s1 s2.
  assert (Hex : existsb (same_row e) (contents s) = true)
    by now apply existsb_same_row.
  assert (H1 : contents s1
               = map (fun x => if same_row e x then deleted else x)
                   (contents s)).
  { unfold s1, soft_delete.
    now rewrite (forced_write_replaces_row now
                   (set_triad true (Some now) actor e) s Hpk Hex). }
  assert (Hex1 : existsb (same_row e) (contents s1) = true).
  { rewrite H1. apply existsb_exists. exists deleted. split.
    - apply in_map_iff. exists e. now rewrite same_row_refl.
    - exact (same_row_refl e). }
  assert (H2 : contents s2
               = map (fun x => if same_row e x then restored else x)
                   (contents s1)).
  { unfold s2, restore, deleted.
    now rewrite (forced_write_replaces_row now'
                   (set_triad false None None
                      (set_triad true (Some now) actor e)) s1 Hpk Hex1). }
  assert (Hobj : forall k s' e',
             same_row e e' = true ->
             contents s'
             = map (fun x => if same_row e x then e' else x) (contents s) ->
             forall r,
               In r (all_objects k s')
               <-> (same_row e r = false /\ In r (all_objects k s))
                   \/ (r = e' /\ kind e' = k)).
  { intros k s' e' He' Hc r. unfold all_objects at 1. rewrite Hc.
    rewrite (objects_after_replace k e e' s He' r). rewrite Hex. tauto. }
  assert (H2' : contents s2
                = map (fun x => if same_row e x then restored else x)
                    (contents s)).
  { rewrite H2, H1, map_map. apply map_ext. intros x.
    destruct (same_row e x) eqn:E; [|now rewrite E].
    change (same_row e deleted) with (same_row e e).
    now rewrite same_row_refl. }
  pose proof (Hobj (kind e) s1 deleted (same_row_refl e) H1) as A1.
  pose proof (Hobj (kind e) s2 restored (same_row_refl e) H2') as A2.
  unfold objects, deleted_only.
  repeat split.
  - intros r Hr. apply filter_In in Hr as [Hr Hd].
    apply A1 in Hr as [[E _]|[-> _]]; [exact E|discriminate].
  - apply filter_In. split; [|reflexivity]. apply A1. right. now split.
  - intros Hr. apply filter_In in Hr as [Hr Hd]. apply filter_In.
    split; [|exact Hd].
    apply (Hobj k s1 deleted (same_row_refl e) H1) in Hr
      as [[_ Hr]|[-> _]]; [exact Hr|].
    change (same_row e deleted) with (same_row e e) in H.
    now rewrite same_row_refl in H.
  - intros Hr. apply filter_In in Hr as [Hr Hd]. apply filter_In.
    split; [|exact Hd].
    apply (Hobj k s1 deleted (same_row_refl e) H1). left. now split.
  - apply filter_In. split; [|reflexivity]. apply A2. right. now split.
  - intros r Hr. apply filter_In in Hr as [Hr Hd].
    apply A2 in Hr as [[E _]|[-> _]]; [exact E|discriminate].
  - intros Hr. apply filter_In in Hr as [Hr Hd]. apply filter_In.
    split; [|exact Hd].
    apply (Hobj k s2 restored (same_row_refl e) H2') in Hr
      as [[_ Hr]|[-> _]]; [exact Hr|].
    change (same_row e restored) with (same_row e e) in H.
    now rewrite same_row_refl in H.
  - intros Hr. apply filter_In in Hr as [Hr Hd]. apply filter_In.
    split; [|exact Hd].
    apply (Hobj k s2 restored (same_row_refl e) H2'). left. now split.
Qed.

Lemma soft_delete_hides_restore_shows_witness :
  objects Page (snd (soft_delete 300 (Some 7%Z) Sample.page1 Sample.store1))
  = []
  /\ In (set_triad true (Some 300%Z) (Some 7%Z) Sample.page1)
       (deleted_only Page
          (snd (soft_delete 300 (Some 7%Z) Sample.page1 Sample.store1))).
Proof.
  destruct (soft_delete_hides_restore_shows 300 400 (Some 7%Z)
              Sample.page1 Sample.store1)
    as (_ & H & _).
  - simpl. now left.
  - discriminate.
  - split; [reflexivity|exact H].
Defined.

(** ** What a creation writes *)

Lemma ContentBase_clean_none_fields e s :
  ContentBase_clean e s = None ->
  PyStr.truthy (content e) = true /\ author e <> None /\ world e <> None.
Proof.
  unfold ContentBase_clean.
  destruct (negb (PyStr.truthy (title e))
            || negb (PyStr.truthy (PyStr.strip (title e)))); [discriminate|].
  destruct (String.length (PyStr.strip (title e)) <? 3); [discriminate|].
  destruct (300 <? String.length (PyStr.strip (title e))); [discriminate|].
  destruct (PyStr.truthy (content e)) eqn:Ec; [|discriminate]. simpl.
  destruct (negb (PyStr.truthy (PyStr.strip (content e)))); [discriminate|].
  destruct (String.length (PyStr.strip (content e)) <? 10); [discriminate|].
  destruct (world e); [|discriminate]. destruct (author e); [|discriminate].
  intros _. repeat split; discriminate.
Qed.

Lemma pre_save_body e : content (pre_save e) = content e.
Proof.
  unfold pre_save.
  destruct (extra e) as [| | | |? ? ? ? [f|]];
    try destruct (PyStr.truthy (content e)); reflexivity.
Qed.

Lemma pre_save_author e : author (pre_save e) = author e.
Proof.
  unfold pre_save.
  destruct (extra e) as [| | | |? ? ? ? [f|]];
    try destruct (PyStr.truthy (content e)); reflexivity.
Qed.

Lemma pks_bound rows r i :
  In r rows -> pk r = Some i -> (i < next_id (pks rows))%Z.
Proof.
  intros Hin Hp. apply next_id_bound. unfold pks. apply in_flat_map.
  exists r. split; [exact Hin|]. rewrite Hp. now left.
Qed.

Lemma find_snoc {A : Type} (f : A -> bool) (l : list A) (x : A) :
  find f (l ++ [x])
  = match find f l with
    | Some y => Some y
    | None => if f x then Some x else None
    end.
Proof.
  induction l as [|a r IH]; simpl; [reflexivity|].
  destruct (f a); [reflexivity|exact IH].
Qed.

Lemma find_filter_nil {A : Type} (f : A -> bool) (l : list A) :
  filter f l = [] -> find f l = None.
Proof.
  induction l as [|a r IH]; simpl; [reflexivity|].
  destruct (f a); [discriminate|exact IH].
Qed.

Lemma find_filter_head {A : Type} (f : A -> bool) (l : list A) x rest :
  filter f l = x :: rest -> find f l = Some x.
Proof.
  induction l as [|a r IH]; simpl; [discriminate|].
  destruct (f a); [intros H; now inversion H|exact IH].
Qed.

Lemma find_profile_bumped u n v l :
  find (fun p => (profile_user p =? v)%Z)
    (map (fun q => if (profile_user q =? u)%Z
                   then {| profile_user := u; contribution_count := n |}
                   else q) l)
  = match find (fun p => (profile_user p =? v)%Z) l with
    | Some p => if (profile_user p =? u)%Z
                then Some {| profile_user := u; contribution_count := n |}
                else Some p
    | None => None
    end.
Proof.
  induction l as [|a r IH]; simpl; [reflexivity|].
  destruct (profile_user a =? u)%Z eqn:Ea; simpl.
  - apply Z.eqb_eq in Ea. rewrite Ea.
    destruct (u =? v)%Z eqn:Ev.
    + now rewrite Ea, Z.eqb_refl.
    + exact IH.
  - destruct (profile_user a =? v)%Z eqn:Ev; [now rewrite Ea|exact IH].
Qed.

Lemma bump_contribution_counts u s s' :
  bump_contribution u s = (Returned tt, s') ->
  contents s' = contents s
  /\ contribution_of u s' = S (contribution_of u s)
  /\ forall v, v <> u -> contribution_of v s' = contribution_of v s.
Proof.
  unfold bump_contribution, contribution_of.
  destruct (filter (fun p => (profile_user p =? u)%Z) (profiles s))
    as [|p [|q l]] eqn:E; simpl; intros H; inversion H; subst s'; clear H;
    simpl.
  - split; [reflexivity|]. split.
    + rewrite find_snoc, (find_filter_nil _ _ E). simpl.
      now rewrite Z.eqb_refl.
    + intros v Hv. rewrite find_snoc. simpl.
      replace (u =? v)%Z with false
        by (symmetry; apply Z.eqb_neq; congruence).
      now destruct (find _ (profiles s)).
  - split; [reflexivity|]. split.
    + rewrite find_profile_bumped, (find_filter_head _ _ _ _ E).
      assert (Hp : (profile_user p =? u)%Z = true).
      { assert (Hin : In p (filter (fun p => (profile_user p =? u)%Z)
                              (profiles s))) by (rewrite E; now left).
        now apply filter_In in Hin. }
      now rewrite Hp.
    + intros v Hv. rewrite find_profile_bumped.
      destruct (find (fun p0 => (profile_user p0 =? v)%Z) (profiles s))
        as [x|] eqn:Ef; [|reflexivity].
      apply find_some in Ef as [_ Hx]. apply Z.eqb_eq in Hx.
      replace (profile_user x =? u)%Z with false
        by (symmetry; apply Z.eqb_neq; congruence).
      reflexivity.
Qed.

(** The full outcome of a successful creation. *)
Lemma create_outcome now e s e' s' :
  create now e s = (Returned e', s') ->
  let e0 := pre_save (set_inserted None (created_at e) e) in
  full_clean e0 s = (Returned tt, s)
  /\ e' = set_inserted (Some (next_id (pks (all_objects (kind e) s)))) now e0
  /\ contents s' = contents s ++ [e']
  /\ exists u,
       author e = Some u
       /\ bump_contribution u (set_contents (contents s ++ [e']) s)
          = (Returned tt, s').
Proof.
  intros Hc e0.
  pose proof (create_returns_validated now e s e' s' Hc) as Hclean.
  fold e0 in Hclean. split; [exact Hclean|].
  destruct (created_instance_fields e) as (Hk & Hpk & _ & _). fold e0 in Hk, Hpk.
  destruct (full_clean_returns _ _ _ _ Hclean) as (Hcl & _ & _).
  assert (Hfields : ContentBase_clean e0 s = None)
    by (unfold clean in Hcl; now destruct (ContentBase_clean e0 s)).
  apply ContentBase_clean_none_fields in Hfields as (_ & Ha & _).
  rewrite create_unfold in Hc. fold e0 in Hc.
  unfold ContentBase_save, bind in Hc. rewrite Hclean in Hc.
  unfold ImmutableModelMixin_save, pk_truthy, Model_save in Hc.
  rewrite Hpk, Hk in Hc. simpl in Hc.
  assert (Hau : author e0 = author e)
    by (unfold e0; now rewrite pre_save_author).
  destruct (author e0) as [u|] eqn:Eu; [|congruence].
  set (x := set_inserted (Some (next_id (pks (all_objects (kind e) s)))) now e0)
    in *.
  destruct (bump_contribution u (set_contents (contents s ++ [x]) s))
    as [[[]|err] s2] eqn:Eb; [|discriminate].
  unfold ret in Hc. inversion Hc. subst e' s'.
  split; [reflexivity|].
  destruct (bump_contribution_counts _ _ _ Eb) as (Hcont & _).
  split; [exact Hcont|]. exists u. split; [congruence|exact Eb].
Qed.

(** A successful creation appends one row carrying a key that no row of
    its table has, stamps it with the current instant whatever
    [created_at] the caller supplied, and raises the author's contribution
    counter by one, leaving every other counter alone. *)
Theorem create_appends_fresh_row :
  forall (now : Z) (e e' : Content) (s s' : Store),
    create now e s = (Returned e', s') ->
    contents s' = contents s ++ [e']
    /\ kind e' = kind e /\ title e' = title e /\ world e' = world e
    /\ created_at e' = now
    /\ (exists i, pk e' = Some i
                  /\ forall r, In r (contents s) -> kind r = kind e ->
                               pk r <> Some i)
    /\ exists u,
         author e = Some u
         /\ contribution_of u s' = S (contribution_of u s)
         /\ forall v, v <> u -> contribution_of v s' = contribution_of v s.
Proof.
  intros now e e' s s' Hc.
  destruct (create_outcome now e s e' s' Hc) as (_ & He' & Hcont & u & Hu & Hb).
  destruct (created_instance_fields e) as (Hk & _ & Ht & Hw).
  split; [exact Hcont|]. subst e'.
  split; [exact Hk|]. split; [exact Ht|]. split; [exact Hw|].
  split; [reflexivity|]. split.
  - eexists. split; [reflexivity|]. intros r Hin Hkr Hp.
    assert (Hr : In r (all_objects (kind e) s))
      by (apply filter_In; split; [exact Hin|now apply Kind_eqb_eq]).
    pose proof (pks_bound _ r _ Hr Hp). lia.
  - exists u. split; [exact Hu|].
    destruct (bump_contribution_counts _ _ _ Hb) as (_ & H1 & H2).
    split; [exact H1|exact H2].
Qed.

Lemma create_appends_fresh_row_witness :
  exists e' s',
    create 20 SampleTitles.lowercase_draft SampleTitles.store_with_deleted
    = (Returned e', s')
    /\ pk e' = Some 2%Z /\ created_at e' = 20%Z
    /\ contribution_of 2 s' = 1.
Proof.
  eexists. eexists. split; [reflexivity|].
  destruct (create_appends_fresh_row 20 SampleTitles.lowercase_draft _
              SampleTitles.store_with_deleted _ eq_refl)
    as (_ & _ & _ & _ & Hat & _ & _).
  split; [reflexivity|]. split; [exact Hat|reflexivity].
Defined.

(** The [word_count] an essay or story is created with is the number of
    whitespace-separated words of its body, whatever value the caller
    supplied; the body itself is stored as given. *)
Theorem create_recomputes_word_count :
  forall (now : Z) (e e' : Content) (s s' : Store),
    create now e s = (Returned e', s') ->
    content e' = content e
    /\ (forall abstract n, extra e = EssayX abstract n ->
          extra e' = EssayX abstract (PyStr.count_words (content e)))
    /\ (forall genre n details, extra e = StoryX genre n details ->
          extra e' = StoryX genre (PyStr.count_words (content e)) details).
Proof.
  intros now e e' s s' Hc.
  destruct (create_outcome now e s e' s' Hc) as (Hclean & He' & _).
  destruct (full_clean_returns _ _ _ _ Hclean) as (Hcl & _ & _).
  assert (Hfields :
            ContentBase_clean
              (pre_save (set_inserted None (created_at e) e)) s = None).
  { unfold clean in Hcl.
    now destruct (ContentBase_clean
                    (pre_save (set_inserted None (created_at e) e)) s). }
  apply ContentBase_clean_none_fields in Hfields as (Hbody & _).
  rewrite pre_save_body in Hbody.
  change (PyStr.truthy (content e) = true) in Hbody.
  subst e'.
  split; [exact (pre_save_body (set_inserted None (created_at e) e))|].
  split; [intros a n E|intros g n d E];
    unfold pre_save; simpl; rewrite E, Hbody; reflexivity.
Qed.

Lemma create_recomputes_word_count_witness :
  exists e' s',
    create 5 (Sample.draft "A Story" (StoryX "epic" 99 Sample.hero_details)
                1 1) empty_store
    = (Returned e', s')
    /\ extra e' = StoryX "epic" 4 Sample.hero_details.
Proof.
  eexists. eexists. split; [reflexivity|].
  destruct (create_recomputes_word_count 5
              (Sample.draft "A Story" (StoryX "epic" 99 Sample.hero_details)
                 1 1) _
              empty_store _ eq_refl) as (_ & _ & H).
  exact (H "epic" 99 Sample.hero_details eq_refl).
Defined.

(** ** Titles and bodies on the serializer path *)

Lemma validate_title_accepted v t :
  validate_title v = Accepted t ->
  t = PyStr.strip v /\ PyStr.truthy t = true
  /\ 3 <= String.length t /\ String.length t <= 300.
Proof.
  unfold validate_title.
  destruct (PyStr.truthy v); simpl; [|discriminate].
  destruct (PyStr.truthy (PyStr.strip v)) eqn:Et; simpl; [|discriminate].
  destruct (String.length (PyStr.strip v) <? 3) eqn:E3; [discriminate|].
  destruct (300 <? String.length (PyStr.strip v)) eqn:E300; [discriminate|].
  intros H. inversion H. subst t.
  apply Nat.ltb_ge in E3, E300. auto.
Qed.

Lemma validate_content_accepted v t :
  validate_content v = Accepted t ->
  t = PyStr.strip v /\ PyStr.truthy t = true /\ 10 <= String.length t.
Proof.
  unfold validate_content.
  destruct (PyStr.truthy v); simpl; [|discriminate].
  destruct (PyStr.truthy (PyStr.strip v)) eqn:Et; simpl; [|discriminate].
  destruct (String.length (PyStr.strip v) <? 10) eqn:E10; [discriminate|].
  intros H. inversion H. subst t.
  apply Nat.ltb_ge in E10. auto.
Qed.

(** What [validate_title] and [validate_content] accept is the input
    without its surrounding whitespace, within the length bounds, and
    the validators return such a value unchanged when given it again. *)
Theorem serializer_validators_normalize :
  forall (v t : string),
    (validate_title v = Accepted t ->
       t = PyStr.strip v /\ PyStr.strip t = t
       /\ 3 <= String.length t /\ String.length t <= 300
       /\ validate_title t = Accepted t)
    /\ (validate_content v = Accepted t ->
          t = PyStr.strip v /\ PyStr.strip t = t
          /\ 10 <= String.length t
          /\ validate_content t = Accepted t).
Proof.
  intros v t. split; intros H.
  - destruct (validate_title_accepted v t H) as (-> & Ht & H3 & H300).
    assert (Hs : PyStr.strip (PyStr.strip v) = PyStr.strip v)
      by apply strip_idem.
    repeat split; auto.
    unfold validate_title. rewrite Hs, Ht. simpl.
    apply Nat.ltb_ge in H3, H300. now rewrite H3, H300.
  - destruct (validate_content_accepted v t H) as (-> & Ht & H10).
    assert (Hs : PyStr.strip (PyStr.strip v) = PyStr.strip v)
      by apply strip_idem.
    repeat split; auto.
    unfold validate_content. rewrite Hs, Ht. simpl.
    apply Nat.ltb_ge in H10. now rewrite H10.
Qed.

Lemma serializer_validators_normalize_witness :
  validate_title "  Foundation " = Accepted "Foundation"
  /\ validate_title "Foundation" = Accepted "Foundation".
Proof.
  split; [reflexivity|].
  exact (proj2 (proj2 (proj2 (proj2
           (proj1 (serializer_validators_normalize "  Foundation "
                     "Foundation") eq_refl))))).
Defined.

(** Once the serializer has accepted the title and the body, the only
    check of [ContentBase.clean] that can still fail on an instance with
    an author and a world is the duplicate-title query. *)
Theorem validated_fields_leave_title_check :
  forall (e : Content) (s : Store) (raw_title raw_body : string),
    validate_title raw_title = Accepted (title e) ->
    validate_content raw_body = Accepted (content e) ->
    author e <> None -> world e <> None ->
    (ContentBase_clean e s = None <-> title_conflicts e s = [])
    /\ (title_conflicts e s <> [] ->
        ContentBase_clean e s
        = Some (ContentValidationError
                  (String.append "A "
                     (String.append (class_name_lower (kind e))
                        " with this title already exists in this world"))
                  "title" "unique_within_world")).
Proof.
  intros e s vt vc Ht Hc Ha Hw.
  destruct (validate_title_accepted _ _ Ht) as (Et & Htt & H3 & H300).
  destruct (validate_content_accepted _ _ Hc) as (Ec & Hct & H10).
  assert (Hst : PyStr.strip (title e) = title e)
    by (rewrite Et; apply strip_idem).
  assert (Hsc : PyStr.strip (content e) = content e)
    by (rewrite Ec; apply strip_idem).
  assert (Hclean :
            ContentBase_clean e s
            = match title_conflicts e s with
              | [] => None
              | _ :: _ =>
                  Some (ContentValidationError
                          (String.append "A "
                             (String.append (class_name_lower (kind e))
                                " with this title already exists in this world"))
                          "title" "unique_within_world")
              end).
  { unfold ContentBase_clean. rewrite Hst, Hsc, Htt, Hct. simpl.
    apply Nat.ltb_ge in H3, H300, H10. rewrite H3, H300, H10.
    destruct (world e); [|congruence]. destruct (author e); [|congruence].
    reflexivity. }
  rewrite Hclean. split.
  - destruct (title_conflicts e s); split; intros H; congruence.
  - destruct (title_conflicts e s); [congruence|reflexivity].
Qed.

Lemma validated_fields_leave_title_check_witness :
  ContentBase_clean SampleTitles.capital_draft
    (Sample.with_contents [SampleTitles.capital_page])
  = Some (ContentValidationError
            "A page with this title already exists in this world"
            "title" "unique_within_world").
Proof.
  apply (proj2 (validated_fields_leave_title_check
                  SampleTitles.capital_draft
                  (Sample.with_contents [SampleTitles.capital_page])
                  " Foundation" "Some long enough body "
                  eq_refl eq_refl
                  ltac:(discriminate) ltac:(discriminate))).
  discriminate.
Defined.

Lemma ForallOrdPairs_snoc {A : Type} (R : A -> A -> Prop) (l : list A) x :
  ForallOrdPairs R l -> Forall (fun a => R a x) l ->
  ForallOrdPairs R (l ++ [x]).
Proof.
  induction 1 as [|a l Ha Hl IH]; intros Hx; simpl.
  - constructor; constructor.
  - inversion Hx; subst. constructor.
    + apply Forall_app. split; [exact Ha|]. now constructor.
    + now apply IH.
Qed.

(** Creating an entity whose title carries no surrounding whitespace
    (as every title coming through the serializer does) keeps the titles
    of the visible entities of each kind and world distinct up to case;
    and it keeps all stored titles trimmed. *)
Theorem create_keeps_titles_distinct :
  forall (now : Z) (e e' : Content) (s s' : Store),
    titles_distinct (contents s) ->
    PyStr.strip (title e) = title e ->
    create now e s = (Returned e', s') ->
    titles_distinct (contents s')
    /\ (titles_trimmed (contents s) -> titles_trimmed (contents s')).
Proof.
  intros now e e' s s' Hd Hs Hc.
  destruct (create_outcome now e s e' s' Hc) as (Hclean & He' & Hcont & _).
  destruct (created_instance_fields e) as (Hk & Hpk & Ht & Hw).
  destruct (full_clean_returns _ _ _ _ Hclean) as (Hcl & _ & _).
  apply clean_none in Hcl.
  assert (Hk' : kind e' = kind e) by (subst e'; exact Hk).
  assert (Ht' : title e' = title e) by (subst e'; exact Ht).
  assert (Hw' : world e' = world e) by (subst e'; exact Hw).
  rewrite Hcont. split.
  - apply ForallOrdPairs_snoc; [exact Hd|].
    apply Forall_forall. intros r Hr (Hdr & _ & Hkr & Hwr).
    destruct (PyStr.iexact (title r) (title e')) eqn:Ei; [|reflexivity].
    exfalso.
    assert (Hin : In r (title_conflicts
                          (pre_save (set_inserted None (created_at e) e)) s)).
    { apply live_conflict_in_query; congruence. }
    rewrite Hcl in Hin. contradiction.
  - intros Htr. apply Forall_app. split; [exact Htr|].
    constructor; [congruence|constructor].
Qed.

Lemma create_keeps_titles_distinct_witness :
  titles_distinct
    (contents (snd (create 120 (Sample.draft "Other Page" (PageX "") 2 1)
                      Sample.store1))).
Proof.
  refine (proj1 (create_keeps_titles_distinct 120
                   (Sample.draft "Other Page" (PageX "") 2 1) _
                   Sample.store1 _ _ eq_refl eq_refl)).
  repeat constructor.
Defined.

(** ** Tags of an entity *)

Lemma get_tags_In e s t :
  In t (get_tags e s) <->
  In t (tags s)
  /\ exists c, In c (content_tags s) /\ ct_content_type c = kind e
               /\ Some (ct_object_id c) = pk e /\ ct_tag c = tag_id t.
Proof.
  unfold get_tags, by_name.
  rewrite stable_sort_In, filter_In, mem_Z_In, in_map_iff.
  split.
  - intros (Ht & c & Hc & Hin). apply filter_In in Hin as (Hin & Hq).
    apply andb_true_iff in Hq as (Hk & Hp).
    apply Kind_eqb_eq in Hk. apply opt_Z_eqb_eq in Hp.
    split; [exact Ht|]. exists c. auto.
  - intros (Ht & c & Hin & Hk & Hp & Hc). split; [exact Ht|].
    exists c. split; [exact Hc|]. apply filter_In. split; [exact Hin|].
    apply andb_true_iff. split; [now apply Kind_eqb_eq|now apply opt_Z_eqb_eq].
Qed.

Lemma tag_get_or_create_returned now n w t s s1 :
  normalize n = n -> PyStr.truthy n = true ->
  Tag_get_or_create now n w s = (Returned t, s1) ->
  filter (tag_lookup n w) (tags s1) = [t]
  /\ (s1 = s \/ s1 = set_tags (tags s ++ [t]) s).
Proof.
  intros Hn Ht. unfold Tag_get_or_create.
  destruct (filter (tag_lookup n w) (tags s)) as [|a [|b l]] eqn:E; simpl.
  - unfold Tag_create, check_blank, check_max_length, check_null.
    assert (Hs : PyStr.strip n = n) by (rewrite <- Hn; apply strip_normalize).
    rewrite Hs, Ht, Hn. simpl.
    destruct (100 <? String.length n); simpl;
      [destruct w; simpl; intros H; inversion H|].
    destruct w as [wid|]; simpl; [|intros H; inversion H].
    rewrite (existsb_filter_nil _ _ E). simpl.
    intros H. inversion H. subst s1. simpl. split; [|now right].
    rewrite filter_app, E. simpl. unfold tag_lookup at 1. simpl.
    now rewrite String.eqb_refl, Z.eqb_refl.
  - intros H. inversion H. subst. split; [exact E|now left].
  - discriminate.
Qed.

Lemma content_tag_get_or_create_returned now k oid tag c s s1 :
  ContentTag_get_or_create now k oid tag s = (Returned c, s1) ->
  filter (content_tag_lookup k oid tag) (content_tags s1) = [c]
  /\ ((s1 = s /\ In c (content_tags s))
      \/ (s1 = set_content_tags (content_tags s ++ [c]) s
          /\ ct_id c = next_id (map ct_id (content_tags s))
          /\ filter (content_tag_lookup k oid tag) (content_tags s) = [])).
Proof.
  unfold ContentTag_get_or_create.
  destruct (filter (content_tag_lookup k oid tag) (content_tags s))
    as [|a [|b l]] eqn:E; simpl.
  - destruct oid as [i|]; [|discriminate].
    intros H. inversion H. subst s1. simpl. split.
    + rewrite filter_app, E. simpl. unfold content_tag_lookup at 1. simpl.
      now rewrite Kind_eqb_refl, !Z.eqb_refl.
    + right. auto.
  - intros H. inversion H. subst. split; [exact E|]. left.
    split; [reflexivity|].
    assert (Hin : In c (filter (content_tag_lookup k oid tag)
                          (content_tags s1))) by (rewrite E; now left).
    now apply filter_In in Hin.
  - discriminate.
Qed.

Lemma add_tag_returned now e name c s s2 :
  add_tag now e name s = (Returned c, s2) ->
  exists t s1,
    Tag_get_or_create now (normalize name) (world e) s = (Returned t, s1)
    /\ ContentTag_get_or_create now (kind e) (pk e) (tag_id t) s1
       = (Returned c, s2).
Proof.
  unfold add_tag.
  destruct (PyStr.truthy (normalize name)); simpl; [|discriminate].
  unfold bind.
  destruct (Tag_get_or_create now (normalize name) (world e) s)
    as [[t|err] s1]; [|discriminate].
  intros H. now exists t, s1.
Qed.

(** The tables after a successful [add_tag]. *)
Lemma add_tag_tables now e name c s s2 :
  add_tag now e name s = (Returned c, s2) ->
  exists t,
    filter (tag_lookup (normalize name) (world e)) (tags s2) = [t]
    /\ filter (content_tag_lookup (kind e) (pk e) (tag_id t))
         (content_tags s2) = [c]
    /\ (tags s2 = tags s \/ tags s2 = tags s ++ [t])
    /\ ((content_tags s2 = content_tags s /\ In c (content_tags s))
        \/ (content_tags s2 = content_tags s ++ [c]
            /\ ct_id c = next_id (map ct_id (content_tags s))
            /\ filter (content_tag_lookup (kind e) (pk e) (tag_id t))
                 (content_tags s) = []))
    /\ contents s2 = contents s.
Proof.
  intros H.
  assert (Htruthy : PyStr.truthy (normalize name) = true).
  { unfold add_tag in H.
    destruct (PyStr.truthy (normalize name)); [reflexivity|discriminate]. }
  destruct (add_tag_returned _ _ _ _ _ _ H) as (t & s1 & H1 & H2).
  destruct (tag_get_or_create_returned _ _ _ _ _ _
              (normalize_idem name) Htruthy H1) as (Ft & Hs1).
  destruct (content_tag_get_or_create_returned _ _ _ _ _ _ _ H2)
    as (Fc & Hs2).
  exists t.
  assert (Htags : tags s2 = tags s1)
    by (destruct Hs2 as [[-> _]|[-> _]]; reflexivity).
  assert (Hcts : content_tags s1 = content_tags s)
    by (destruct Hs1 as [->| ->]; reflexivity).
  assert (Hcont : contents s2 = contents s).
  { destruct Hs2 as [[-> _]|[-> _]]; destruct Hs1 as [->| ->]; reflexivity. }
  rewrite Htags. split; [exact Ft|]. split; [exact Fc|].
  split; [destruct Hs1 as [->| ->]; auto|].
  split; [|exact Hcont].
  rewrite <- Hcts.
  destruct Hs2 as [[-> Hin]|(-> & Hid & E)]; [left; auto|right; auto].
Qed.

Lemma filter_singleton_In {A : Type} (p : A -> bool) (l : list A) x :
  filter p l = [x] -> In x l /\ p x = true.
Proof.
  intros E. apply filter_In. rewrite E. now left.
Qed.

(** After a successful [add_tag] the tag with the normalized name is among
    the entity's tags, every tag the entity carried is still there, and
    the content table is untouched. *)
Theorem add_tag_shows_in_get_tags :
  forall (now : Z) (e : Content) (name : string) (c : ContentTag)
         (s s2 : Store),
    add_tag now e name s = (Returned c, s2) ->
    (exists t, In t (get_tags e s2)
               /\ tag_name t = normalize name
               /\ Some (tag_world t) = world e
               /\ ct_tag c = tag_id t)
    /\ (forall t', In t' (get_tags e s) -> In t' (get_tags e s2))
    /\ contents s2 = contents s.
Proof.
  intros now e name c s s2 H.
  destruct (add_tag_tables _ _ _ _ _ _ H) as (t & Ft & Fc & Ht & Hc & Hcont).
  destruct (filter_singleton_In _ _ _ Ft) as (Hin & Hq).
  destruct (filter_singleton_In _ _ _ Fc) as (Hcin & Hcq).
  apply andb_true_iff in Hq as (Hn & Hw).
  apply String.eqb_eq in Hn. apply opt_Z_eqb_eq in Hw.
  apply andb_true_iff in Hcq as (Hcq & Htag).
  apply andb_true_iff in Hcq as (Hk & Hp).
  apply Kind_eqb_eq in Hk. apply opt_Z_eqb_eq in Hp. apply Z.eqb_eq in Htag.
  split; [|split; [|exact Hcont]].
  - exists t. split; [|auto]. apply get_tags_In. split; [exact Hin|].
    exists c. auto.
  - intros t' Ht'. apply get_tags_In in Ht' as (Hin' & c' & Hc' & Hrest).
    apply get_tags_In. split.
    + destruct Ht as [-> | ->]; [exact Hin'|apply in_or_app; now left].
    + exists c'. split; [|exact Hrest].
      destruct Hc as [[-> _]|[-> _]]; [exact Hc'|apply in_or_app; now left].
Qed.

Lemma add_tag_shows_in_get_tags_witness :
  exists t,
    In t (get_tags Sample.page1
            (snd (add_tag 50 Sample.page1 " Fantasy " Sample.store1)))
    /\ tag_name t = "fantasy".
Proof.
  destruct (add_tag_shows_in_get_tags 50 Sample.page1 " Fantasy " _
              Sample.store1 _ eq_refl) as ((t & Hin & Hn & _) & _).
  exists t. split; [exact Hin|exact Hn].
Defined.

(** A visible stored entity that [add_tag] has tagged is listed by
    [get_content_by_tag] for its kind and world, under every spelling of
    the name with the same normalized form. *)
Theorem tagged_entity_is_found :
  forall (now : Z) (e : Content) (name name' : string) (c : ContentTag)
         (w : Z) (s s2 : Store),
    add_tag now e name s = (Returned c, s2) ->
    In e (contents s) -> is_deleted e = false -> world e = Some w ->
    normalize name' = normalize name ->
    In e (get_content_by_tag (kind e) w name' s2).
Proof.
  intros now e name name' c w s s2 H Hin Hd Hw Hn.
  destruct (add_tag_tables _ _ _ _ _ _ H) as (t & Ft & Fc & _ & _ & Hcont).
  destruct (filter_singleton_In _ _ _ Fc) as (Hcin & Hcq).
  apply andb_true_iff in Hcq as (Hcq & Htag).
  apply andb_true_iff in Hcq as (Hk & Hp).
  apply opt_Z_eqb_eq in Hp.
  rewrite Hw in Ft. unfold get_content_by_tag. rewrite Hn, Ft. simpl.
  apply content_with_ids_In. split; [|split; [exact Hw|]].
  - apply objects_In. rewrite Hcont. auto.
  - exists (ct_object_id c). split; [now symmetry|].
    unfold tag_content_ids. apply in_map. apply filter_In.
    split; [exact Hcin|]. now rewrite Htag, Hk.
Qed.

Lemma tagged_entity_is_found_witness :
  In Sample.page1
    (get_content_by_tag Page 1 "FANTASY"
       (snd (add_tag 50 Sample.page1 " Fantasy " Sample.store1))).
Proof.
  exact (tagged_entity_is_found 50 Sample.page1 " Fantasy " "FANTASY" _ 1
           Sample.store1 _ eq_refl (or_introl eq_refl) eq_refl eq_refl
           eq_refl).
Defined.

Lemma filter_fresh_id (l : list ContentTag) (c : ContentTag) :
  ct_id c = next_id (map ct_id l) ->
  filter (fun r => negb (ct_id r =? ct_id c)%Z) (l ++ [c]) = l.
Proof.
  intros Hid. rewrite filter_app. simpl. rewrite Z.eqb_refl. simpl.
  rewrite app_nil_r. apply forallb_filter_id. apply forallb_forall.
  intros r Hr. apply negb_true_iff, Z.eqb_neq.
  assert (ct_id r < next_id (map ct_id l))%Z
    by (apply next_id_bound; now apply in_map).
  lia.
Qed.

(** When [add_tag] has stored a new association, [remove_tag] under any
    spelling of the name returns [True] and leaves the association table
    as it was before the [add_tag]; the tag row itself stays, and a second
    [remove_tag] returns [False] without writing. *)
Theorem add_tag_remove_tag_round_trip :
  forall (now : Z) (e : Content) (name name' : string) (c : ContentTag)
         (s s1 : Store),
    add_tag now e name s = (Returned c, s1) ->
    ~ In c (content_tags s) ->
    normalize name' = normalize name ->
    exists s2,
      remove_tag e name' s1 = (Returned true, s2)
      /\ content_tags s2 = content_tags s
      /\ tags s2 = tags s1
      /\ contents s2 = contents s
      /\ remove_tag e name' s2 = (Returned false, s2).
Proof.
  intros now e name name' c s s1 H Hnew Hn.
  destruct (add_tag_tables _ _ _ _ _ _ H) as (t & Ft & Fc & _ & Hc & Hcont).
  destruct Hc as [[_ Hin]|(Hcts & Hid & E)]; [contradiction|].
  unfold remove_tag at 1. rewrite Hn, Ft. simpl. rewrite Fc. simpl.
  eexists. split; [reflexivity|]. simpl.
  rewrite Hcts, (filter_fresh_id _ _ Hid).
  split; [reflexivity|]. split; [reflexivity|]. split; [exact Hcont|].
  unfold remove_tag. simpl. rewrite Hn, Ft. simpl.
  now rewrite E.
Qed.

Lemma add_tag_remove_tag_round_trip_witness :
  exists s2,
    remove_tag Sample.page1 "FANTASY"
      (snd (add_tag 50 Sample.page1 " Fantasy " Sample.store1))
    = (Returned true, s2)
    /\ content_tags s2 = [].
Proof.
  destruct (add_tag_remove_tag_round_trip 50 Sample.page1 " Fantasy "
              "FANTASY" _ Sample.store1 _ eq_refl (fun H => H) eq_refl)
    as (s2 & H1 & H2 & _).
  exists s2. split; [exact H1|exact H2].
Defined.

Lemma content_tag_key_fields c k i tag :
  content_tag_key c = (k, i, tag) <->
  ct_content_type c = k /\ ct_object_id c = i /\ ct_tag c = tag.
Proof.
  unfold content_tag_key. split.
  - intros H. inversion H. auto.
  - intros (-> & -> & ->). reflexivity.
Qed.

(** On tables that satisfy their primary keys and [unique_together]
    constraints, [remove_tag] of a stored entity never raises; it returns
    [True] exactly when the entity carried the tag of its world with the
    normalized name; afterwards the entity's tags are the ones it had
    apart from that tag, the tags of every other entity are the same,
    and no tag row is deleted. *)
Theorem remove_tag_detaches :
  forall (e : Content) (name : string) (i w : Z) (s : Store),
    tagging_invariant s ->
    NoDup (map tag_id (tags s)) ->
    NoDup (map ct_id (content_tags s)) ->
    pk e = Some i -> world e = Some w ->
    exists b s',
      remove_tag e name s = (Returned b, s')
      /\ tags s' = tags s /\ contents s' = contents s
      /\ (b = true <->
          exists t, In t (get_tags e s)
                    /\ tag_key t = (normalize name, w))
      /\ (forall t, In t (get_tags e s') <->
                    In t (get_tags e s)
                    /\ tag_key t <> (normalize name, w))
      /\ (forall e2 t,
             (kind e2, pk e2) <> (kind e, pk e) ->
             (In t (get_tags e2 s') <-> In t (get_tags e2 s))).
Proof.
  intros e name i w s [Htk Hck] Htid Hcid Hi Hw.
  set (n := normalize name).
  unfold remove_tag. fold n. rewrite Hi, Hw.
  destruct (filter_nil_or_row tag_key (tag_lookup n (Some w)) (n, w) (tags s)
              Htk (tag_lookup_key n w))
    as [[E Hni]|(t0 & E & Ht0 & Hk0)]; rewrite E; simpl.
  { exists false, s. split; [reflexivity|]. do 2 (split; [reflexivity|]).
    assert (Hno : forall t, In t (get_tags e s) -> tag_key t <> (n, w)).
    { intros t Ht Hk. apply get_tags_In in Ht as (Ht & _).
      apply Hni. rewrite <- Hk. now apply in_map. }
    split; [|split].
    - split; [discriminate|]. intros (t & Ht & Hk). now destruct (Hno t Ht).
    - intros t. split; [intros Ht; split; auto|tauto].
    - tauto. }
  destruct (filter_nil_or_row content_tag_key
              (content_tag_lookup (kind e) (Some i) (tag_id t0))
              (kind e, i, tag_id t0) (content_tags s) Hck
              (content_tag_lookup_key (kind e) i (tag_id t0)))
    as [[Ec Hnc]|(c0 & Ec & Hc0 & Hkc0)]; rewrite Ec; simpl.
  { exists false, s. split; [reflexivity|]. do 2 (split; [reflexivity|]).
    assert (Hno : forall t, In t (get_tags e s) -> tag_key t <> (n, w)).
    { intros t Ht Hk. apply get_tags_In in Ht as (Ht & c & Hc & Hck' & Hp & Htag).
      assert (t = t0)
        by (apply (NoDup_map_injective tag_key (tags s)); congruence).
      subst t0. apply Hnc. rewrite Hi in Hp. inversion Hp.
      replace (kind e, ct_object_id c, tag_id t) with (content_tag_key c)
        by (apply content_tag_key_fields; auto).
      now apply in_map. }
    split; [|split].
    - split; [discriminate|]. intros (t & Ht & Hk). now destruct (Hno t Ht).
    - intros t. split; [intros Ht; split; auto|tauto].
    - tauto. }
  apply content_tag_key_fields in Hkc0 as (Hc0k & Hc0i & Hc0t).
  eexists. eexists. split; [reflexivity|]. simpl.
  do 2 (split; [reflexivity|]).
  assert (Hmem : forall x t,
             In t (get_tags x
                     (set_content_tags
                        (filter (fun r => negb (ct_id r =? ct_id c0)%Z)
                           (content_tags s)) s)) <->
             In t (tags s)
             /\ exists c, In c (content_tags s) /\ c <> c0
                          /\ ct_content_type c = kind x
                          /\ Some (ct_object_id c) = pk x
                          /\ ct_tag c = tag_id t).
  { intros x t. rewrite get_tags_In. simpl. split.
    - intros (Ht & c & Hc & Hrest). apply filter_In in Hc as (Hc & Hne).
      split; [exact Ht|]. exists c. split; [exact Hc|]. split; [|exact Hrest].
      intros ->. now rewrite Z.eqb_refl in Hne.
    - intros (Ht & c & Hc & Hne & Hrest). split; [exact Ht|].
      exists c. split; [|exact Hrest]. apply filter_In. split; [exact Hc|].
      apply negb_true_iff, Z.eqb_neq. intros Hid. apply Hne.
      now apply (NoDup_map_injective ct_id (content_tags s)). }
  assert (Hcarried : In t0 (get_tags e s)).
  { apply get_tags_In. split; [exact Ht0|]. exists c0.
    rewrite Hi, Hc0i. auto. }
  split; [|split].
  - split; [|reflexivity]. intros _. exists t0. auto.
  - intros t. rewrite Hmem, get_tags_In. split.
    + intros (Ht & c & Hc & Hne & Hk & Hp & Htag). split.
      * split; [exact Ht|]. exists c. auto.
      * intros Hkey.
        assert (t = t0)
          by (apply (NoDup_map_injective tag_key (tags s)); congruence).
        subst t0. apply Hne.
        apply (NoDup_map_injective content_tag_key (content_tags s));
          auto.
        rewrite Hi in Hp. inversion Hp.
        unfold content_tag_key. congruence.
    + intros ((Ht & c & Hc & Hk & Hp & Htag) & Hkey).
      split; [exact Ht|]. exists c. split; [exact Hc|].
      split; [|auto]. intros ->. apply Hkey.
      assert (t = t0)
        by (apply (NoDup_map_injective tag_id (tags s)); congruence).
      now subst t.
  - intros e2 t Hother. rewrite Hmem, get_tags_In. split.
    + intros (Ht & c & Hc & _ & Hrest). split; [exact Ht|]. now exists c.
    + intros (Ht & c & Hc & Hk & Hp & Htag). split; [exact Ht|].
      exists c. split; [exact Hc|]. split; [|auto].
      intros ->. apply Hother. congruence.
Qed.

Lemma remove_tag_detaches_witness :
  exists b s',
    remove_tag Sample.page1 " A " SampleTags.tagged = (Returned b, s')
    /\ (b = true <->
        exists t, In t (get_tags Sample.page1 SampleTags.tagged)
                  /\ tag_key t = (normalize " A ", 1%Z))
    /\ tags s' = tags SampleTags.tagged.
Proof.
  assert (Hinv : tagging_invariant SampleTags.tagged)
    by (split; simpl; repeat constructor; simpl; tauto).
  assert (Htid : NoDup (map tag_id (tags SampleTags.tagged)))
    by (simpl; repeat constructor; simpl; tauto).
  assert (Hcid : NoDup (map ct_id (content_tags SampleTags.tagged)))
    by (simpl; repeat constructor; simpl; tauto).
  destruct (remove_tag_detaches Sample.page1 " A " 1 1 SampleTags.tagged
              Hinv Htid Hcid eq_refl eq_refl)
    as (b & s' & Hrun & Htags & _ & Hb & _).
  exists b, s'. auto.
Defined.

(** ** Adding several tags *)

Lemma add_tag_strip now e name s :
  add_tag now e (PyStr.strip name) s = add_tag now e name s.
Proof.
  unfold add_tag, normalize. now rewrite strip_idem.
Qed.

Lemma add_tag_each_strip now e names s :
  add_tag_each now e (map PyStr.strip names) s = add_tag_each now e names s.
Proof.
  revert s. induction names as [|n r IH]; intros s; [reflexivity|].
  simpl. rewrite strip_idem.
  destruct (PyStr.truthy (PyStr.strip n)); [|apply IH].
  unfold bind. rewrite add_tag_strip.
  destruct (add_tag now e n s) as [[c|err] s1]; [|reflexivity].
  now rewrite IH.
Qed.

Lemma add_tag_grows now e name c s s2 :
  add_tag now e name s = (Returned c, s2) ->
  (forall t, In t (tags s) -> In t (tags s2))
  /\ (forall x, In x (content_tags s) -> In x (content_tags s2))
  /\ contents s2 = contents s.
Proof.
  intros H.
  destruct (add_tag_tables _ _ _ _ _ _ H) as (t & _ & _ & Ht & Hc & Hcont).
  split; [|split; [|exact Hcont]].
  - intros x Hx. destruct Ht as [-> | ->]; [exact Hx|].
    apply in_or_app. now left.
  - intros x Hx. destruct Hc as [[-> _]|[-> _]]; [exact Hx|].
    apply in_or_app. now left.
Qed.

Lemma add_tag_attaches now e name c s s2 :
  add_tag now e name s = (Returned c, s2) ->
  In c (content_tags s2)
  /\ ct_content_type c = kind e /\ Some (ct_object_id c) = pk e
  /\ exists t, In t (tags s2) /\ tag_name t = normalize name
               /\ ct_tag c = tag_id t.
Proof.
  intros H.
  destruct (add_tag_tables _ _ _ _ _ _ H) as (t & Ft & Fc & _).
  destruct (filter_singleton_In _ _ _ Ft) as (Hin & Hq).
  destruct (filter_singleton_In _ _ _ Fc) as (Hcin & Hcq).
  apply andb_true_iff in Hq as (Hn & _). apply String.eqb_eq in Hn.
  apply andb_true_iff in Hcq as (Hcq & Htag).
  apply andb_true_iff in Hcq as (Hk & Hp).
  apply Kind_eqb_eq in Hk. apply opt_Z_eqb_eq in Hp. apply Z.eqb_eq in Htag.
  repeat split; auto. exists t. auto.
Qed.

(** [add_tags] treats a comma-separated string exactly as the list of its
    comma-separated parts; and when it returns, it returns one association
    of the entity per non-blank name, in order, each stored, with every
    non-blank name's normalized form among the entity's tags. *)
Theorem add_tags_one_association_per_name :
  forall (now : Z) (e : Content) (s : Store),
    (forall str,
        add_tags now e (CommaSeparated str) s
        = add_tags now e (NameList (PyStr.split_on "," str)) s)
    /\ (forall names cs s',
           add_tags now e (NameList names) s = (Returned cs, s') ->
           List.length cs
           = List.length
               (filter (fun n => PyStr.truthy (PyStr.strip n)) names)
           /\ Forall (fun c => In c (content_tags s')
                              /\ ct_content_type c = kind e
                              /\ Some (ct_object_id c) = pk e) cs
           /\ (forall n, In n names -> PyStr.strip n <> EmptyString ->
                 exists t, In t (get_tags e s')
                           /\ tag_name t = normalize n)
           /\ contents s' = contents s).
Proof.
  intros now e s. split.
  - intros str. unfold add_tags. apply add_tag_each_strip.
  - unfold add_tags. intros names. revert s.
    induction names as [|n r IH]; intros s cs s' H.
    + inversion H. subst. simpl. repeat split; auto. intros n [].
    + simpl in H. destruct (PyStr.truthy (PyStr.strip n)) eqn:En.
      * unfold bind in H.
        destruct (add_tag now e n s) as [[c|err] s1] eqn:E1; [|discriminate].
        destruct (add_tag_each now e r s1) as [[cs1|err] s2] eqn:E2;
          [|discriminate].
        inversion H. subst cs s'. clear H.
        destruct (IH s1 cs1 s2 E2) as (Hlen & Hall & Hnames & Hcont).
        destruct (add_tag_grows _ _ _ _ _ _ E1) as (_ & _ & Hcont1).
        destruct (add_tag_attaches _ _ _ _ _ _ E1)
          as (Hc & Hk & Hp & t & Ht & Hn & Htag).
        assert (Hmono : forall x, In x (content_tags s1) ->
                                  In x (content_tags s2)
                        /\ forall y, In y (tags s1) -> In y (tags s2)).
        { clear - E2. revert s1 cs1 s2 E2.
          induction r as [|m r IH]; intros s1 cs1 s2 E2 x Hx.
          - inversion E2. subst. auto.
          - simpl in E2. destruct (PyStr.truthy (PyStr.strip m)).
            + unfold bind in E2.
              destruct (add_tag now e m s1) as [[c|err] sa] eqn:Ea;
                [|discriminate].
              destruct (add_tag_each now e r sa) as [[csa|err] sb] eqn:Eb;
                [|discriminate].
              inversion E2. subst.
              destruct (add_tag_grows _ _ _ _ _ _ Ea) as (Gt & Gc & _).
              destruct (IH sa csa s2 Eb x (Gc x Hx)) as (H1 & H2).
              split; [exact H1|]. intros y Hy. apply H2. now apply Gt.
            + now apply (IH s1 cs1 s2 E2). }
        simpl. rewrite En. simpl. split; [now f_equal|].
        split; [constructor; [|exact Hall]|split].
        -- split; [now apply Hmono|auto].
        -- intros m [<-|Hm] Hne; [|now apply Hnames].
           exists t. split; [|exact Hn]. apply get_tags_In.
           split; [now apply (Hmono c Hc)|].
           exists c. split; [now apply Hmono|auto].
        -- congruence.
      * destruct (IH s cs s' H) as (Hlen & Hall & Hnames & Hcont).
        simpl. rewrite En. split; [exact Hlen|].
        split; [exact Hall|split; [|exact Hcont]].
        intros m [<-|Hm] Hne; [|now apply Hnames].
        apply truthy_iff in Hne. congruence.
Qed.

Lemma add_tags_one_association_per_name_witness :
  exists cs s',
    add_tags 50 Sample.page1 (CommaSeparated "Magic, ,Lore") Sample.store1
    = (Returned cs, s')
    /\ List.length cs = 2.
Proof.
  destruct (add_tags 50 Sample.page1 (NameList ["Magic"; " "; "Lore"])
              Sample.store1) as [[cs|err] s'] eqn:E;
    [|vm_compute in E; discriminate].
  exists cs, s'.
  destruct (add_tags_one_association_per_name 50 Sample.page1 Sample.store1)
    as (Hforms & Hlist).
  split.
  - rewrite Hforms. exact E.
  - exact (proj1 (Hlist _ cs s' E)).
Defined.

(** ** Usage of tags *)

Lemma insert_after_descending {A : Type} (key : A -> nat) x l :
  StronglySorted (fun a b => key b <= key a) l ->
  StronglySorted (fun a b => key b <= key a)
    (insert_after (fun a b => key a <? key b) x l).
Proof.
  induction 1 as [|y r Hs IH Hall]; simpl.
  - constructor; constructor.
  - destruct (key x <? key y) eqn:E.
    + constructor; [exact IH|].
      apply Nat.ltb_lt in E.
      apply (Permutation_Forall
               (Permutation_sym (insert_after_perm _ x r))).
      constructor; [lia|exact Hall].
    + apply Nat.ltb_ge in E. constructor.
      * now constructor.
      * constructor; [exact E|].
        eapply Forall_impl; [|exact Hall].
        intros a Ha. simpl in *. lia.
Qed.

Lemma stable_sort_descending {A : Type} (key : A -> nat) l :
  StronglySorted (fun a b => key b <= key a)
    (stable_sort (fun a b => key a <? key b) l).
Proof.
  unfold stable_sort.
  induction l as [|x r IH]; simpl; [constructor|].
  now apply insert_after_descending.
Qed.

Lemma StronglySorted_app_cross {A : Type} (R : A -> A -> Prop) l1 l2 a b :
  StronglySorted R (l1 ++ l2) -> In a l1 -> In b l2 -> R a b.
Proof.
  induction l1 as [|x r IH]; intros Hs Ha Hb; [destruct Ha|].
  simpl in Hs. inversion Hs as [|? ? Hs' Hall]; subst.
  destruct Ha as [->|Ha].
  - rewrite Forall_forall in Hall. apply Hall, in_or_app. now right.
  - now apply IH.
Qed.

Lemma StronglySorted_prefix {A : Type} (R : A -> A -> Prop) l1 l2 :
  StronglySorted R (l1 ++ l2) -> StronglySorted R l1.
Proof.
  induction l1 as [|x r IH]; intros Hs; [constructor|].
  simpl in Hs. inversion Hs as [|? ? Hs' Hall]; subst.
  constructor; [now apply IH|].
  apply Forall_app in Hall. tauto.
Qed.

Lemma StronglySorted_map {A B : Type} (f : A -> B) (R : B -> B -> Prop) l :
  StronglySorted (fun a b => R (f a) (f b)) l ->
  StronglySorted R (map f l).
Proof.
  induction 1 as [|x r Hs IH Hall]; simpl; constructor; [exact IH|].
  apply Forall_map. exact Hall.
Qed.

(** [get_popular_tags] lists at most [limit] tags, all of the world, each
    with its number of associations, in non-increasing order of that
    number; no tag of the world that is left out is used more often than
    a listed one; and with a limit that covers the world's tags, all of
    them are listed. *)
Theorem popular_tags_are_most_used :
  forall (w : Z) (limit : nat) (s : Store),
    let listed := get_popular_tags w limit s in
    List.length listed <= limit
    /\ (forall t n, In (t, n) listed ->
          In t (tags s) /\ tag_world t = w /\ n = get_usage_count t s)
    /\ StronglySorted usage_non_increasing listed
    /\ (forall t n t',
          In (t, n) listed ->
          In t' (tags s) -> tag_world t' = w ->
          ~ In t' (map fst listed) ->
          get_usage_count t' s <= n)
    /\ (List.length (filter (fun t => Z.eqb (tag_world t) w) (tags s))
        <= limit ->
        Permutation (map fst listed)
          (filter (fun t => Z.eqb (tag_world t) w) (tags s))).
Proof.
  intros w limit s listed. unfold listed, get_popular_tags.
  set (world_tags := filter (fun t => Z.eqb (tag_world t) w) (tags s)).
  set (sorted :=
         stable_sort
           (fun x y => get_usage_count x s <? get_usage_count y s)
           world_tags).
  assert (Hsorted : StronglySorted
                      (fun a b => get_usage_count b s <= get_usage_count a s)
                      sorted)
    by apply (stable_sort_descending (fun t => get_usage_count t s)).
  assert (Hsplit : sorted = firstn limit sorted ++ skipn limit sorted)
    by (symmetry; apply firstn_skipn).
  assert (Hfst : map fst (map (fun t => (t, get_usage_count t s))
                            (firstn limit sorted))
                 = firstn limit sorted).
  { rewrite map_map. simpl. apply map_id. }
  assert (Hin : forall t, In t sorted <-> In t (tags s) /\ tag_world t = w).
  { intros t. unfold sorted. rewrite stable_sort_In. unfold world_tags.
    rewrite filter_In, Z.eqb_eq. tauto. }
  split; [|split; [|split; [|split]]].
  - rewrite length_map. apply firstn_le_length.
  - intros t n H. apply in_map_iff in H as (t0 & E & H0).
    inversion E. subst t0. clear E.
    assert (In t sorted) by (rewrite Hsplit; apply in_or_app; now left).
    apply Hin in H. tauto.
  - apply StronglySorted_map. unfold usage_non_increasing. simpl.
    apply (StronglySorted_prefix _ _ (skipn limit sorted)).
    now rewrite <- Hsplit.
  - intros t n t' H Ht' Hw' Hout. rewrite Hfst in Hout.
    apply in_map_iff in H as (t0 & E & H0).
    inversion E. subst t0. clear E.
    assert (Hs' : In t' sorted) by (apply Hin; auto).
    rewrite Hsplit in Hs'. apply in_app_or in Hs' as [Hs'|Hs'];
      [contradiction|].
    rewrite Hsplit in Hsorted.
    exact (StronglySorted_app_cross _ _ _ _ _ Hsorted H0 Hs').
  - intros Hlen. rewrite Hfst.
    assert (Hl : List.length sorted = List.length world_tags)
      by (apply Permutation_length, stable_sort_perm).
    rewrite firstn_all2 by lia.
    apply stable_sort_perm.
Qed.

(** [get_tagged_content] lists stored rows only, each for an association
    of the tag, and never more entries than [get_usage_count] reports:
    associations whose object does not resolve are skipped. *)
Theorem tagged_content_within_usage_count :
  forall (t : Tag) (s : Store),
    List.length (get_tagged_content t s) <= get_usage_count t s
    /\ (forall x, In x (get_tagged_content t s) ->
          In x (contents s)
          /\ exists c i, In c (content_tags s) /\ ct_tag c = tag_id t
                         /\ kind x = ct_content_type c
                         /\ pk x = Some i /\ ct_object_id c = i)
    /\ ((forall c, In c (content_tags s) -> ct_tag c = tag_id t ->
           resolve (ct_content_type c) (ct_object_id c) s <> None) ->
        List.length (get_tagged_content t s) = get_usage_count t s).
Proof.
  intros t s. unfold get_tagged_content, get_usage_count.
  set (rows := filter (fun c => (ct_tag c =? tag_id t)%Z) (content_tags s)).
  assert (Hrows : forall c, In c rows ->
                            In c (content_tags s) /\ ct_tag c = tag_id t).
  { intros c Hc. apply filter_In in Hc as (Hc & E).
    apply Z.eqb_eq in E. auto. }
  split; [|split].
  - clear Hrows. induction rows as [|c r IH]; simpl; [lia|].
    rewrite length_app.
    destruct (resolve (ct_content_type c) (ct_object_id c) s); simpl; lia.
  - intros x Hx. apply in_flat_map in Hx as (c & Hc & Hx).
    destruct (Hrows c Hc) as (Hin & Htag).
    unfold resolve in Hx.
    destruct (filter (fun r => opt_Z_eqb (pk r) (Some (ct_object_id c)))
                (all_objects (ct_content_type c) s))
      as [|a [|b l]] eqn:E; simpl in Hx; try contradiction.
    destruct Hx as [->|[]].
    destruct (filter_singleton_In _ _ _ E) as (Ha & Hp).
    apply opt_Z_eqb_eq in Hp.
    unfold all_objects in Ha. apply filter_In in Ha as (Ha & Hk).
    apply Kind_eqb_eq in Hk.
    split; [exact Ha|]. exists c, (ct_object_id c). auto.
  - intros Hres.
    assert (Hall : forall c, In c rows ->
              resolve (ct_content_type c) (ct_object_id c) s <> None).
    { intros c Hc. destruct (Hrows c Hc). auto. }
    clear Hrows Hres. induction rows as [|c r IH]; simpl; [reflexivity|].
    rewrite length_app, IH by (intros; apply Hall; now right).
    destruct (resolve (ct_content_type c) (ct_object_id c) s) eqn:E;
      [reflexivity|].
    exfalso. apply (Hall c); [now left|exact E].
Qed.

Lemma tagged_content_within_usage_count_witness :
  In Sample.page1 (contents SampleTags.tagged)
  /\ List.length (get_tagged_content SampleTags.tag_a SampleTags.tagged)
     = get_usage_count SampleTags.tag_a SampleTags.tagged.
Proof.
  destruct (tagged_content_within_usage_count SampleTags.tag_a
              SampleTags.tagged) as (_ & Hrows & Hall).
  split.
  - exact (proj1 (Hrows Sample.page1 (or_introl eq_refl))).
  - apply Hall. intros c [<-|[]] _. discriminate.
Defined.

(** ** Reading the link table *)

Lemma get_linked_content_In self s x :
  In x (get_linked_content self s) <->
  exists l, In l (content_links s)
            /\ from_content_type l = kind self
            /\ Some (from_object_id l) = pk self
            /\ resolve (to_content_type l) (to_object_id l) s = Some x.
Proof.
  unfold get_linked_content, outgoing_links. rewrite in_flat_map. split.
  - intros (l & Hl & Hx). apply filter_In in Hl as (Hl & Hq).
    apply andb_true_iff in Hq as (Hk & Hp).
    apply Kind_eqb_eq in Hk. apply opt_Z_eqb_eq in Hp.
    exists l. repeat split; auto.
    destruct (resolve (to_content_type l) (to_object_id l) s) as [c|];
      [destruct Hx as [->|[]]; reflexivity|destruct Hx].
  - intros (l & Hl & Hk & Hp & Hr). exists l. split.
    + apply filter_In. split; [exact Hl|].
      apply andb_true_iff. split;
        [now apply Kind_eqb_eq|now apply opt_Z_eqb_eq].
    + rewrite Hr. now left.
Qed.

Lemma get_content_linking_to_this_In self s x :
  In x (get_content_linking_to_this self s) <->
  exists l, In l (content_links s)
            /\ to_content_type l = kind self
            /\ Some (to_object_id l) = pk self
            /\ resolve (from_content_type l) (from_object_id l) s = Some x.
Proof.
  unfold get_content_linking_to_this, incoming_links. rewrite in_flat_map.
  split.
  - intros (l & Hl & Hx). apply filter_In in Hl as (Hl & Hq).
    apply andb_true_iff in Hq as (Hk & Hp).
    apply Kind_eqb_eq in Hk. apply opt_Z_eqb_eq in Hp.
    exists l. repeat split; auto.
    destruct (resolve (from_content_type l) (from_object_id l) s) as [c|];
      [destruct Hx as [->|[]]; reflexivity|destruct Hx].
  - intros (l & Hl & Hk & Hp & Hr). exists l. split.
    + apply filter_In. split; [exact Hl|].
      apply andb_true_iff. split;
        [now apply Kind_eqb_eq|now apply opt_Z_eqb_eq].
    + rewrite Hr. now left.
Qed.

Lemma has_link_row fk i tk j s :
  has_link fk i tk j s = true <->
  exists l, In l (content_links s) /\ link_key l = (fk, i, tk, j).
Proof.
  rewrite has_link_edges, in_map_iff. split.
  - intros (l & Hk & Hl). now exists l.
  - intros (l & Hl & Hk). now exists l.
Qed.

(** On a table where every directed row has its opposite row, the
    entities an entity links to and the entities linking to it are the
    same. *)
Theorem links_agree_on_paired_table :
  forall (self : Content) (s : Store),
    symmetric s ->
    forall x,
      In x (get_linked_content self s)
      <-> In x (get_content_linking_to_this self s).
Proof.
  intros self s Hsym x.
  rewrite get_linked_content_In, get_content_linking_to_this_In.
  split.
  - intros (l & Hl & Hk & Hp & Hr).
    assert (H : has_link (to_content_type l) (to_object_id l)
                  (from_content_type l) (from_object_id l) s = true).
    { apply Hsym. apply has_link_row. now exists l. }
    apply has_link_row in H as (l' & Hl' & Hk').
    inversion Hk' as [[E1 E2 E3 E4]].
    exists l'. rewrite E1, E2, E3, E4. auto.
  - intros (l & Hl & Hk & Hp & Hr).
    assert (H : has_link (to_content_type l) (to_object_id l)
                  (from_content_type l) (from_object_id l) s = true).
    { apply Hsym. apply has_link_row. now exists l. }
    apply has_link_row in H as (l' & Hl' & Hk').
    inversion Hk' as [[E1 E2 E3 E4]].
    exists l'. rewrite E1, E2, E3, E4. auto.
Qed.

Lemma links_agree_on_paired_table_witness :
  In SampleLinks.page2
    (get_content_linking_to_this SampleLinks.page1
       (snd (link_to 130 SampleLinks.page1 SampleLinks.page2
               SampleLinks.unlinked))).
Proof.
  apply (links_agree_on_paired_table SampleLinks.page1
           (snd (link_to 130 SampleLinks.page1 SampleLinks.page2
                   SampleLinks.unlinked))).
  - apply links_paired, link_to_preserves_invariant,
      empty_link_table_invariant. reflexivity.
  - simpl. now left.
Defined.

(** ** Linking and unlinking *)

Lemma filter_other_ids (rows : list ContentLink) (i : Z) :
  (forall x, In x rows -> link_id x <> i) ->
  filter (fun r => negb (link_id r =? i)%Z) rows = rows.
Proof.
  intros Hi. apply forallb_filter_id. apply forallb_forall.
  intros r Hr. apply negb_true_iff, Z.eqb_neq. now apply Hi.
Qed.

Lemma set_content_links_same s : set_content_links (content_links s) s = s.
Proof. now destruct s. Qed.

Lemma set_content_links_twice a b s :
  set_content_links a (set_content_links b s) = set_content_links a s.
Proof. reflexivity. Qed.

Lemma link_get_or_create_fresh now fk i tk j s :
  (fk, i) <> (tk, j) ->
  has_link fk i tk j s = false ->
  ContentLink_get_or_create now fk (Some i) tk (Some j) s
  = (Returned (new_link now fk i tk j s),
     set_content_links (content_links s ++ [new_link now fk i tk j s]) s).
Proof.
  intros Hne Hl. unfold ContentLink_get_or_create.
  rewrite (filter_nil_of_existsb _ _ Hl). simpl.
  unfold ContentLink_create, ContentLink_clean. unfold has_link in Hl.
  rewrite Hl. simpl.
  destruct (Kind_eqb fk tk) eqn:Ek; [|reflexivity].
  destruct (i =? j)%Z eqn:Eij; [|reflexivity].
  apply Kind_eqb_eq in Ek. apply Z.eqb_eq in Eij. exfalso. apply Hne.
  congruence.
Qed.

Lemma link_get_found fk fid tk tid l s :
  filter (link_lookup fk fid tk tid) (content_links s) = [l] ->
  ContentLink_get fk fid tk tid s = (Returned (Some l), s).
Proof. intros E. unfold ContentLink_get. now rewrite E. Qed.

Lemma unlink_from_both fl rl self target s :
  filter (link_lookup (kind self) (pk self) (kind target) (pk target))
    (content_links s) = [fl] ->
  filter (link_lookup (kind target) (pk target) (kind self) (pk self))
    (filter (fun x => negb (link_id x =? link_id fl)%Z) (content_links s))
  = [rl] ->
  unlink_from self target s
  = (Returned true,
     set_content_links
       (filter (fun x => negb (link_id x =? link_id rl)%Z)
          (filter (fun x => negb (link_id x =? link_id fl)%Z)
             (content_links s))) s).
Proof.
  intros Ef Er. unfold unlink_from, bind.
  rewrite (link_get_found _ _ _ _ fl s Ef).
  unfold ContentLink_delete at 1.
  rewrite (link_get_found _ _ _ _ rl
             (set_content_links
                (filter (fun x => negb (link_id x =? link_id fl)%Z)
                   (content_links s)) s) Er).
  reflexivity.
Qed.

(** Linking two distinct stored entities of one world that are not yet
    linked stores the two directed rows, and [unlink_from], called on
    either of the two, then returns [True] and leaves the store exactly
    as it was before the link. *)
Theorem link_then_unlink_restores :
  forall (now : Z) (self target : Content) (i j : Z) (s : Store),
    pk self = Some i -> pk target = Some j ->
    world target = world self ->
    (kind self, i) <> (kind target, j) ->
    has_link (kind self) i (kind target) j s = false ->
    has_link (kind target) j (kind self) i s = false ->
    exists f r s1,
      link_to now self target s = (Returned f, s1)
      /\ content_links s1 = content_links s ++ [f; r]
      /\ link_key f = (kind self, i, kind target, j)
      /\ link_key r = (kind target, j, kind self, i)
      /\ unlink_from self target s1 = (Returned true, s)
      /\ unlink_from target self s1 = (Returned true, s).
Proof.
  intros now self target i j s Hi Hj Hw Hne Hf Hr.
  assert (Hne' : (kind target, j) <> (kind self, i)) by congruence.
  pose proof (new_link_key now (kind self) i (kind target) j s) as Kf.
  pose proof (eq_refl : link_id (new_link now (kind self) i (kind target) j s)
                        = next_id (map link_id (content_links s))) as Hidf.
  remember (new_link now (kind self) i (kind target) j s) as f eqn:Ef.
  pose proof (new_link_key now (kind target) j (kind self) i
                (set_content_links (content_links s ++ [f]) s)) as Kr.
  pose proof (eq_refl :
                link_id (new_link now (kind target) j (kind self) i
                           (set_content_links (content_links s ++ [f]) s))
                = next_id (map link_id (content_links s ++ [f]))) as Hidr.
  remember (new_link now (kind target) j (kind self) i
              (set_content_links (content_links s ++ [f]) s)) as r eqn:Er.
  set (L := content_links s) in *.
  assert (Fwd : filter (link_lookup (kind self) (Some i) (kind target) (Some j))
                  L = []) by (apply filter_nil_of_existsb; exact Hf).
  assert (Bwd : filter (link_lookup (kind target) (Some j) (kind self) (Some i))
                  L = []) by (apply filter_nil_of_existsb; exact Hr).
  assert (Lff : link_lookup (kind self) (Some i) (kind target) (Some j) f
                = true) by (now apply link_lookup_some).
  assert (Lrr : link_lookup (kind target) (Some j) (kind self) (Some i) r
                = true) by (now apply link_lookup_some).
  assert (Lfr : link_lookup (kind self) (Some i) (kind target) (Some j) r
                = false).
  { apply not_true_is_false. intros E.
    apply link_lookup_some in E. apply Hne. congruence. }
  assert (Lrf : link_lookup (kind target) (Some j) (kind self) (Some i) f
                = false).
  { apply not_true_is_false. intros E.
    apply link_lookup_some in E. apply Hne. congruence. }
  assert (Hlt : (link_id f < link_id r)%Z).
  { rewrite Hidr. apply next_id_bound. rewrite map_app. apply in_or_app.
    right. now left. }
  assert (Hbelow : forall x, In x L -> (link_id x < link_id f)%Z).
  { intros x Hx. rewrite Hidf. apply next_id_bound. now apply in_map. }
  assert (Hrun : link_to now self target s
                 = (Returned f, set_content_links (L ++ [f; r]) s)).
  { unfold link_to. rewrite Hw, opt_Z_eqb_refl. simpl.
    unfold bind. rewrite Hi, Hj.
    rewrite (link_get_or_create_fresh now _ _ _ _ s Hne Hf), <- Ef.
    fold L.
    rewrite (link_get_or_create_fresh now _ _ _ _
               (set_content_links (L ++ [f]) s) Hne').
    - rewrite <- Er. unfold ret. simpl. now rewrite <- app_assoc.
    - unfold has_link. simpl. rewrite existsb_app. simpl.
      unfold has_link in Hr. fold L in Hr. now rewrite Hr, Lrf. }
  exists f, r, (set_content_links (L ++ [f; r]) s).
  split; [exact Hrun|]. split; [reflexivity|].
  split; [exact Kf|]. split; [exact Kr|].
  assert (Hdelf : filter (fun x => negb (link_id x =? link_id f)%Z)
                    (L ++ [f; r]) = L ++ [r]).
  { rewrite filter_app. simpl. rewrite Z.eqb_refl. simpl.
    replace (link_id r =? link_id f)%Z with false
      by (symmetry; apply Z.eqb_neq; lia).
    simpl. rewrite filter_other_ids; [reflexivity|].
    intros x Hx. specialize (Hbelow x Hx). lia. }
  assert (Hdelr : filter (fun x => negb (link_id x =? link_id r)%Z)
                    (L ++ [f; r]) = L ++ [f]).
  { rewrite filter_app. simpl. rewrite Z.eqb_refl. simpl.
    replace (link_id f =? link_id r)%Z with false
      by (apply eq_sym, Z.eqb_neq; lia).
    simpl. rewrite filter_other_ids; [reflexivity|].
    intros x Hx. specialize (Hbelow x Hx). lia. }
  assert (Hdelf' : filter (fun x => negb (link_id x =? link_id f)%Z)
                     (L ++ [f]) = L).
  { rewrite filter_app. simpl. rewrite Z.eqb_refl. simpl.
    rewrite app_nil_r. apply filter_other_ids.
    intros x Hx. specialize (Hbelow x Hx). lia. }
  assert (Hdelr' : filter (fun x => negb (link_id x =? link_id r)%Z)
                     (L ++ [r]) = L).
  { rewrite filter_app. simpl. rewrite Z.eqb_refl. simpl.
    rewrite app_nil_r. apply filter_other_ids.
    intros x Hx. specialize (Hbelow x Hx). lia. }
  split.
  - rewrite (unlink_from_both f r).
    + simpl. rewrite Hdelf, Hdelr'. unfold L.
      now rewrite set_content_links_twice, set_content_links_same.
    + rewrite Hi, Hj. simpl. rewrite filter_app, Fwd. simpl.
      now rewrite Lff, Lfr.
    + rewrite Hi, Hj. simpl. rewrite Hdelf, filter_app, Bwd. simpl.
      now rewrite Lrr.
  - rewrite (unlink_from_both r f).
    + simpl. rewrite Hdelr, Hdelf'. unfold L.
      now rewrite set_content_links_twice, set_content_links_same.
    + rewrite Hi, Hj. simpl. rewrite filter_app, Bwd. simpl.
      now rewrite Lrf, Lrr.
    + rewrite Hi, Hj. simpl. rewrite Hdelr, filter_app, Fwd. simpl.
      now rewrite Lff.
Qed.

Lemma link_then_unlink_restores_witness :
  exists f s1,
    link_to 130 SampleLinks.page1 SampleLinks.page2 SampleLinks.unlinked
    = (Returned f, s1)
    /\ unlink_from SampleLinks.page2 SampleLinks.page1 s1
       = (Returned true, SampleLinks.unlinked).
Proof.
  destruct (link_then_unlink_restores 130 SampleLinks.page1 SampleLinks.page2
              1 2 SampleLinks.unlinked eq_refl eq_refl eq_refl
              ltac:(discriminate) eq_refl eq_refl)
    as (f & r & s1 & Hrun & _ & _ & _ & _ & Hback).
  exists f, s1. split; [exact Hrun|exact Hback].
Defined.

(** ** Links to soft-deleted entities *)

Lemma filter_map_commute {A : Type} (p : A -> bool) (f : A -> A) l :
  (forall x, p (f x) = p x) ->
  filter p (map f l) = map f (filter p l).
Proof.
  intros H. induction l as [|a r IH]; simpl; [reflexivity|].
  rewrite H. destruct (p a); simpl; now rewrite IH.
Qed.

Lemma resolve_after_replace k i e e' s :
  kind e' = kind e -> pk e' = pk e ->
  resolve k i
    (set_contents (map (fun r => if same_row e r then e' else r) (contents s))
       s)
  = option_map (fun r => if same_row e r then e' else r) (resolve k i s).
Proof.
  intros Hk Hp. unfold resolve, all_objects. simpl.
  assert (Hkind : forall x,
             kind (if same_row e x then e' else x) = kind x).
  { intros x. destruct (same_row e x) eqn:E; [|reflexivity].
    apply same_row_key in E as (E1 & _). congruence. }
  assert (Hpk : forall x, pk (if same_row e x then e' else x) = pk x).
  { intros x. destruct (same_row e x) eqn:E; [|reflexivity].
    apply same_row_key in E as (_ & E2). congruence. }
  rewrite (filter_map_commute (fun r => Kind_eqb (kind r) k))
    by (intros x; now rewrite Hkind).
  rewrite (filter_map_commute (fun r => opt_Z_eqb (pk r) (Some i)))
    by (intros x; now rewrite Hpk).
  destruct (filter (fun r => opt_Z_eqb (pk r) (Some i))
              (filter (fun r => Kind_eqb (kind r) k) (contents s)))
    as [|a [|b l]]; reflexivity.
Qed.

Lemma flat_map_resolved {A : Type} (g : Content -> Content)
  (f : A -> option Content) (l : list A) :
  flat_map (fun x => match option_map g (f x) with
                     | Some c => [c]
                     | None => []
                     end) l
  = map g (flat_map (fun x => match f x with
                              | Some c => [c]
                              | None => []
                              end) l).
Proof.
  induction l as [|a r IH]; simpl; [reflexivity|].
  rewrite map_app, IH. now destruct (f a).
Qed.

(** Soft-deleting a stored entity removes no link row and takes the
    entity out of no link listing: [get_linked_content] and
    [get_content_linking_to_this] of every entity list the same rows as
    before, the soft-deleted one in its deleted state. *)
Theorem soft_deleted_entities_stay_linked :
  forall (now : Z) (actor : option Z) (self target : Content) (s : Store),
    pk target <> None ->
    In target (contents s) ->
    let deleted := set_triad true (Some now) actor target in
    let mark := fun r => if same_row target r then deleted else r in
    let s1 := snd (soft_delete now actor target s) in
    content_links s1 = content_links s
    /\ get_linked_content self s1 = map mark (get_linked_content self s)
    /\ get_content_linking_to_this self s1
       = map mark (get_content_linking_to_this self s).
Proof.
  intros now actor self target s Hpk Hin deleted mark s1.
  assert (Hex : existsb (same_row deleted) (contents s) = true)
    by (apply (existsb_same_row target); exact Hin).
  assert (Hs1 : s1 = set_contents (map mark (contents s)) s).
  { unfold s1, soft_delete, mark, deleted.
    now rewrite (forced_write_replaces_row now
                   (set_triad true (Some now) actor target) s Hpk Hex). }
  assert (Hres : forall k i,
             resolve k i s1 = option_map mark (resolve k i s)).
  { intros k i. rewrite Hs1.
    apply (resolve_after_replace k i target deleted s); reflexivity. }
  assert (Hlinks : content_links s1 = content_links s)
    by (rewrite Hs1; reflexivity).
  split; [exact Hlinks|]. split.
  - unfold get_linked_content, outgoing_links. rewrite Hlinks.
    rewrite <- flat_map_resolved. apply flat_map_ext. intros l.
    now rewrite Hres.
  - unfold get_content_linking_to_this, incoming_links. rewrite Hlinks.
    rewrite <- flat_map_resolved. apply flat_map_ext. intros l.
    now rewrite Hres.
Qed.

Lemma soft_deleted_entities_stay_linked_witness :
  get_linked_content SampleLinks.page1
    (snd (soft_delete 140 (Some 1%Z) SampleLinks.page2
            SampleLinks.forward_only))
  = [set_triad true (Some 140%Z) (Some 1%Z) SampleLinks.page2].
Proof.
  exact (proj1 (proj2 (soft_deleted_entities_stay_linked 140 (Some 1%Z)
                         SampleLinks.page1 SampleLinks.page2
                         SampleLinks.forward_only
                         ltac:(discriminate)
                         (or_intror (or_introl eq_refl))))).
Defined.

(** ** What the timeline lists *)

Lemma firstn_In {A : Type} (n : nat) (l : list A) x :
  In x (firstn n l) -> In x l.
Proof.
  intros H. rewrite <- (firstn_skipn n l). apply in_or_app. now left.
Qed.

Lemma skipn_In {A : Type} (n : nat) (l : list A) x :
  In x (skipn n l) -> In x l.
Proof.
  intros H. rewrite <- (firstn_skipn n l). apply in_or_app. now right.
Qed.

Lemma py_slice_In {A : Type} (l : list A) (start stop : Z) x :
  In x (py_slice l start stop) -> In x l.
Proof.
  unfold py_slice. intros H. apply firstn_In in H. now apply skipn_In in H.
Qed.

Lemma timeline_queryset_In w q k s e :
  In e (timeline_queryset w q k s) ->
  In e (objects k s) /\ world e = Some w
  /\ (forall d, q_start_date q = Some d -> (d <= created_at e)%Z)
  /\ (forall d, q_end_date q = Some d -> (created_at e <= d)%Z)
  /\ (q_search q <> EmptyString ->
      PyStr.icontains (title e) (q_search q)
      || PyStr.icontains (content e) (q_search q) = true).
Proof.
  unfold timeline_queryset, newest_first. rewrite stable_sort_In.
  cbv zeta. intros H.
  assert (Hsearch : PyStr.truthy (q_search q) = false ->
                    q_search q <> EmptyString -> False).
  { intros E Hne. apply truthy_iff in Hne. congruence. }
  destruct (PyStr.truthy (q_tags q));
    [destruct (map normalize _) in H|];
    try (apply filter_In in H; destruct H as [H _]);
    (destruct (PyStr.truthy (q_search q)) eqn:Es;
     [apply filter_In in H; destruct H as [H Hs]|]);
    (destruct (q_end_date q) as [de|] eqn:Ee;
     [apply filter_In in H; destruct H as [H He]; apply Z.leb_le in He|]);
    (destruct (q_start_date q) as [ds|] eqn:Ed;
     [apply filter_In in H; destruct H as [H Hd]; apply Z.leb_le in Hd|]);
    (destruct (PyStr.truthy (q_author q));
     [apply filter_In in H; destruct H as [H _]|]);
    apply filter_In in H; destruct H as [H Hw]; apply opt_Z_eqb_eq in Hw;
    (split; [exact H|]); (split; [exact Hw|]);
    (split; [intros d E; try discriminate; inversion E; subst; assumption|]);
    (split; [intros d E; try discriminate; inversion E; subst; assumption|]);
    intros Hne; try assumption; exfalso; now apply Hsearch.
Qed.

Lemma timeline_gather_In w q s e :
  In e (timeline_gather w q s) ->
  In e (timeline_queryset w q (kind e) s)
  /\ (requested_types q = []
      \/ exists name, In (name, kind e) content_models
                      /\ In name (requested_types q)).
Proof.
  unfold timeline_gather. intros H.
  apply in_flat_map in H as ((name & k) & Hm & H).
  assert (Hk : In e (timeline_queryset w q k s) -> kind e = k).
  { intros Hq. apply timeline_queryset_In in Hq as (Hq & _).
    now apply objects_In in Hq. }
  destruct (requested_types q) as [|t ts] eqn:E.
  - pose proof (Hk H) as Ek. subst k. auto.
  - destruct (existsb (String.eqb name) (t :: ts)) eqn:Ex; [|destruct H].
    pose proof (Hk H) as Ek. subst k. split; [exact H|]. right. exists name.
    split; [exact Hm|].
    apply existsb_exists in Ex as (x & Hx & Hn).
    apply String.eqb_eq in Hn. now subst.
Qed.

(** Whatever the query, the timeline lists only stored, visible entities
    of the world, of a requested kind when kinds were requested, created
    within the requested dates and matching the search term; and with a
    non-negative offset and limit it lists at most [min(limit, 200)] of
    them. *)
Theorem timeline_lists_only_matching_content :
  forall (w : Z) (q : TimelineQuery) (s : Store),
    (forall e, In e (timeline w q s) ->
       In e (contents s) /\ is_deleted e = false /\ world e = Some w
       /\ (requested_types q = []
           \/ exists name, In (name, kind e) content_models
                           /\ In name (requested_types q))
       /\ (forall d, q_start_date q = Some d -> (d <= created_at e)%Z)
       /\ (forall d, q_end_date q = Some d -> (created_at e <= d)%Z)
       /\ (q_search q <> EmptyString ->
           PyStr.icontains (title e) (q_search q)
           || PyStr.icontains (content e) (q_search q) = true))
    /\ ((0 <= q_offset q)%Z -> (0 <= q_limit q)%Z ->
        (Z.of_nat (List.length (timeline w q s))
         <= Z.min (q_limit q) 200)%Z).
Proof.
  intros w q s. split.
  - intros e H. unfold timeline in H. apply py_slice_In in H.
    unfold timeline_sorted, newest_first in H. rewrite stable_sort_In in H.
    apply timeline_gather_In in H as (H & Hreq).
    apply timeline_queryset_In in H as (Hobj & Hw & Hstart & Hend & Hsearch).
    apply objects_In in Hobj as (Hin & _ & Hd).
    repeat split; auto.
  - intros Ho Hl. unfold timeline.
    rewrite py_slice_nonneg by lia.
    pose proof (firstn_le_length (Z.to_nat (Z.min (q_limit q) 200))
                  (skipn (Z.to_nat (q_offset q)) (timeline_sorted w q s))).
    lia.
Qed.

Lemma timeline_lists_only_matching_content_witness :
  (Z.of_nat (List.length
               (timeline 1 (with_window default_query 0 1)
                  SampleLinks.unlinked)) <= 1)%Z.
Proof.
  exact (proj2 (timeline_lists_only_matching_content 1
                  (with_window default_query 0 1) SampleLinks.unlinked)
           ltac:(simpl; lia) ltac:(simpl; lia)).
Defined.

Lemma firstn_add_skipn {A : Type} (n m : nat) (l : list A) :
  firstn n l ++ firstn m (skipn n l) = firstn (n + m) l.
Proof.
  revert l. induction n as [|n IH]; intros l; [reflexivity|].
  destruct l as [|a l]; simpl.
  - now rewrite firstn_nil.
  - now rewrite IH.
Qed.

(** Consecutive windows tile the timeline: for a non-negative offset and
    non-negative sizes within the cap of 200, the window of [n] entries
    at [offset] followed by the window of [m] entries at [offset + n] is
    the window of [n + m] entries at [offset]. *)
Theorem timeline_windows_tile :
  forall (w : Z) (q : TimelineQuery) (s : Store) (offset n m : Z),
    (0 <= offset)%Z -> (0 <= n)%Z -> (0 <= m)%Z -> (n + m <= 200)%Z ->
    timeline w (with_window q offset n) s
    ++ timeline w (with_window q (offset + n) m) s
    = timeline w (with_window q offset (n + m)) s.
Proof.
  intros w q s offset n m Ho Hn Hm Hcap. unfold timeline. simpl.
  change (timeline_sorted w (with_window q offset n) s)
    with (timeline_sorted w q s).
  change (timeline_sorted w (with_window q (offset + n) m) s)
    with (timeline_sorted w q s).
  change (timeline_sorted w (with_window q offset (n + m)) s)
    with (timeline_sorted w q s).
  rewrite !Z.min_l by lia.
  rewrite !py_slice_nonneg by lia.
  replace (Z.to_nat (offset + n))
    with (Z.to_nat n + Z.to_nat offset) by lia.
  rewrite <- skipn_skipn, firstn_add_skipn.
  f_equal. lia.
Qed.

Lemma timeline_windows_tile_witness :
  timeline 1 (with_window default_query 0 1) SampleLinks.unlinked
  ++ timeline 1 (with_window default_query 1 1) SampleLinks.unlinked
  = timeline 1 (with_window default_query 0 2) SampleLinks.unlinked.
Proof.
  exact (timeline_windows_tile 1 default_query SampleLinks.unlinked 0 1 1
           ltac:(lia) ltac:(lia) ltac:(lia) ltac:(lia)).
Defined.

(** ** Matching all requested tags *)

Lemma intersection_In i a b : In i (intersection a b) <-> In i a /\ In i b.
Proof. unfold intersection. now rewrite filter_In, mem_Z_In. Qed.

Lemma fold_intersection_some k s (ts : list Tag) (acc : list Z) :
  exists ids,
    fold_left
      (fun acc tag =>
         match acc with
         | None => Some (tag_content_ids k tag s)
         | Some ids => Some (intersection ids (tag_content_ids k tag s))
         end)
      ts (Some acc) = Some ids
    /\ forall i, In i ids <->
                 In i acc /\ forall t, In t ts -> In i (tag_content_ids k t s).
Proof.
  revert acc. induction ts as [|t ts IH]; intros acc; simpl.
  - exists acc. split; [reflexivity|]. intros i. split; [|tauto].
    intros H. split; [exact H|]. intros t [].
  - destruct (IH (intersection acc (tag_content_ids k t s)))
      as (ids & E & Hids).
    exists ids. split; [exact E|]. intros i. rewrite Hids, intersection_In.
    split.
    + intros ((Ha & Ht) & Hall). split; [exact Ha|].
      intros t' [<-|Ht']; auto.
    + intros (Ha & Hall). split; [split; [exact Ha|]|]; auto.
Qed.

(** With [match_all=True] the result consists of the visible entities of
    the kind and world that are associated with every requested tag that
    exists in the world, provided at least one of them exists: requested
    names without a tag do not restrict the result. *)
Theorem get_content_by_tags_all :
  forall (k : Kind) (w : Z) (names : list string) (s : Store) (r : Content),
    In r (get_content_by_tags k w (NameList names) true s) <->
    In r (objects k s) /\ world r = Some w
    /\ exists i,
         pk r = Some i
         /\ (exists n t, In n names /\ In t (tags s)
                         /\ tag_name t = normalize n /\ tag_world t = w
                         /\ normalize n <> EmptyString)
         /\ (forall n t, In n names -> In t (tags s) ->
                         tag_name t = normalize n -> tag_world t = w ->
                         normalize n <> EmptyString ->
                         In i (tag_content_ids k t s)).
Proof.
  intros k w names s r.
  assert (Hnames : forall x,
             In x (filter PyStr.truthy (map normalize names)) <->
             exists n, In n names /\ normalize n = x /\ x <> EmptyString).
  { intros x. rewrite filter_In, in_map_iff, truthy_iff. split.
    - intros [(n & E & Hn) Hx]. now exists n.
    - intros (n & Hn & E & Hx). split; [now exists n|exact Hx]. }
  set (wanted :=
         by_name
           (filter
              (fun t =>
                 existsb (String.eqb (tag_name t))
                   (filter PyStr.truthy (map normalize names))
                 && Z.eqb (tag_world t) w)
              (tags s))).
  assert (Hwanted : forall t,
             In t wanted <->
             In t (tags s) /\ tag_world t = w
             /\ exists n, In n names /\ tag_name t = normalize n
                          /\ normalize n <> EmptyString).
  { intros t. unfold wanted, by_name.
    rewrite stable_sort_In, filter_In, andb_true_iff, Z.eqb_eq,
      existsb_exists.
    split.
    - intros (Ht & (x & Hx & Ex) & Hw). apply String.eqb_eq in Ex. subst x.
      apply Hnames in Hx as (n & Hn & En & Hne).
      repeat split; auto. exists n. rewrite En. auto.
    - intros (Ht & Hw & n & Hn & En & Hne). repeat split; auto.
      exists (normalize n). split; [|now apply String.eqb_eq].
      apply Hnames. now exists n. }
  assert (Hall :
            In r (get_content_by_tags k w (NameList names) true s) <->
            In r (objects k s) /\ world r = Some w
            /\ exists i, pk r = Some i
                         /\ (exists t, In t wanted)
                         /\ forall t, In t wanted ->
                                      In i (tag_content_ids k t s)).
  { unfold get_content_by_tags.
    destruct (filter PyStr.truthy (map normalize names)) as [|a l] eqn:E.
    - split; [intros []|]. intros (_ & _ & i & _ & (t & Ht) & _).
      apply Hwanted in Ht as (_ & _ & n & Hn & _ & Hne).
      apply (proj2 (Hnames (normalize n))). now exists n.
    - fold wanted. destruct wanted as [|t ts] eqn:Ew; simpl.
      + split; [intros []|]. intros (_ & _ & i & _ & (t & []) & _).
      + destruct (fold_intersection_some k s ts (tag_content_ids k t s))
          as (ids & Ef & Hids).
        rewrite Ef.
        assert (Hmem : In r (match ids with
                             | [] => []
                             | i :: ids0 => content_with_ids k w (i :: ids0) s
                             end)
                       <-> In r (content_with_ids k w ids s)).
        { destruct ids; [|tauto]. rewrite content_with_ids_In.
          split; [intros []|]. intros (_ & _ & i & _ & []). }
        rewrite Hmem, content_with_ids_In. split.
        * intros (Ho & Hw & i & Hi & Hin). repeat split; auto.
          exists i. split; [exact Hi|]. split; [exists t; now left|].
          apply Hids in Hin as (Ht & Hts).
          intros t' [<-|Ht']; auto.
        * intros (Ho & Hw & i & Hi & _ & Hin). repeat split; auto.
          exists i. split; [exact Hi|]. apply Hids. split.
          -- apply Hin. now left.
          -- intros t' Ht'. apply Hin. now right. }
  rewrite Hall. split.
  - intros (Ho & Hw & i & Hi & (t & Ht) & Hin). repeat split; auto.
    exists i. split; [exact Hi|]. split.
    + apply Hwanted in Ht as (Ht & Hwt & n & Hn & En & Hne).
      exists n, t. auto.
    + intros n t' Hn Ht' En Hwt Hne. apply Hin, Hwanted.
      repeat split; auto. now exists n.
  - intros (Ho & Hw & i & Hi & (n & t & Hn & Ht & En & Hwt & Hne) & Hin).
    repeat split; auto. exists i. split; [exact Hi|]. split.
    + exists t. apply Hwanted. repeat split; auto. now exists n.
    + intros t' Ht'.
      apply Hwanted in Ht' as (Ht' & Hwt' & n' & Hn' & En' & Hne').
      now apply (Hin n' t').
Qed.

(** ** Uploads with a dangerous extension *)

Lemma lower_append a b :
  PyStr.lower (String.append a b)
  = String.append (PyStr.lower a) (PyStr.lower b).
Proof. induction a as [|c a IH]; simpl; [reflexivity|now rewrite IH]. Qed.

Lemma contains_dot_append base ext :
  PyStr.contains "." (String.append base (String "."%char ext)) = true.
Proof.
  induction base as [|c b IH]; simpl.
  - reflexivity.
  - rewrite IH. apply orb_true_r.
Qed.

Lemma split_on_cons sep s : exists w ws, PyStr.split_on sep s = w :: ws.
Proof.
  destruct s as [|c r]; simpl; [now eexists; eexists|].
  destruct (Ascii.eqb c sep); [now eexists; eexists|].
  destruct (PyStr.split_on sep r); now eexists; eexists.
Qed.

Lemma last_split_on_append sep a b d :
  last (PyStr.split_on sep (String.append a (String sep b))) d
  = last (PyStr.split_on sep b) d
  /\ exists w1 w2 ws,
       PyStr.split_on sep (String.append a (String sep b)) = w1 :: w2 :: ws.
Proof.
  induction a as [|c a (IH & w1 & w2 & ws & E)]; simpl.
  - rewrite Ascii.eqb_refl.
    destruct (split_on_cons sep b) as (w & ws & E). rewrite E.
    split; [reflexivity|]. now exists EmptyString, w, ws.
  - destruct (Ascii.eqb c sep).
    + rewrite E in *. split; [exact IH|].
      now exists EmptyString, w1, (w2 :: ws).
    + rewrite E in *. split; [exact IH|].
      now exists (String c w1), w2, ws.
Qed.

(** A file whose name ends in a dot followed by one of the listed
    extensions, in any letter case, is never accepted, whatever its size,
    its declared type and the limits. *)
Theorem dangerous_extension_is_never_accepted :
  forall (f : UploadedFile) (max_size_mb : Z) (allowed_types : list string)
         (base ext : string),
    upload_name f = String.append base (String "."%char ext) ->
    In (PyStr.lower ext) dangerous_extensions ->
    exists reason, validate_file_upload f max_size_mb allowed_types
                   = Some reason.
Proof.
  intros f max_size_mb allowed_types base ext Hname Hext.
  assert (Hfe : file_extension (upload_name f) = PyStr.lower ext).
  { unfold file_extension. rewrite Hname, contains_dot_append, lower_append.
    simpl PyStr.lower.
    change (PyStr.lower_char "."%char) with "."%char.
    rewrite (proj1 (last_split_on_append "."%char (PyStr.lower base)
                      (PyStr.lower ext) EmptyString)).
    unfold dangerous_extensions in Hext. simpl in Hext.
    decompose [or] Hext; try contradiction;
      match goal with H : _ = PyStr.lower ext |- _ => rewrite <- H end;
      reflexivity. }
  unfold validate_file_upload.
  destruct (max_size_mb * 1024 * 1024 <? upload_size f)%Z;
    [now eexists|].
  destruct (match allowed_types with
            | [] => false
            | _ :: _ =>
                match upload_content_type f with
                | Some ct => negb (existsb (String.eqb ct) allowed_types)
                | None => false
                end
            end); [now eexists|].
  destruct (upload_size f =? 0)%Z; [now eexists|].
  destruct (negb (PyStr.truthy (upload_name f))
            || (String.length (PyStr.strip (upload_name f)) =? 0));
    [now eexists|].
  rewrite Hfe.
  assert (Hex : existsb (String.eqb (PyStr.lower ext)) dangerous_extensions
                = true).
  { apply existsb_exists. exists (PyStr.lower ext).
    split; [exact Hext|apply String.eqb_refl]. }
  rewrite Hex. now eexists.
Qed.

Lemma dangerous_extension_is_never_accepted_witness :
  exists reason,
    validate_file_upload
      {| upload_name := "setup.tar.EXE"; upload_size := 10;
         upload_content_type := Some "image/png" |} 10 ["image/png"]
    = Some reason.
Proof.
  apply (dangerous_extension_is_never_accepted
           {| upload_name := "setup.tar.EXE"; upload_size := 10;
              upload_content_type := Some "image/png" |}
           10 ["image/png"] "setup.tar" "EXE" eq_refl).
  simpl. tauto.
Defined.

(** ** Instances on the sample data *)

Lemma save_with_unchanged_triad_fails_witness :
  exists err,
    save 200 false (Sample.row 1 "Modified Title" (PageX "") 1 1 100)
      Sample.store1
    = (Raised err, Sample.store1).
Proof.
  destruct (save_with_unchanged_triad_fails 200
              (Sample.row 1 "Modified Title" (PageX "") 1 1 100)
              Sample.page1 Sample.store1
              eq_refl eq_refl eq_refl eq_refl eq_refl) as (err & H & _).
  now exists err.
Defined.

Lemma unlink_from_paired_witness :
  exists s',
    unlink_from SampleLinks.page1 SampleLinks.page2
      (snd (link_to 130 SampleLinks.page1 SampleLinks.page2
              SampleLinks.unlinked))
    = (Returned true, s')
    /\ has_link Page 1 Page 2 s' = false.
Proof.
  destruct (unlink_from_paired SampleLinks.page1 SampleLinks.page2 1 2
              (snd (link_to 130 SampleLinks.page1 SampleLinks.page2
                      SampleLinks.unlinked))
              (link_to_preserves_invariant 130 SampleLinks.page1
                 SampleLinks.page2 SampleLinks.unlinked
                 (empty_link_table_invariant SampleLinks.unlinked eq_refl))
              eq_refl eq_refl ltac:(discriminate))
    as (s' & Hrun & Hf & _).
  exists s'. split; [exact Hrun|exact Hf].
Defined.

Lemma get_content_by_tags_blank_witness :
  get_content_by_tags Page 1 (NameList [" "; ""]) true SampleTags.tagged = [].
Proof.
  apply (get_content_by_tags_blank Page 1 [" "; ""] true SampleTags.tagged).
  intros n [<-|[<-|[]]]; reflexivity.
Defined.

(** ** Tag rows *)

(** A tag row is only ever inserted with the trimmed, lowercased form of
    the given name, which is not empty, for a world, and with a name that
    no tag of that world carries yet: the [unique_together] constraint is
    kept; and a rejected creation writes nothing. *)
Theorem tag_create_stores_normalized_name :
  forall (now : Z) (name : string) (w : option Z) (s s' : Store)
         (outcome : Result Tag),
    Tag_create now name w s = (outcome, s') ->
    match outcome with
    | Returned t =>
        tag_name t = normalize name /\ tag_name t <> EmptyString
        /\ w = Some (tag_world t)
        /\ ~ In (tag_key t) (map tag_key (tags s))
        /\ tags s' = tags s ++ [t]
        /\ (NoDup (map tag_key (tags s)) -> NoDup (map tag_key (tags s')))
    | Raised _ => s' = s
    end.
Proof.
  intros now name w s s' outcome. unfold Tag_create.
  destruct (check_blank "name" name ++ check_max_length "name" 100 name
            ++ check_null "world" w) as [|e0 es] eqn:Ef.
  2:{ cbv zeta. simpl. destruct w; intros H; inversion H;
      reflexivity. }
  cbv zeta.
  destruct (PyStr.truthy (PyStr.strip name)) eqn:Et; simpl.
  2:{ destruct w; intros H; inversion H; reflexivity. }
  destruct (existsb (tag_lookup (normalize name) w) (tags s)) eqn:Ex; simpl.
  { destruct w; intros H; inversion H; reflexivity. }
  destruct w as [wid|]; intros H; inversion H; subst; clear H;
    [|reflexivity].
  simpl.
  assert (Hnew : ~ In (normalize name, wid) (map tag_key (tags s))).
  { intros Hin. apply in_map_iff in Hin as (t & Hk & Ht).
    assert (existsb (tag_lookup (normalize name) (Some wid)) (tags s) = true).
    { apply existsb_exists. exists t. split; [exact Ht|].
      now apply tag_lookup_key. }
    congruence. }
  repeat split; auto.
  - unfold normalize. intros E.
    assert (Hl : forall x, PyStr.lower x = EmptyString -> x = EmptyString)
      by (intros [|c x]; [reflexivity|discriminate]).
    apply Hl in E. rewrite E in Et. discriminate.
  - intros Hnd. now apply NoDup_map_snoc.
Qed.

Lemma tag_create_stores_normalized_name_witness :
  exists t s',
    Tag_create 10 "  Dragons " (Some 1%Z) SampleTags.tagged = (Returned t, s')
    /\ tag_name t = "dragons"
    /\ NoDup (map tag_key (tags s')).
Proof.
  eexists. eexists. split; [reflexivity|].
  pose proof (tag_create_stores_normalized_name 10 "  Dragons " (Some 1%Z)
                SampleTags.tagged _ _ eq_refl) as H.
  destruct H as (Hn & _ & _ & _ & _ & Hnd).
  split; [exact Hn|]. apply Hnd. simpl. repeat constructor. simpl. tauto.
Defined.

(** ** One tag, asked for in three ways *)

Lemma content_with_no_ids k w s : content_with_ids k w [] s = [].
Proof.
  unfold content_with_ids.
  rewrite (filter_nil_of_existsb _ (objects k s)); [reflexivity|].
  apply not_true_is_false. intros H.
  apply existsb_exists in H as (r & _ & H).
  destruct (pk r); discriminate.
Qed.

(** On a tag table that satisfies its [unique_together] constraint, asking
    [get_content_by_tags] for a single non-blank name, with or without
    [match_all], gives the result of [get_content_by_tag] for that
    name. *)
Theorem single_tag_queries_agree :
  forall (k : Kind) (w : Z) (name : string) (match_all : bool) (s : Store),
    NoDup (map tag_key (tags s)) ->
    normalize name <> EmptyString ->
    get_content_by_tags k w (NameList [name]) match_all s
    = get_content_by_tag k w name s.
Proof.
  intros k w name match_all s Hnd Hne.
  assert (Hnames : filter PyStr.truthy [normalize name] = [normalize name])
    by (simpl; now rewrite (proj2 (truthy_iff _) Hne)).
  unfold get_content_by_tags, get_content_by_tag. simpl map.
  cbv zeta. rewrite Hnames.
  assert (Hf : filter
                 (fun t => existsb (String.eqb (tag_name t)) [normalize name]
                           && (tag_world t =? w)%Z) (tags s)
               = filter (tag_lookup (normalize name) (Some w)) (tags s)).
  { apply filter_ext. intros t. unfold tag_lookup. simpl.
    now rewrite orb_false_r. }
  cbv zeta. rewrite Hf.
  destruct (filter_nil_or_row tag_key (tag_lookup (normalize name) (Some w))
              (normalize name, w) (tags s) Hnd
              (tag_lookup_key (normalize name) w))
    as [[E _]|(t & E & _)]; rewrite E; simpl.
  - destruct match_all; [reflexivity|apply content_with_no_ids].
  - destruct match_all; simpl.
    + destruct (tag_content_ids k t s) eqn:Eids; [|reflexivity].
      symmetry. apply content_with_no_ids.
    + now rewrite app_nil_r.
Qed.

Lemma single_tag_queries_agree_witness :
  get_content_by_tags Page 1 (NameList [" A "]) true SampleTags.tagged
  = get_content_by_tag Page 1 " A " SampleTags.tagged.
Proof.
  apply (single_tag_queries_agree Page 1 " A " true SampleTags.tagged).
  - simpl. repeat constructor. simpl. tauto.
  - discriminate.
Defined.

(** ** Columns that may not be left empty *)






